(** * sync_to_wechat: a shallow embedding of [scripts/sync_to_wechat.py]

    The script walks a list of image paths, uploads the new or changed ones to
    a remote material store and records every success in a ledger on disk.
    It is embedded as state-passing code over an explicit [world] (the file
    system, the chronological trace of observable events and the number of
    clock reads), with Python's exceptions as a result type.  The libraries
    the script calls ([json], [hashlib], [requests], [time]) are a parameter,
    the [platform]. *)

From Stdlib Require Import ZArith String Ascii List Lia DecimalString DecimalPos.
From stdpp Require Import gmap strings list fin_maps.

#[local] Open Scope Z_scope.

(** ** Strings

    A Python [str] is modelled as a Rocq [string]: a sequence of code points
    below 256. *)

Module Str.

(** [s[:n]] *)
Fixpoint take (n : nat) (s : string) : string :=
  match n, s with
  | S k, String c s' => String c (take k s')
  | _, _ => ""
  end.

(** [s[n:]] *)
Fixpoint drop (n : nat) (s : string) : string :=
  match n, s with
  | S k, String _ s' => drop k s'
  | _, _ => s
  end.

(** [s.startswith(p)] *)
Fixpoint startswith (p s : string) : bool :=
  match p, s with
  | "", _ => true
  | String a p', String b s' => if Ascii.eqb a b then startswith p' s' else false
  | String _ _, "" => false
  end.

(** [s.endswith("/")] *)
Fixpoint ends_with_slash (s : string) : bool :=
  match s with
  | "" => false
  | String c "" => Ascii.eqb c "/"
  | String _ s' => ends_with_slash s'
  end.

(** [k in s] for two strings: [k] occurs in [s] as a substring. *)
Fixpoint contains (k s : string) : bool :=
  startswith k s ||
  match s with
  | "" => false
  | String _ s' => contains k s'
  end.

(** [s.replace(old, new)] for a non-empty [old]: a left-to-right scan that
    replaces every non-overlapping occurrence.  [skip] counts the
    characters of the occurrence just replaced that are still to be
    passed over. *)
Fixpoint replace_from (old new : string) (skip : nat) (s : string) : string :=
  match s with
  | "" => ""
  | String c s' =>
      match skip with
      | S k => replace_from old new k s'
      | O =>
          if startswith old s
          then new +:+ replace_from old new (String.length old - 1) s'
          else String c (replace_from old new 0 s')
      end
  end.

Definition replace (old new s : string) : string := replace_from old new 0 s.

(** [c.isspace()] on the code points below 256. *)
Definition isspace (c : ascii) : bool :=
  let n := nat_of_ascii c in
  ((9 <=? n) && (n <=? 13) || (28 <=? n) && (n <=? 32)
   || (n =? 133) || (n =? 160))%nat.

(** [s.split()]: the maximal runs of non-space characters, in order.
    [cur] is the run being read, kept in reverse. *)
Fixpoint split_from (cur : list ascii) (s : string) : list string :=
  let flush :=
    match cur with
    | [] => []
    | _ => [string_of_list_ascii (rev cur)]
    end in
  match s with
  | "" => flush
  | String c s' =>
      if isspace c then flush ++ split_from [] s'
      else split_from (c :: cur) s'
  end.

Definition split (s : string) : list string := split_from [] s.

(** [s.rstrip("/")] *)
Fixpoint rstrip_slash (s : string) : string :=
  match s with
  | "" => ""
  | String c s' =>
      match rstrip_slash s' with
      | "" => if Ascii.eqb c "/" then "" else String c ""
      | t => String c t
      end
  end.

(** [s[: s.rfind("/") + 1]]: everything up to and including the last
    slash, the empty string when there is none. *)
Fixpoint upto_last_slash (s : string) : string :=
  match s with
  | "" => ""
  | String c s' =>
      match upto_last_slash s' with
      | "" => if Ascii.eqb c "/" then String c "" else ""
      | t => String c t
      end
  end.

(** The character [replace("/", "_")] puts for [c]. *)
Definition flat_char (c : ascii) : ascii :=
  if Ascii.eqb c "/" then "_"%char else c.

(** [f] applied to every character of [s]. *)
Fixpoint map_chars (f : ascii -> ascii) (s : string) : string :=
  match s with
  | "" => ""
  | String c s' => String (f c) (map_chars f s')
  end.

(** [s] is made of white space only. *)
Fixpoint all_space (s : string) : bool :=
  match s with
  | "" => true
  | String c s' => isspace c && all_space s'
  end.

End Str.

(** [os.path.join(a, b)] and [os.path.dirname(p)] of [posixpath]. *)
Definition os_path_join (a b : string) : string :=
  if Str.startswith "/" b then b
  else if (String.eqb a "" || Str.ends_with_slash a)%bool then a +:+ b
  else a +:+ "/" +:+ b.

Definition os_path_dirname (p : string) : string :=
  let head := Str.upto_last_slash p in
  match Str.rstrip_slash head with
  | "" => head          (* empty, or nothing but slashes *)
  | h => h
  end.

(** ** Python values

    Every value the script stores or receives comes out of [json.load] or is
    built from such values, strings and numbers, so one type of JSON
    documents serves for all of them: [None] is [JNull], a [dict] with string
    keys is [JDict].  Numbers are exact integers: the seconds of [time.time()]
    and of the provider's [expires_in] are not rounded. *)

#[warnings="-register-all"]
Inductive json : Type :=
  | JNull
  | JBool (b : bool)
  | JNum (n : Z)
  | JStr (s : string)
  | JList (l : list json)
  | JDict (d : gmap string json).

(** The exceptions the script can meet.  [SystemExit] is the only one that is
    not an [Exception]: [except Exception] lets it through. *)
Inductive exn : Type :=
  | FileNotFoundError (path : string)
  | IsADirectoryError (path : string)
  | PermissionError (path : string)
  | FileExistsError (path : string)
  | JSONDecodeError
  | TypeError
  | AttributeError
  | KeyError (key : string)
  | RequestException (text : string)
  | SystemExit (code : Z).

Definition is_Exception (e : exn) : bool :=
  match e with
  | SystemExit _ => false
  | _ => true
  end.

(** [str(e)] *)
Definition str_exn (e : exn) : string :=
  match e with
  | FileNotFoundError p => "[Errno 2] No such file or directory: '" +:+ p +:+ "'"
  | IsADirectoryError p => "[Errno 21] Is a directory: '" +:+ p +:+ "'"
  | PermissionError p => "[Errno 13] Permission denied: '" +:+ p +:+ "'"
  | FileExistsError p => "[Errno 17] File exists: '" +:+ p +:+ "'"
  | JSONDecodeError => "Expecting value: line 1 column 1 (char 0)"
  | TypeError => "unsupported operand type"
  | AttributeError => "object has no attribute 'get'"
  | KeyError k => "'" +:+ k +:+ "'"
  | RequestException t => t
  | SystemExit _ => ""
  end.

Inductive result (A : Type) : Type :=
  | Ok (a : A)
  | Raise (e : exn).
Arguments Ok {A} a.
Arguments Raise {A} e.

(** The exit status of the process for the outcome of [main()]: 0 on a normal
    return, the argument of [sys.exit], 1 on an uncaught exception. *)
Definition exit_status {A} (r : result A) : Z :=
  match r with
  | Ok _ => 0
  | Raise (SystemExit c) => c
  | Raise _ => 1
  end.

(** ** The world *)

(** A path of the file system holds a file or a directory.  A file that is
    not [accessible] cannot be opened. *)
Inductive node : Type :=
  | File (accessible : bool) (data : string)
  | Dir.

Inductive request : Type :=
  | Get (url : string)
  | Post (url : string) (file_name : string) (data : string).

(** What a request meets: a transport failure with its text, or a response
    with its body. *)
Inductive response : Type :=
  | Failed (text : string)
  | Body (text : string).

(** The lines the script prints, by the place that prints them and the
    values they show. *)
Inductive message : Type :=
  | MsgStart
  | MsgNothingToSync
  | MsgMissingCredentials
  | MsgTokenFailed (data : json)
  | MsgNetworkError (e : exn)
  | MsgLocalMissing (local_filename : string)
  | MsgSkip (img_rel_path : string)
  | MsgUpdate (img_rel_path : string)
  | MsgUpload (img_rel_path local_filename : string)
  | MsgSynced (media_id : json)
  | MsgSyncFailed (res : json)
  | MsgSummary (success_count skip_count fail_count : nat).

Inductive event : Type :=
  | EvPrint (m : message)
  | EvSleep (seconds : Z)
  | EvHttp (r : request).

Record world : Type := World {
  fs : gmap string node;
  trace : list event;      (* oldest first *)
  ticks : nat              (* calls of time.time() so far *)
}.

(** The libraries and the outside: the JSON codec, MD5, [repr], the remote
    API (its answer may depend on everything that happened before) and the
    clock (its [n]-th reading). *)
Record platform : Type := Platform {
  json_dumps : option nat -> json -> string;   (* indent, document *)
  json_loads : string -> option json;
  md5_hexdigest : string -> string;
  repr : json -> string;
  remote : list event -> request -> response;
  clock : nat -> Z
}.

(** The module-level state of the script. *)
Record config : Type := Config {
  APP_ID : option string;          (* os.environ.get('WECHAT_APP_ID') *)
  APP_SECRET : option string;      (* os.environ.get('WECHAT_APP_SECRET') *)
  WORKSPACE_DIR : string;          (* os.path.expanduser("~/blog-sync") *)
  argv : list string               (* sys.argv *)
}.

Definition HISTORY_FILE (cfg : config) : string :=
  os_path_join (WORKSPACE_DIR cfg) "sync_history.json".

Definition IMAGES_LIST (cfg : config) : list string :=
  match argv cfg with
  | _ :: a :: _ => Str.split a
  | _ => []
  end.

(** ** The monad: state over [world], with exceptions *)

Definition M (A : Type) : Type := world -> result A * world.

Definition ret {A} (a : A) : M A := fun w => (Ok a, w).

Definition raise {A} (e : exn) : M A := fun w => (Raise e, w).

Definition bind {A B} (m : M A) (k : A -> M B) : M B :=
  fun w =>
    match m w with
    | (Ok a, w') => k a w'
    | (Raise e, w') => (Raise e, w')
    end.

Definition lift {A} (r : result A) : M A := fun w => (r, w).

(** [try: body / except Exception as e: handler e] *)
Definition try_except {A} (body : M A) (handler : exn -> M A) : M A :=
  fun w =>
    match body w with
    | (Raise e, w') => if is_Exception e then handler e w' else (Raise e, w')
    | r => r
    end.

(** [try: body / except: handler], which catches everything. *)
Definition try_bare {A} (body : M A) (handler : M A) : M A :=
  fun w =>
    match body w with
    | (Raise _, w') => handler w'
    | r => r
    end.

Declare Scope py_scope.
Delimit Scope py_scope with py.
Notation "x <- m ;; k" := (bind m (fun x => k))
  (at level 100, m at next level, right associativity) : py_scope.
Notation "m ;;; k" := (bind m (fun _ => k))
  (at level 100, right associativity) : py_scope.
#[local] Open Scope py_scope.

(** The world after one more event. *)
Definition record (e : event) (w : world) : world :=
  World (fs w) (trace w ++ [e]) (ticks w).

Definition emit (e : event) : M unit := fun w => (Ok tt, record e w).

Definition print (m : message) : M unit := emit (EvPrint m).

(** [time.sleep(n)] *)
Definition time_sleep (n : Z) : M unit := emit (EvSleep n).

(** ** Python's operations on untyped documents

    The script tests key presence and reads fields of whatever [json.load]
    and [res.json()] hand back; on a value of the wrong type these
    operations raise. *)

(** Truth value of a document ([not token]). *)
Definition py_truthy (v : json) : bool :=
  match v with
  | JNull => false
  | JBool b => b
  | JNum n => negb (n =? 0)
  | JStr s => negb (String.eqb s "")
  | JList l => match l with [] => false | _ => true end
  | JDict d => negb (bool_decide (d = ∅))
  end.

(** Truth value of an environment variable: unset and empty are both false. *)
Definition env_truthy (o : option string) : bool :=
  match o with
  | Some (String _ _) => true
  | _ => false
  end.

(** [v == s] for a string [s]. *)
Definition py_eq_str (v : json) (s : string) : bool :=
  match v with
  | JStr t => String.eqb t s
  | _ => false
  end.

(** [k in v] for a string [k]. *)
Definition py_contains (k : string) (v : json) : result bool :=
  match v with
  | JDict d => Ok (bool_decide (is_Some (d !! k)))
  | JList l => Ok (existsb (fun x => py_eq_str x k) l)
  | JStr s => Ok (Str.contains k s)
  | _ => Raise TypeError
  end.

(** [v[k]] for a string [k]. *)
Definition py_getitem (v : json) (k : string) : result json :=
  match v with
  | JDict d =>
      match d !! k with
      | Some x => Ok x
      | None => Raise (KeyError k)
      end
  | _ => Raise TypeError
  end.

(** [v.get(k, dflt)] *)
Definition py_get (v : json) (k : string) (dflt : json) : result json :=
  match v with
  | JDict d => Ok (default dflt (d !! k))
  | _ => Raise AttributeError
  end.

(** [v[k] = x]; the updated document is returned. *)
Definition py_setitem (v : json) (k : string) (x : json) : result json :=
  match v with
  | JDict d => Ok (JDict (<[k := x]> d))
  | _ => Raise TypeError
  end.

(** A document used as a number in arithmetic or a comparison. *)
Definition py_number (v : json) : result Z :=
  match v with
  | JNum n => Ok n
  | JBool b => Ok (if b then 1 else 0)
  | _ => Raise TypeError
  end.

(** The text of an environment variable inside an f-string. *)
Definition env_str (o : option string) : string := default "None" o.

Section Script.

Variable P : platform.
Variable cfg : config.

(** *** Primitives *)

(** [time.time()] *)
Definition time_time : M Z :=
  fun w => (Ok (clock P (ticks w)), World (fs w) (trace w) (S (ticks w))).

(** [os.path.exists(p)] *)
Definition os_path_exists (p : string) : M bool :=
  fun w => (Ok (bool_decide (is_Some (fs w !! p))), w).

(** [os.makedirs(p, exist_ok=True)]; the directories above [p] are not
    tracked. *)
Definition os_makedirs (p : string) : M unit :=
  fun w =>
    match fs w !! p with
    | Some Dir => (Ok tt, w)
    | Some (File _ _) => (Raise (FileExistsError p), w)
    | None => (Ok tt, World (<[p := Dir]> (fs w)) (trace w) (ticks w))
    end.

(** [open(p, 'r')] or [open(p, 'rb')], and what the file holds. *)
Definition open_read (p : string) : M string :=
  fun w =>
    match fs w !! p with
    | Some (File true data) => (Ok data, w)
    | Some (File false _) => (Raise (PermissionError p), w)
    | Some Dir => (Raise (IsADirectoryError p), w)
    | None => (Raise (FileNotFoundError p), w)
    end.

(** [p] names a directory; the empty path is the working directory. *)
Definition is_dir (w : world) (p : string) : bool :=
  match p, fs w !! p with
  | "", _ => true
  | _, Some Dir => true
  | _, _ => false
  end.

(** [with open(p, 'w') as f: json.dump(..., f)]: the file is replaced, or
    created when its directory exists.  Dumping a document cannot fail, so
    opening the file, which empties it, and writing it are one step. *)
Definition write_file (p data : string) : M unit :=
  fun w =>
    let written := World (<[p := File true data]> (fs w)) (trace w) (ticks w) in
    match fs w !! p with
    | Some (File true _) => (Ok tt, written)
    | Some (File false _) => (Raise (PermissionError p), w)
    | Some Dir => (Raise (IsADirectoryError p), w)
    | None =>
        if is_dir w (os_path_dirname p) then (Ok tt, written)
        else (Raise (FileNotFoundError p), w)
    end.

(** [json.loads(text)], also behind [json.load(f)] and [res.json()]. *)
Definition json_parse (text : string) : M json :=
  match json_loads P text with
  | Some v => ret v
  | None => raise JSONDecodeError
  end.

(** [requests.get] and [requests.post]: the request is sent, and either
    the transport fails or a body comes back. *)
Definition http (r : request) : M string :=
  fun w =>
    let w' := record (EvHttp r) w in
    match remote P (trace w) r with
    | Failed t => (Raise (RequestException t), w')
    | Body t => (Ok t, w')
    end.

(** A value inside an f-string. *)
Definition py_format (v : json) : string :=
  match v with
  | JStr s => s
  | _ => repr P v
  end.

(** *** load_history, save_history *)

Definition load_history : M json :=
  ex <- os_path_exists (HISTORY_FILE cfg) ;;
  if ex : bool then
    try_except
      (text <- open_read (HISTORY_FILE cfg) ;; json_parse text)
      (fun _ => ret (JDict ∅))
  else ret (JDict ∅).

Definition save_history (history : json) : M unit :=
  os_makedirs (WORKSPACE_DIR cfg) ;;;
  write_file (HISTORY_FILE cfg) (json_dumps P (Some 2%nat) history).

(** *** calculate_md5 *)

(** The loop [for chunk in iter(lambda: f.read(4096), b""):
    hash_md5.update(chunk)].  [rest] is what the file still holds, [fed]
    what the hash object has been fed; the loop ends at the first empty
    chunk.  [reads] bounds the number of reads: one more than the length of
    the file always reaches the empty chunk ([StrFacts.md5_chunks_all]). *)
Fixpoint md5_chunks (reads size : nat) (rest fed : string) : string :=
  match reads with
  | O => fed
  | S reads' =>
      match Str.take size rest with
      | "" => fed
      | chunk => md5_chunks reads' size (Str.drop size rest) (fed +:+ chunk)
      end
  end.

Definition calculate_md5 (file_path : string) : M string :=
  data <- open_read file_path ;;
  ret (md5_hexdigest P (md5_chunks (S (String.length data)) 4096 data "")).

(** *** get_access_token *)

Definition token_file : string :=
  os_path_join (WORKSPACE_DIR cfg) "access_token.json".

Definition token_url : string :=
  "https://api.weixin.qq.com/cgi-bin/token?grant_type=client_credential&appid="
  +:+ env_str (APP_ID cfg) +:+ "&secret=" +:+ env_str (APP_SECRET cfg).

(** The cache lookup: [Some token] stands for the [return data['token']]
    inside the [try], [None] for falling through to the request. *)
Definition read_token_cache : M (option json) :=
  ex <- os_path_exists token_file ;;
  if ex : bool then
    try_bare
      (text <- open_read token_file ;;
       data <- json_parse text ;;
       expires_at <- lift (py_get data "expires_at" (JNum 0)) ;;
       now <- time_time ;;
       e <- lift (py_number expires_at) ;;
       if now <? e then
         token <- lift (py_getitem data "token") ;;
         ret (Some token)
       else ret None)
      (ret None)
  else ret None.

(** The token exchange, from [url = ...] to the end of the function.  (The
    script reads [data['access_token']] for the dump after it has opened the
    cache file; the read cannot fail there, so the order does not show.) *)
Definition refresh_token : M json :=
  try_except
    (text <- http (Get token_url) ;;
     data <- json_parse text ;;
     has <- lift (py_contains "access_token" data) ;;
     if has : bool then
       now <- time_time ;;
       expires_in <- lift (py_getitem data "expires_in") ;;
       ttl <- lift (py_number expires_in) ;;
       let expires_at := now + ttl - 300 in
       access_token <- lift (py_getitem data "access_token") ;;
       write_file token_file
         (json_dumps P None
            (JDict (<["token" := access_token]>
                      (<["expires_at" := JNum expires_at]> ∅)))) ;;;
       ret access_token
     else
       print (MsgTokenFailed data) ;;;
       ret JNull)
    (fun e =>
       print (MsgNetworkError e) ;;;
       ret JNull).

Definition get_access_token : M json :=
  if (negb (env_truthy (APP_ID cfg)) || negb (env_truthy (APP_SECRET cfg)))%bool then
    print MsgMissingCredentials ;;;
    ret JNull
  else
    cached <- read_token_cache ;;
    match cached with
    | Some token => ret token
    | None => refresh_token
    end.

(** *** upload_image *)

Definition upload_url (token : json) : string :=
  "https://api.weixin.qq.com/cgi-bin/material/add_material?access_token="
  +:+ py_format token +:+ "&type=image".

Definition upload_image (token : json) (file_path original_path : string) : M json :=
  let url := upload_url token in
  let file_name := Str.replace "/" "_" original_path in
  try_except
    (data <- open_read file_path ;;
     text <- http (Post url file_name data) ;;
     json_parse text)
    (fun e =>
       ret (JDict (<["errcode" := JNum (-1)]>
                     (<["errmsg" := JStr (str_exn e)]> ∅)))).

(** *** main *)

(** The variables of the loop. *)
Record sync_state : Type := SyncState {
  history : json;
  success_count : nat;
  skip_count : nat;
  fail_count : nat
}.

(** The block [if img_rel_path in history: ...]: [true] when the path is
    recorded with the same MD5, which is the [continue] of the skip. *)
Definition unchanged (history : json) (img_rel_path file_md5 : string) : M bool :=
  known <- lift (py_contains img_rel_path history) ;;
  if known : bool then
    entry <- lift (py_getitem history img_rel_path) ;;
    md5 <- lift (py_get entry "md5" JNull) ;;
    if py_eq_str md5 file_md5 then
      print (MsgSkip img_rel_path) ;;;
      ret true
    else
      print (MsgUpdate img_rel_path) ;;;
      ret false
  else ret false.

(** The block [if 'media_id' in result: ... else: ...]. *)
Definition record_result (st : sync_state) (img_rel_path file_md5 : string)
    (res : json) : M sync_state :=
  has <- lift (py_contains "media_id" res) ;;
  if has : bool then
    shown <- lift (py_getitem res "media_id") ;;
    print (MsgSynced shown) ;;;
    media_id <- lift (py_getitem res "media_id") ;;
    url <- lift (py_get res "url" JNull) ;;
    now <- time_time ;;
    history' <- lift (py_setitem (history st) img_rel_path
                        (JDict (<["media_id" := media_id]>
                                  (<["url" := url]>
                                     (<["md5" := JStr file_md5]>
                                        (<["time" := JNum now]> ∅)))))) ;;
    save_history history' ;;;
    ret (SyncState history' (S (success_count st)) (skip_count st) (fail_count st))
  else
    print (MsgSyncFailed res) ;;;
    ret (SyncState (history st) (success_count st) (skip_count st) (S (fail_count st))).

(** One turn of [for img_rel_path in IMAGES_LIST]. *)
Definition sync_one (token : json) (st : sync_state) (img_rel_path : string)
    : M sync_state :=
  let local_filename := Str.replace "/" "_" img_rel_path in
  ex <- os_path_exists local_filename ;;
  if negb ex then
    print (MsgLocalMissing local_filename) ;;;
    ret st
  else
    file_md5 <- calculate_md5 local_filename ;;
    same <- unchanged (history st) img_rel_path file_md5 ;;
    if same : bool then
      ret (SyncState (history st) (success_count st) (S (skip_count st)) (fail_count st))
    else
      print (MsgUpload img_rel_path local_filename) ;;;
      res <- upload_image token local_filename img_rel_path ;;
      st' <- record_result st img_rel_path file_md5 res ;;
      time_sleep 1 ;;;
      ret st'.

Fixpoint sync_all (token : json) (images : list string) (st : sync_state)
    : M sync_state :=
  match images with
  | [] => ret st
  | img_rel_path :: rest =>
      st' <- sync_one token st img_rel_path ;;
      sync_all token rest st'
  end.

Definition main : M unit :=
  print MsgStart ;;;
  match IMAGES_LIST cfg with
  | [] =>
      print MsgNothingToSync ;;;
      ret tt
  | images =>
      os_makedirs (WORKSPACE_DIR cfg) ;;;
      token <- get_access_token ;;
      if negb (py_truthy token) then raise (SystemExit 1)
      else
        history <- load_history ;;
        st <- sync_all token images (SyncState history 0 0 0) ;;
        print (MsgSummary (success_count st) (skip_count st) (fail_count st))
  end.

End Script.

(** ** The vocabulary of the statements *)

Section Vocabulary.

Variable P : platform.
Variable cfg : config.

(** The history file cannot be used: it is absent, a directory, cannot be
    opened, or its text does not parse. *)
Definition history_unusable (w : world) : Prop :=
  match fs w !! HISTORY_FILE cfg with
  | Some (File true text) => json_loads P text = None
  | _ => True
  end.

(** The entry the script records for a successful upload. *)
Definition ledger_entry (media_id url : json) (file_md5 : string) (now : Z) : json :=
  JDict (<["media_id" := media_id]>
           (<["url" := url]>
              (<["md5" := JStr file_md5]>
                 (<["time" := JNum now]> ∅)))).

(** The failure-shaped result of [upload_image] for an exception. *)
Definition error_result (e : exn) : json :=
  JDict (<["errcode" := JNum (-1)]> (<["errmsg" := JStr (str_exn e)]> ∅)).

(** The document kept in the token cache. *)
Definition cached_token (token : json) (expires_at : Z) : json :=
  JDict (<["token" := token]> (<["expires_at" := JNum expires_at]> ∅)).

(** [write_file] will succeed on [p]. *)
Definition writable (w : world) (p : string) : Prop :=
  match fs w !! p with
  | Some (File true _) => True
  | Some _ => False
  | None => is_dir w (os_path_dirname p) = true
  end.

(** The token cache is there and cannot be used: it is a directory, cannot
    be opened, or its text does not parse. *)
Definition token_cache_corrupt (w : world) : Prop :=
  match fs w !! token_file cfg with
  | Some (File true text) => json_loads P text = None
  | Some _ => True
  | None => False
  end.

(** The end of a turn of the loop, from [print(f"[upload] ...")] on, as
    [sync_one] has it. *)
Definition upload_tail (token : json) (st : sync_state)
    (img_rel_path file_md5 : string) : M sync_state :=
  print (MsgUpload img_rel_path (Str.replace "/" "_" img_rel_path)) ;;;
  res <- upload_image P token (Str.replace "/" "_" img_rel_path) img_rel_path ;;
  st' <- record_result P cfg st img_rel_path file_md5 res ;;
  time_sleep 1 ;;;
  ret st'.



(** The ledger is a mapping whose entries are objects. *)
Definition ledger_shape (h : json) : Prop :=
  exists d : gmap string json,
    h = JDict d /\
    forall (k : string) (v : json), d !! k = Some v -> exists e, v = JDict e.


(** The workspace directory is there and the history file can be written. *)
Definition ledger_writable (w : world) : Prop :=
  fs w !! WORKSPACE_DIR cfg = Some Dir /\ writable w (HISTORY_FILE cfg).


(** The token cache answers with [token]: the cache file opens and parses
    to an object that holds [token] and whose [expires_at] (0 when the key
    is missing) is a number greater than the clock's reading. *)
Definition cache_valid (w : world) (token : json) : Prop :=
  exists (text : string) (c : gmap string json) (e : Z),
    fs w !! token_file cfg = Some (File true text) /\
    json_loads P text = Some (JDict c) /\
    py_number (default (JNum 0) (c !! "expires_at")) = Ok e /\
    clock P (ticks w) < e /\
    c !! "token" = Some token.

(** The ledger [d] has [p] as its local file is now: the file can be read
    and the entry of [p] is an object whose [md5] is the digest of the
    file. *)
Definition synced (d : gmap string json) (w : world) (p : string) : Prop :=
  exists (data : string) (entry : gmap string json),
    fs w !! Str.replace "/" "_" p = Some (File true data) /\
    d !! p = Some (JDict entry) /\
    entry !! "md5" = Some (JStr (md5_hexdigest P data)).

(** The line a turn prints for a path that it does not upload. *)
Definition quiet_line (w : world) (p : string) : event :=
  if bool_decide (is_Some (fs w !! Str.replace "/" "_" p))
  then EvPrint (MsgSkip p)
  else EvPrint (MsgLocalMissing (Str.replace "/" "_" p)).

(** The listed paths whose local file is there. *)
Fixpoint present (w : world) (images : list string) : nat :=
  match images with
  | [] => 0%nat
  | p :: rest =>
      ((if bool_decide (is_Some (fs w !! Str.replace "/" "_" p)) then 1 else 0)
       + present w rest)%nat
  end.




(** Apart from the workspace directory and the history file, the file
    system of [w'] is that of [w]. *)
Definition same_files (w w' : world) : Prop :=
  forall k : string,
    k <> HISTORY_FILE cfg -> k <> WORKSPACE_DIR cfg -> fs w' !! k = fs w !! k.

(** The token cache is in the way: its path is a directory or a file that
    cannot be opened, so it can be neither read nor written. *)
Definition cache_blocked (w : world) : Prop :=
  match fs w !! token_file cfg with
  | Some (File false _) | Some Dir => True
  | _ => False
  end.

(** The ledger [d] has no entry for [p], or one whose [md5] is not
    [file_md5]: the turn goes on to the upload. *)
Definition needs_upload (d : gmap string json) (p file_md5 : string) : Prop :=
  match d !! p with
  | None => True
  | Some (JDict entry) => py_eq_str (default JNull (entry !! "md5")) file_md5 = false
  | Some _ => False
  end.

(** The line printed before the upload of a path that the ledger knows. *)
Definition update_line (d : gmap string json) (p : string) : list event :=
  match d !! p with
  | None => []
  | Some _ => [EvPrint (MsgUpdate p)]
  end.

(** Kinds of events, and how many events of a kind a trace holds. *)
Definition is_sleep (e : event) : bool :=
  match e with
  | EvSleep _ => true
  | _ => false
  end.

Definition is_post (e : event) : bool :=
  match e with
  | EvHttp (Post _ _ _) => true
  | _ => false
  end.

Definition is_get (e : event) : bool :=
  match e with
  | EvHttp (Get _) => true
  | _ => false
  end.

Definition is_missing (e : event) : bool :=
  match e with
  | EvPrint (MsgLocalMissing _) => true
  | _ => false
  end.

Fixpoint count_events (kind : event -> bool) (tr : list event) : nat :=
  match tr with
  | [] => 0%nat
  | e :: rest => ((if kind e then 1 else 0) + count_events kind rest)%nat
  end.

(** Some character of [s] is white space. *)
Fixpoint has_space (s : string) : bool :=
  match s with
  | "" => false
  | String c s' => Str.isspace c || has_space s'
  end.

(** Some character of [s] is a slash. *)
Fixpoint has_slash (s : string) : bool :=
  match s with
  | "" => false
  | String c s' => Ascii.eqb c "/" || has_slash s'
  end.

End Vocabulary.

(** C3 as the spec states it, for one run: the run ends with a non-zero
    exit status, has sent no request and has left the file system as it
    was. *)
Definition aborts_without_side_effect (P : platform) (cfg : config) (w : world)
    : Prop :=
  exit_status (fst (main P cfg w)) <> 0 /\
  (forall rq : request, EvHttp rq ∉ trace (snd (main P cfg w))) /\
  fs (snd (main P cfg w)) = fs w.




(** C4 as the spec states it, for one turn of the loop: when the turn
    returns, the last thing it did was to sleep for 1 second. *)
Definition sleeps_after_file (P : platform) (cfg : config) (token : json)
    (st : sync_state) (img_rel_path : string) (w : world) : Prop :=
  forall (st' : sync_state) (w' : world),
    sync_one P cfg token st img_rel_path w = (Ok st', w') ->
    exists tr : list event, trace w' = trace w ++ tr ++ [EvSleep 1].

(** * A concrete platform

    The codec of Python's [json] module as documented, on the documents of
    this embedding (the numbers are integers): [json.dumps] with
    [ensure_ascii] and the separators of [indent=None] and [indent=n], the
    members of an object written in the order of the map, and [json.loads]
    with the escapes and the white space of JSON.  With it a toy digest, and
    scripted remotes and clocks, to run the script on concrete worlds. *)

Module Demo.

Definition quote : string := String (ascii_of_nat 34) "".
Definition backslash : ascii := ascii_of_nat 92.
Definition newline : string := String (ascii_of_nat 10) "".

Definition hex_digit (n : nat) : ascii :=
  ascii_of_nat (if (n <? 10)%nat then 48 + n else 87 + n).

Definition escape_char (c : ascii) : string :=
  let n := nat_of_ascii c in
  if (n =? 34)%nat then String backslash quote
  else if (n =? 92)%nat then String backslash (String backslash "")
  else if (n =? 10)%nat then String backslash "n"
  else if (n =? 13)%nat then String backslash "r"
  else if (n =? 9)%nat then String backslash "t"
  else if (n =? 8)%nat then String backslash "b"
  else if (n =? 12)%nat then String backslash "f"
  else if ((n <? 32) || (126 <? n))%nat then
    String backslash "u00" +:+
    String (hex_digit (n / 16)) (String (hex_digit (n mod 16)) "")
  else String c "".

Fixpoint escape (s : string) : string :=
  match s with
  | "" => ""
  | String c s' => escape_char c +:+ escape s'
  end.

Definition dumps_string (s : string) : string := quote +:+ escape s +:+ quote.

Definition dumps_int (n : Z) : string :=
  match n with
  | Z0 => "0"
  | Zpos p => NilEmpty.string_of_uint (Pos.to_uint p)
  | Zneg p => "-" +:+ NilEmpty.string_of_uint (Pos.to_uint p)
  end.

Fixpoint spaces (n : nat) : string :=
  match n with
  | O => ""
  | S k => " " +:+ spaces k
  end.

(** The break before an item at nesting [level]. *)
Definition break (indent : option nat) (level : nat) : string :=
  match indent with
  | Some n => newline +:+ spaces (n * level)
  | None => ""
  end.

Fixpoint join (sep : string) (items : list string) : string :=
  match items with
  | [] => ""
  | [x] => x
  | x :: rest => x +:+ sep +:+ join sep rest
  end.

Definition bracket (indent : option nat) (level : nat) (open close : string)
    (items : list string) : string :=
  match items with
  | [] => open +:+ close
  | _ =>
      let sep := match indent with Some _ => "," | None => ", " end in
      open +:+ break indent (S level)
      +:+ join (sep +:+ break indent (S level)) items
      +:+ break indent level +:+ close
  end.

Fixpoint dumps_at (indent : option nat) (level : nat) (v : json) : string :=
  match v with
  | JNull => "null"
  | JBool true => "true"
  | JBool false => "false"
  | JNum n => dumps_int n
  | JStr s => dumps_string s
  | JList l =>
      bracket indent level "[" "]"
        (foldr (fun x acc => dumps_at indent (S level) x :: acc) [] l)
  | JDict d =>
      bracket indent level "{" "}"
        (map_fold
           (fun k x acc =>
              (dumps_string k +:+ ": " +:+ dumps_at indent (S level) x) :: acc)
           [] d)
  end.

Definition dumps (indent : option nat) (v : json) : string := dumps_at indent 0 v.

(** A member of an object as it is written, for values written by [txt]. *)
Definition member_text (txt : json -> string) (p : string * json) : string :=
  dumps_string p.1 +:+ ": " +:+ txt p.2.

(** The parser: recursive descent, bounded by [fuel]. *)

Definition is_ws (c : ascii) : bool :=
  let n := nat_of_ascii c in
  ((n =? 32) || (n =? 10) || (n =? 13) || (n =? 9))%nat.

Fixpoint skip_ws (s : string) : string :=
  match s with
  | String c s' => if is_ws c then skip_ws s' else s
  | "" => ""
  end.

Definition digit_of (c : ascii) : option Z :=
  let n := nat_of_ascii c in
  if ((48 <=? n) && (n <=? 57))%nat then Some (Z.of_nat (n - 48)) else None.

Definition hex_of (c : ascii) : option nat :=
  let n := nat_of_ascii c in
  if ((48 <=? n) && (n <=? 57))%nat then Some (n - 48)%nat
  else if ((97 <=? n) && (n <=? 102))%nat then Some (n - 87)%nat
  else if ((65 <=? n) && (n <=? 70))%nat then Some (n - 55)%nat
  else None.

(** The digits at the head of [s], read into [acc]; [seen] tells whether one
    was read. *)
Fixpoint parse_digits (acc : Z) (seen : bool) (s : string) : option (Z * string) :=
  match s with
  | String c s' =>
      match digit_of c with
      | Some d => parse_digits (10 * acc + d) true s'
      | None => if seen then Some (acc, s) else None
      end
  | "" => if seen then Some (acc, "") else None
  end.

(** The inside of a string literal, up to the closing quote; [acc] is what
    was read, in reverse. *)
Fixpoint parse_chars (acc : list ascii) (s : string) : option (string * string) :=
  match s with
  | "" => None
  | String c s' =>
      let n := nat_of_ascii c in
      if (n =? 34)%nat then Some (string_of_list_ascii (rev acc), s')
      else if (n =? 92)%nat then
        match s' with
        | String e s'' =>
            let m := nat_of_ascii e in
            if (m =? 110)%nat then parse_chars (ascii_of_nat 10 :: acc) s''
            else if (m =? 114)%nat then parse_chars (ascii_of_nat 13 :: acc) s''
            else if (m =? 116)%nat then parse_chars (ascii_of_nat 9 :: acc) s''
            else if (m =? 98)%nat then parse_chars (ascii_of_nat 8 :: acc) s''
            else if (m =? 102)%nat then parse_chars (ascii_of_nat 12 :: acc) s''
            else if (m =? 117)%nat then
              match s'' with
              | String a (String b (String x (String y s3))) =>
                  match hex_of a, hex_of b, hex_of x, hex_of y with
                  | Some 0%nat, Some 0%nat, Some h, Some l =>
                      parse_chars (ascii_of_nat (16 * h + l) :: acc) s3
                  | _, _, _, _ => None
                  end
              | _ => None
              end
            else if ((m =? 34) || (m =? 92) || (m =? 47))%nat
            then parse_chars (e :: acc) s''
            else None
        | "" => None
        end
      else if (n <? 32)%nat then None
      else parse_chars (c :: acc) s'
  end.

(** [elem (, elem)* ]] after an opening bracket. *)
Fixpoint parse_items (fuel : nat) (elem : string -> option (json * string))
    (acc : list json) (s : string) : option (list json * string) :=
  match fuel with
  | O => None
  | S fuel' =>
      match elem s with
      | Some (v, rest) =>
          match skip_ws rest with
          | String "," rest' => parse_items fuel' elem (v :: acc) rest'
          | String "]" rest' => Some (rev (v :: acc), rest')
          | _ => None
          end
      | None => None
      end
  end.

(** [key: elem (, key: elem)* }] after an opening brace; a key met twice
    keeps its last value. *)
Fixpoint parse_members (fuel : nat) (elem : string -> option (json * string))
    (acc : gmap string json) (s : string) : option (gmap string json * string) :=
  match fuel with
  | O => None
  | S fuel' =>
      match skip_ws s with
      | String q rest =>
          if (nat_of_ascii q =? 34)%nat then
            match parse_chars [] rest with
            | Some (k, rest1) =>
                match skip_ws rest1 with
                | String ":" rest2 =>
                    match elem rest2 with
                    | Some (v, rest3) =>
                        match skip_ws rest3 with
                        | String "," rest4 =>
                            parse_members fuel' elem (<[k := v]> acc) rest4
                        | String "}" rest4 => Some (<[k := v]> acc, rest4)
                        | _ => None
                        end
                    | None => None
                    end
                | _ => None
                end
            | None => None
            end
          else None
      | "" => None
      end
  end.

Fixpoint parse_value (fuel : nat) (s : string) : option (json * string) :=
  match fuel with
  | O => None
  | S fuel' =>
      match skip_ws s with
      | "" => None
      | String c rest =>
          let n := nat_of_ascii c in
          if (n =? 34)%nat then
            match parse_chars [] rest with
            | Some (t, rest') => Some (JStr t, rest')
            | None => None
            end
          else if (n =? 91)%nat then
            match skip_ws rest with
            | String "]" rest' => Some (JList [], rest')
            | _ =>
                match parse_items fuel' (parse_value fuel') [] rest with
                | Some (l, rest') => Some (JList l, rest')
                | None => None
                end
            end
          else if (n =? 123)%nat then
            match skip_ws rest with
            | String "}" rest' => Some (JDict ∅, rest')
            | _ =>
                match parse_members fuel' (parse_value fuel') ∅ rest with
                | Some (d, rest') => Some (JDict d, rest')
                | None => None
                end
            end
          else if (n =? 45)%nat then
            match parse_digits 0 false rest with
            | Some (z, rest') => Some (JNum (- z), rest')
            | None => None
            end
          else if Str.startswith "null" (String c rest)
          then Some (JNull, Str.drop 4 (String c rest))
          else if Str.startswith "true" (String c rest)
          then Some (JBool true, Str.drop 4 (String c rest))
          else if Str.startswith "false" (String c rest)
          then Some (JBool false, Str.drop 5 (String c rest))
          else
            match parse_digits 0 false (String c rest) with
            | Some (z, rest') => Some (JNum z, rest')
            | None => None
            end
      end
  end.

Definition loads (s : string) : option json :=
  match parse_value (S (String.length s)) s with
  | Some (v, rest) =>
      match skip_ws rest with
      | "" => Some v
      | _ => None
      end
  | None => None
  end.

(** The platform's codec is this one. *)
Definition has_codec (P : platform) : Prop :=
  (forall (indent : option nat) (v : json), json_dumps P indent v = dumps indent v) /\
  (forall s : string, json_loads P s = loads s).

(** The number of nodes of a document. *)
Fixpoint json_size (v : json) : nat :=
  match v with
  | JList l => S (foldr (fun x acc => json_size x + acc)%nat 0%nat l)
  | JDict d => S (map_fold (fun _ x acc => json_size x + acc)%nat 0%nat d)
  | _ => 1%nat
  end.

(** [s] is made of the parser's white space only. *)
Fixpoint blank (s : string) : bool :=
  match s with
  | "" => true
  | String c s' => is_ws c && blank s'
  end.

(** [s] does not go on with a digit: a number written before [s] ends
    there. *)
Definition no_digit (s : string) : Prop :=
  match s with
  | "" => True
  | String c _ => digit_of c = None
  end.

(** A toy digest: a rolling checksum, in decimal. *)
Definition digest (s : string) : string :=
  dumps_int
    (fold_left (fun h c => (31 * h + Z.of_nat (nat_of_ascii c)) mod 4294967296)
       (list_ascii_of_string s) 7).

(** The platform, for a remote and a clock. *)
Definition platform_of (remote : list event -> request -> response)
    (clock : nat -> Z) : platform :=
  Platform dumps loads digest (dumps None) remote clock.

Definition clock0 (n : nat) : Z := 1700000000 + Z.of_nat n.

(** A remote that grants a token for 7200 seconds and stores what it is
    sent. *)
Definition remote_ok (tr : list event) (rq : request) : response :=
  match rq with
  | Get _ =>
      Body (dumps None
              (JDict (<["access_token" := JStr "TOKEN"]>
                        (<["expires_in" := JNum 7200]> ∅))))
  | Post _ file_name _ =>
      Body (dumps None
              (JDict (<["media_id" := JStr ("M-" +:+ file_name)]>
                        (<["url" := JStr "http://mmbiz.qpic.cn/x"]> ∅))))
  end.

(** A remote that cannot be reached. *)
Definition remote_down (tr : list event) (rq : request) : response :=
  Failed "connection refused".

(** A remote that grants a token and refuses every upload. *)
Definition remote_reject (tr : list event) (rq : request) : response :=
  match rq with
  | Get _ => remote_ok tr rq
  | Post _ _ _ =>
      Body (dumps None
              (JDict (<["errcode" := JNum 40001]>
                        (<["errmsg" := JStr "invalid credential"]> ∅))))
  end.

(** A remote that grants a token and does not say for how long. *)
Definition remote_no_expiry (tr : list event) (rq : request) : response :=
  match rq with
  | Get _ => Body (dumps None (JDict (<["access_token" := JStr "TOKEN"]> ∅)))
  | Post _ _ _ => remote_ok tr rq
  end.


Definition P_ok : platform := platform_of remote_ok clock0.
Definition P_no_expiry : platform := platform_of remote_no_expiry clock0.
Definition P_down : platform := platform_of remote_down clock0.
Definition P_reject : platform := platform_of remote_reject clock0.

Definition workspace : string := "/home/u/blog-sync".

Definition cfg0 : config :=
  Config (Some "wx0123") (Some "s3cret") workspace
    ["sync_to_wechat.py"; "a/b.jpg c.png"].

Definition cfg_no_credentials : config :=
  Config None None workspace ["sync_to_wechat.py"; "a/b.jpg c.png"].

Definition cfg_no_files : config :=
  Config None None workspace ["sync_to_wechat.py"; "  "].

(** The two downloaded images, and nothing else. *)
Definition files0 : gmap string node :=
  <["a_b.jpg" := File true "JPEG-BYTES"]> (<["c.png" := File true "PNG-BYTES"]> ∅).

Definition w0 : world := World files0 [] 0.

(** The same with the workspace directory. *)
Definition w_dir : world := World (<[workspace := Dir]> files0) [] 0.

(** A ledger that has [a/b.jpg] as it is now. *)
Definition entry0 : gmap string json :=
  <["media_id" := JStr "M0"]> (<["md5" := JStr (digest "JPEG-BYTES")]> ∅).

Definition ledger0 : gmap string json := <["a/b.jpg" := JDict entry0]> ∅.



(** The token cache path taken by a directory. *)
Definition w_blocked : world :=
  World (<[token_file cfg0 := Dir]> (<[workspace := Dir]> files0)) [] 0.

(** A second run: the workspace with a good token cache and a history file
    that has [a/b.jpg] as it is now; [c.png] was not downloaded. *)
Definition w_settled : world :=
  World (<[token_file cfg0 :=
             File true (dumps None (cached_token (JStr "CACHED") 1700000500))]>
           (<[HISTORY_FILE cfg0 := File true (dumps (Some 2%nat) (JDict ledger0))]>
              (<[workspace := Dir]> (<["a_b.jpg" := File true "JPEG-BYTES"]> ∅))))
    [] 0.

(** [c.png] is a directory: its turn cannot read it. *)
Definition w_crash : world :=
  World (<[workspace := Dir]>
           (<["a_b.jpg" := File true "JPEG-BYTES"]> (<["c.png" := Dir]> ∅)))
    [] 0.

Definition st_fresh : sync_state := SyncState (JDict ∅) 0 0 0.
Definition st_synced : sync_state := SyncState (JDict ledger0) 0 0 0.

End Demo.

(** * Proof tools *)

(** [String.append] does not unfold under [simpl]; these are its two
    equations. *)
Ltac app_step :=
  repeat first
    [ progress change (String ?c ?s +:+ ?t) with (String c (s +:+ t))
    | progress change ("" +:+ ?t) with t ].

(** Unfolds the monad. *)
Ltac run :=
  unfold bind, ret, raise, lift, try_except, try_bare, print, time_sleep, emit,
    record;
  simpl.

(** * Properties *)

(** ** Strings *)

Module StrFacts.

Lemma take_drop (n : nat) (s : string) : Str.take n s +:+ Str.drop n s = s.
Proof.
  revert s; induction n as [|n IH]; intros [|c s]; try reflexivity.
  cbn [Str.take Str.drop]. app_step. now rewrite IH.
Qed.

Lemma drop_length (n : nat) (s : string) :
  String.length (Str.drop n s) = (String.length s - n)%nat.
Proof.
  revert s; induction n as [|n IH]; intros [|c s]; simpl; auto with arith.
Qed.

Lemma take_empty (n : nat) (s : string) :
  Str.take (S n) s = "" -> s = "".
Proof. destruct s; simpl; [reflexivity | discriminate]. Qed.

Lemma append_empty_r (s : string) : s +:+ "" = s.
Proof. induction s as [|c s IH]; [reflexivity|]. app_step. now rewrite IH. Qed.

Lemma append_assoc (a b c : string) : (a +:+ b) +:+ c = a +:+ (b +:+ c).
Proof. induction a as [|x a IH]; [reflexivity|]. app_step. now rewrite IH. Qed.

Lemma append_length (a b : string) :
  String.length (a +:+ b) = (String.length a + String.length b)%nat.
Proof. induction a as [|c a IH]; [reflexivity|]. app_step. simpl. now rewrite IH. Qed.

(** Joining a directory with the name of one of the script's two files
    gives a path other than the directory. *)
Lemma join_ne (a b : string) :
  Str.startswith "/" b = false -> b <> "" -> os_path_join a b <> a.
Proof.
  intros Hrel Hb Heq. apply (f_equal String.length) in Heq. revert Heq.
  unfold os_path_join. rewrite Hrel.
  destruct (_ || _)%bool; rewrite ?append_length; destruct b; simpl;
    try contradiction; lia.
Qed.

(** Reading a file chunk by chunk feeds the hash object the whole file,
    whatever the chunk size, with more reads allowed than the file has
    characters. *)
Lemma md5_chunks_all (size reads : nat) (rest fed : string) :
  (String.length rest < reads)%nat ->
  md5_chunks reads (S size) rest fed = fed +:+ rest.
Proof.
  revert rest fed; induction reads as [|reads IH]; intros rest fed Hlt; [lia|].
  cbn [md5_chunks].
  destruct (Str.take (S size) rest) as [|c chunk] eqn:Hchunk.
  - apply take_empty in Hchunk; subst rest. now rewrite append_empty_r.
  - rewrite IH.
    + rewrite append_assoc, <- Hchunk, take_drop. reflexivity.
    + rewrite drop_length. destruct rest; simpl in *; [discriminate | lia].
Qed.

Lemma replace_slash (s : string) :
  Str.replace "/" "_" s = Str.map_chars Str.flat_char s.
Proof.
  unfold Str.replace.
  induction s as [|c s IH]; [reflexivity|].
  cbn [Str.replace_from Str.startswith Str.map_chars String.length Nat.sub].
  rewrite Ascii.eqb_sym. unfold Str.flat_char.
  destruct (Ascii.eqb c "/"); app_step; now rewrite IH.
Qed.

Lemma replace_slash_length (s : string) :
  String.length (Str.replace "/" "_" s) = String.length s.
Proof. rewrite replace_slash. induction s; simpl; congruence. Qed.


Lemma split_from_cons (cur : list ascii) (c : ascii) (s : string) :
  Str.split_from (c :: cur) s <> [].
Proof.
  revert c cur; induction s as [|a s IH]; intros c cur; cbn.
  - discriminate.
  - destruct (Str.isspace a); [discriminate | apply IH].
Qed.

Lemma split_nil (s : string) : Str.split s = [] <-> Str.all_space s = true.
Proof.
  unfold Str.split. induction s as [|c s IH]; cbn; [tauto|].
  destruct (Str.isspace c); cbn; [exact IH|].
  split; [intros H; now apply split_from_cons in H | discriminate].
Qed.

End StrFacts.

(** ** The script *)

Arguments HISTORY_FILE : simpl never.
Arguments token_file : simpl never.
Arguments token_url : simpl never.
Arguments upload_url : simpl never.
Arguments os_path_join : simpl never.
Arguments os_path_dirname : simpl never.
Arguments Str.replace : simpl never.
Arguments md5_chunks : simpl never.

Section Claims.

Variable P : platform.
Variable cfg : config.

Lemma bind_run {A B : Type} (m : M A) (k : A -> M B) (w : world) :
  bind m k w =
    match m w with
    | (Ok a, w') => k a w'
    | (Raise e, w') => (Raise e, w')
    end.
Proof. reflexivity. Qed.

(** *** The ledger on disk *)

Lemma load_history_world (w : world) :
  snd (load_history P cfg w) = w.
Proof.
  unfold load_history, os_path_exists, open_read, json_parse. run.
  destruct (fs w !! HISTORY_FILE cfg) as [[[|] text|]|] eqn:Hfile;
    simpl; rewrite ?Hfile; simpl; try reflexivity.
  destruct (json_loads P text); reflexivity.
Qed.

(** C8. [load_history] gives the empty ledger, without raising and without
    touching the world, whenever the history file is absent or cannot be
    read or parsed; whatever follows it in the run then starts from the
    empty ledger. *)
Theorem load_history_unusable (w : world) :
  history_unusable P cfg w ->
  load_history P cfg w = (Ok (JDict ∅), w) /\
  forall (A : Type) (k : json -> M A),
    bind (load_history P cfg) k w = k (JDict ∅) w.
Proof.
  intros Hbad.
  assert (Hload : load_history P cfg w = (Ok (JDict ∅), w)).
  { unfold history_unusable in Hbad.
    unfold load_history, os_path_exists, open_read, json_parse. run.
    destruct (fs w !! HISTORY_FILE cfg) as [[[|] text|]|] eqn:Hfile;
      simpl; rewrite ?Hfile; simpl; try reflexivity.
    now rewrite Hbad. }
  split; [exact Hload|].
  intros A k. unfold bind. now rewrite Hload.
Qed.

(** A successful [save_history] leaves the dumped ledger in the history
    file. *)
Lemma save_history_file (h : json) (w w' : world) :
  save_history P cfg h w = (Ok tt, w') ->
  fs w' !! HISTORY_FILE cfg = Some (File true (json_dumps P (Some 2%nat) h)).
Proof.
  unfold save_history, os_makedirs, write_file. run.
  destruct (fs w !! WORKSPACE_DIR cfg) as [[a d|]|]; simpl;
    try discriminate.
  - destruct (fs w !! HISTORY_FILE cfg) as [[[|] text|]|]; try discriminate.
    + intros [= <-]. simpl. apply lookup_insert_eq.
    + destruct (is_dir _ _); [|discriminate].
      intros [= <-]. simpl. apply lookup_insert_eq.
  - destruct (<[WORKSPACE_DIR cfg:=Dir]> (fs w) !! HISTORY_FILE cfg)
      as [[[|] text|]|]; try discriminate.
    + intros [= <-]. simpl. apply lookup_insert_eq.
    + destruct (is_dir _ _); [|discriminate].
      intros [= <-]. simpl. apply lookup_insert_eq.
Qed.

(** What [load_history] returns on a history file that can be opened. *)
Lemma load_history_text (w : world) (text : string) :
  fs w !! HISTORY_FILE cfg = Some (File true text) ->
  load_history P cfg w = (Ok (default (JDict ∅) (json_loads P text)), w).
Proof.
  intros Hfile.
  unfold load_history, os_path_exists, open_read, json_parse. run.
  rewrite Hfile. simpl. rewrite Hfile. simpl.
  now destruct (json_loads P text).
Qed.

(** *** The empty file list *)

(** C10. When [sys.argv] has no file-list argument, or the argument splits
    to the empty list, [main] prints its two lines and returns: exit status
    0, no request, the file system as it was, whatever the credentials are
    (they are not looked at). *)
Theorem main_nothing_to_sync (w : world) :
  (length (argv cfg) <= 1)%nat \/
  (exists a, argv cfg !! 1%nat = Some a /\ Str.split a = []) ->
  main P cfg w =
    (Ok tt, World (fs w)
              (trace w ++ [EvPrint MsgStart; EvPrint MsgNothingToSync])
              (ticks w)) /\
  exit_status (fst (main P cfg w)) = 0.
Proof.
  intros Hargs.
  assert (Hlist : IMAGES_LIST cfg = []).
  { unfold IMAGES_LIST.
    destruct Hargs as [Hlen | (a & Ha & Hsplit)].
    - destruct (argv cfg) as [|x [|y l]]; cbn in Hlen; try reflexivity; lia.
    - destruct (argv cfg) as [|x [|y l]]; try discriminate.
      cbn in Ha. now injection Ha as ->. }
  assert (Hmain : main P cfg w =
    (Ok tt, World (fs w)
              (trace w ++ [EvPrint MsgStart; EvPrint MsgNothingToSync])
              (ticks w))).
  { unfold main. rewrite Hlist. run. now rewrite <- app_assoc. }
  split; [exact Hmain | now rewrite Hmain].
Qed.

(** *** One file *)

(** On a file that can be opened, [calculate_md5] is the digest of what the
    file holds; the world is not changed. *)
Lemma calculate_md5_file (p data : string) (w : world) :
  fs w !! p = Some (File true data) ->
  calculate_md5 P p w = (Ok (md5_hexdigest P data), w).
Proof.
  intros Hfile. unfold calculate_md5, open_read. run. rewrite Hfile.
  now rewrite StrFacts.md5_chunks_all by lia.
Qed.

(** The loop over [pre ++ post] is the loop over [pre] followed by the loop
    over [post]. *)
Lemma sync_all_app (token : json) (pre post : list string) (st : sync_state)
    (w : world) :
  sync_all P cfg token (pre ++ post) st w =
    bind (sync_all P cfg token pre st) (sync_all P cfg token post) w.
Proof.
  revert st w. induction pre as [|p pre IH]; intros st w; [reflexivity|].
  cbn [app sync_all]. rewrite !bind_run.
  destruct (sync_one P cfg token st p w) as [[st1|e] w1]; [|reflexivity].
  now rewrite IH, bind_run.
Qed.

(** C1. A path of the list whose flattened local file can be read, and
    whose ledger entry stores the MD5 of what that file holds now, is
    skipped.  [st1] and [w1] are the state and the world when the loop
    reaches the path: its turn sends no request (it only prints the skip
    line), adds one to the skip counter and to no other, and leaves the
    ledger, that entry included, and the file system as they were; the loop
    goes on from there with the rest of the list. *)
Theorem sync_one_skip (token : json) (pre post : list string)
    (img_rel_path : string) (st st1 : sync_state) (w w1 : world) (data : string)
    (d entry : gmap string json) :
  sync_all P cfg token pre st w = (Ok st1, w1) ->
  fs w1 !! Str.replace "/" "_" img_rel_path = Some (File true data) ->
  history st1 = JDict d ->
  d !! img_rel_path = Some (JDict entry) ->
  entry !! "md5" = Some (JStr (md5_hexdigest P data)) ->
  let st2 :=
    SyncState (history st1) (success_count st1) (S (skip_count st1))
      (fail_count st1) in
  let w2 := World (fs w1) (trace w1 ++ [EvPrint (MsgSkip img_rel_path)]) (ticks w1) in
  sync_one P cfg token st1 img_rel_path w1 = (Ok st2, w2) /\
  sync_all P cfg token (pre ++ img_rel_path :: post) st w =
    sync_all P cfg token post st2 w2.
Proof.
  intros Hpre Hfile Hdict Hentry Hmd5. cbv zeta.
  assert (Hturn : sync_one P cfg token st1 img_rel_path w1 =
    (Ok (SyncState (history st1) (success_count st1) (S (skip_count st1))
           (fail_count st1)),
     World (fs w1) (trace w1 ++ [EvPrint (MsgSkip img_rel_path)]) (ticks w1))).
  { unfold sync_one.
    unfold bind at 1. unfold os_path_exists. rewrite Hfile. simpl.
    unfold bind at 1. rewrite (calculate_md5_file _ _ _ Hfile).
    unfold unchanged. rewrite Hdict. run.
    rewrite Hentry. simpl. rewrite Hmd5. simpl.
    now rewrite String.eqb_refl. }
  split; [exact Hturn|].
  rewrite sync_all_app, bind_run, Hpre. simpl. now rewrite bind_run, Hturn.
Qed.

(** *** upload_image *)

(** What [upload_image] does, by cases on the local file and the remote's
    answer. *)
Lemma upload_image_cases (token : json) (file_path original_path : string)
    (w : world) :
  let rq data := Post (upload_url P token) (Str.replace "/" "_" original_path) data in
  let sent data := World (fs w) (trace w ++ [EvHttp (rq data)]) (ticks w) in
  upload_image P token file_path original_path w =
    match fs w !! file_path with
    | Some (File true data) =>
        match remote P (trace w) (rq data) with
        | Failed text => (Ok (error_result (RequestException text)), sent data)
        | Body text =>
            match json_loads P text with
            | Some v => (Ok v, sent data)
            | None => (Ok (error_result JSONDecodeError), sent data)
            end
        end
    | Some (File false _) => (Ok (error_result (PermissionError file_path)), w)
    | Some Dir => (Ok (error_result (IsADirectoryError file_path)), w)
    | None => (Ok (error_result (FileNotFoundError file_path)), w)
    end.
Proof.
  cbv zeta. unfold upload_image, open_read, http, json_parse, error_result. run.
  destruct (fs w !! file_path) as [[[|] data|]|]; simpl; try reflexivity.
  destruct (remote P (trace w) _) as [text|text]; simpl; try reflexivity.
  destruct (json_loads P text); reflexivity.
Qed.


(** *** get_access_token *)

Lemma write_file_ok (p data : string) (w : world) :
  writable w p ->
  write_file p data w =
    (Ok tt, World (<[p := File true data]> (fs w)) (trace w) (ticks w)).
Proof.
  unfold writable, write_file.
  destruct (fs w !! p) as [[[|] old|]|]; try tauto.
  now intros ->.
Qed.

(** [write_file] either writes the file or raises an [Exception] and leaves
    the world alone. *)
Lemma write_file_cases (p data : string) (w : world) :
  write_file p data w =
    (Ok tt, World (<[p := File true data]> (fs w)) (trace w) (ticks w)) \/
  exists e : exn, is_Exception e = true /\ write_file p data w = (Raise e, w).
Proof.
  unfold write_file.
  destruct (fs w !! p) as [[[|] old|]|]; [now left | | |].
  - right. now exists (PermissionError p).
  - right. now exists (IsADirectoryError p).
  - destruct (is_dir w (os_path_dirname p)); [now left|].
    right. now exists (FileNotFoundError p).
Qed.

(** The cache lookup never raises, sends nothing and writes nothing; at most
    it reads the clock once. *)
Lemma read_token_cache_frame (w : world) :
  exists (c : option json) (n : nat),
    read_token_cache P cfg w = (Ok c, World (fs w) (trace w) (n + ticks w)) /\
    (n <= 1)%nat.
Proof.
  assert (H0 : forall c : option json,
             (Ok c, w) = (Ok c, World (fs w) (trace w) (0 + ticks w))).
  { intros c. now destruct w. }
  unfold read_token_cache, os_path_exists, open_read, json_parse, time_time. run.
  destruct (fs w !! token_file cfg) as [[[|] text|]|] eqn:Hfile; simpl;
    rewrite ?Hfile; simpl; try (exists None, 0%nat; split; [apply H0 | lia]).
  destruct (json_loads P text) as [data|]; simpl;
    try (exists None, 0%nat; split; [apply H0 | lia]).
  destruct (py_get data "expires_at" (JNum 0)) as [e|]; simpl;
    try (exists None, 0%nat; split; [apply H0 | lia]).
  destruct (py_number e) as [n|]; simpl;
    try (exists None, 1%nat; split; [reflexivity | lia]).
  destruct (clock P (ticks w) <? n); simpl;
    try (exists None, 1%nat; split; [reflexivity | lia]).
  destruct (py_getitem data "token") as [t|]; simpl.
  - exists (Some t), 1%nat. split; [reflexivity | lia].
  - exists None, 1%nat. split; [reflexivity | lia].
Qed.

(** What the operations on documents raise is always an [Exception]. *)
Lemma py_contains_raise (k : string) (v : json) (e : exn) :
  py_contains k v = Raise e -> is_Exception e = true.
Proof. destruct v; simpl; intros [= <-]; reflexivity. Qed.

Lemma py_getitem_raise (v : json) (k : string) (e : exn) :
  py_getitem v k = Raise e -> is_Exception e = true.
Proof.
  destruct v as [| | | | |d]; simpl; try (intros [= <-]; reflexivity).
  destruct (d !! k); intros [= <-]; reflexivity.
Qed.

Lemma py_number_raise (v : json) (e : exn) :
  py_number v = Raise e -> is_Exception e = true.
Proof. destruct v; simpl; intros [= <-]; reflexivity. Qed.


(** The token exchange never raises, and sends exactly one request.  It
    writes nothing, unless the remote answered an object with an
    [access_token] and a numeric [expires_in]: then it returns that token and
    the cache file holds it with the expiry [now + expires_in - 300]. *)
Lemma refresh_token_frame (w : world) :
  exists (v : json) (w' : world) (tail : list event),
    refresh_token P cfg w = (Ok v, w') /\
    trace w' = trace w ++ EvHttp (Get (token_url cfg)) :: tail /\
    (forall rq, EvHttp rq ∉ tail) /\
    (forall n, EvSleep n ∉ tail) /\
    (fs w' = fs w \/
     exists (text : string) (r : gmap string json) (expires_in : json) (ttl : Z),
       remote P (trace w) (Get (token_url cfg)) = Body text /\
       json_loads P text = Some (JDict r) /\
       r !! "access_token" = Some v /\
       r !! "expires_in" = Some expires_in /\
       py_number expires_in = Ok ttl /\
       fs w' = <[token_file cfg :=
                   File true (json_dumps P None
                                (cached_token v (clock P (ticks w) + ttl - 300)))]>
                 (fs w)).
Proof.
  assert (Hprint : forall m : message, forall rq, EvHttp rq ∉ [EvPrint m]).
  { intros m rq. rewrite list_elem_of_singleton. discriminate. }
  assert (Hprint' : forall m : message, forall n, EvSleep n ∉ [EvPrint m]).
  { intros m n. rewrite list_elem_of_singleton. discriminate. }
  assert (Hnil : forall rq, EvHttp rq ∉ @nil event).
  { intros rq. apply not_elem_of_nil. }
  assert (Hnil' : forall n, EvSleep n ∉ @nil event).
  { intros n. apply not_elem_of_nil. }
  unfold refresh_token, http, json_parse, time_time. run.
  destruct (remote P (trace w) (Get (token_url cfg))) as [text|text] eqn:Hremote;
    simpl.
  { eexists _, _, [_]. rewrite <- app_assoc. simpl. eauto 10. }
  destruct (json_loads P text) as [data|] eqn:Hparse; simpl;
    [|eexists _, _, [_]; rewrite <- app_assoc; simpl; eauto 10].
  destruct (py_contains "access_token" data) as [[|]|e] eqn:Hhas; simpl;
    [| eexists _, _, [_]; rewrite <- app_assoc; simpl; eauto 10
     | rewrite (py_contains_raise _ _ _ Hhas);
       eexists _, _, [_]; rewrite <- app_assoc; simpl; eauto 10].
  destruct (py_getitem data "expires_in") as [expires_in|e] eqn:Hin; simpl;
    [| rewrite (py_getitem_raise _ _ _ Hin);
       eexists _, _, [_]; rewrite <- app_assoc; simpl; eauto 10].
  destruct (py_number expires_in) as [ttl|e] eqn:Hnum; simpl;
    [| rewrite (py_number_raise _ _ Hnum);
       eexists _, _, [_]; rewrite <- app_assoc; simpl; eauto 10].
  destruct (py_getitem data "access_token") as [tok|e] eqn:Htok; simpl;
    [| rewrite (py_getitem_raise _ _ _ Htok);
       eexists _, _, [_]; rewrite <- app_assoc; simpl; eauto 10].
  match goal with
  | |- context [write_file ?p ?s ?w0] =>
      destruct (write_file_cases p s w0) as [Hw | (e & He & Hw)]; rewrite Hw
  end; simpl.
  - eexists _, _, []. repeat split; eauto.
    right. destruct data as [| | | | |r]; try discriminate.
    simpl in Hin, Htok.
    destruct (r !! "expires_in") as [x|] eqn:Hx; [|discriminate].
    destruct (r !! "access_token") as [y|] eqn:Hy; [|discriminate].
    injection Hin as ->. injection Htok as ->.
    exists text, r, expires_in, ttl. repeat split; auto.
  - rewrite He. simpl. eexists _, _, [_]. rewrite <- app_assoc. simpl. eauto 10.
Qed.

(** With both credentials set, [get_access_token] is the cache lookup
    followed, on a miss, by the token exchange. *)
Lemma get_access_token_unfold (w : world) :
  env_truthy (APP_ID cfg) = true ->
  env_truthy (APP_SECRET cfg) = true ->
  get_access_token P cfg w =
    match read_token_cache P cfg w with
    | (Ok (Some token), w0) => (Ok token, w0)
    | (Ok None, w0) => refresh_token P cfg w0
    | (Raise e, w0) => (Raise e, w0)
    end.
Proof.
  intros Hid Hsecret. unfold get_access_token. rewrite Hid, Hsecret. simpl.
  unfold bind. destruct (read_token_cache P cfg w) as [[[token|]|e] w0];
    reflexivity.
Qed.

Lemma read_token_cache_corrupt (w : world) :
  token_cache_corrupt P cfg w -> read_token_cache P cfg w = (Ok None, w).
Proof.
  unfold token_cache_corrupt, read_token_cache, os_path_exists, open_read,
    json_parse. run.
  destruct (fs w !! token_file cfg) as [[[|] text|]|] eqn:Hfile; simpl;
    rewrite ?Hfile; simpl; try tauto; try reflexivity.
  now intros ->.
Qed.

(** *** The loop *)

Lemma calculate_md5_world (p : string) (w : world) :
  snd (calculate_md5 P p w) = w.
Proof.
  unfold calculate_md5, open_read. run.
  destruct (fs w !! p) as [[[|] data|]|]; try reflexivity.
Qed.

Lemma os_makedirs_trace (p : string) (w : world) :
  trace (snd (os_makedirs p w)) = trace w.
Proof. unfold os_makedirs. now destruct (fs w !! p) as [[? ?|]|]. Qed.

Lemma write_file_trace (p data : string) (w : world) :
  trace (snd (write_file p data w)) = trace w.
Proof.
  destruct (write_file_cases p data w) as [-> | (e & _ & ->)]; reflexivity.
Qed.

Lemma save_history_trace (h : json) (w : world) :
  trace (snd (save_history P cfg h w)) = trace w.
Proof.
  unfold save_history, bind.
  pose proof (os_makedirs_trace (WORKSPACE_DIR cfg) w) as Hdir.
  destruct (os_makedirs (WORKSPACE_DIR cfg) w) as [[[]|e] w1]; simpl in *;
    [|exact Hdir].
  now rewrite write_file_trace.
Qed.

(** The four ways out of the block [if img_rel_path in history]. *)
Lemma unchanged_cases (h : json) (img_rel_path file_md5 : string) (w : world) :
  unchanged h img_rel_path file_md5 w =
    (Ok true, record (EvPrint (MsgSkip img_rel_path)) w) \/
  unchanged h img_rel_path file_md5 w =
    (Ok false, record (EvPrint (MsgUpdate img_rel_path)) w) \/
  unchanged h img_rel_path file_md5 w = (Ok false, w) \/
  exists e : exn, unchanged h img_rel_path file_md5 w = (Raise e, w).
Proof.
  unfold unchanged, bind, lift, ret, print, emit.
  destruct (py_contains img_rel_path h) as [[|]|e]; eauto.
  destruct (py_getitem h img_rel_path) as [entry|e]; eauto.
  destruct (py_get entry "md5" JNull) as [md5|e]; eauto.
  destruct (py_eq_str md5 file_md5); auto.
Qed.

(** The three ways out of the block [if 'media_id' in result]. *)
Lemma record_result_cases (st : sync_state) (img_rel_path file_md5 : string)
    (res : json) (w : world) :
  (exists (h' media_id : json) (w' : world),
     record_result P cfg st img_rel_path file_md5 res w =
       (Ok (SyncState h' (S (success_count st)) (skip_count st) (fail_count st)),
        w') /\
     trace w' = trace w ++ [EvPrint (MsgSynced media_id)]) \/
  record_result P cfg st img_rel_path file_md5 res w =
    (Ok (SyncState (history st) (success_count st) (skip_count st)
           (S (fail_count st))),
     record (EvPrint (MsgSyncFailed res)) w) \/
  exists (e : exn) (w' : world),
    record_result P cfg st img_rel_path file_md5 res w = (Raise e, w').
Proof.
  unfold record_result, time_time. run.
  destruct (py_contains "media_id" res) as [[|]|e]; simpl; eauto.
  destruct (py_getitem res "media_id") as [media_id|e]; simpl; eauto.
  destruct (py_get res "url" JNull) as [url|e]; simpl; eauto.
  destruct (py_setitem (history st) img_rel_path _) as [h'|e]; simpl; eauto.
  match goal with
  | |- context [save_history P cfg h' ?w0] =>
      pose proof (save_history_trace h' w0) as Htrace;
      destruct (save_history P cfg h' w0) as [[[]|e] w']
  end; simpl in *; eauto.
  left. exists h', media_id, w'. eauto.
Qed.

(** What [upload_image] adds to the trace: nothing, or its one request. *)
Lemma upload_image_trace (token : json) (file_path original_path : string)
    (w : world) :
  exists (res : json) (w' : world),
    upload_image P token file_path original_path w = (Ok res, w') /\
    (trace w' = trace w \/ exists rq : request, trace w' = trace w ++ [EvHttp rq]).
Proof.
  rewrite upload_image_cases. cbv zeta.
  destruct (fs w !! file_path) as [[[|] data|]|]; eauto.
  destruct (remote P (trace w) _) as [text|text]; simpl; eauto 6.
  destruct (json_loads P text); simpl; eauto 6.
Qed.

Lemma upload_tail_frame (token : json) (st st' : sync_state)
    (img_rel_path file_md5 : string) (w w' : world) :
  upload_tail P cfg token st img_rel_path file_md5 w = (Ok st', w') ->
  exists tr0 : list event,
    trace w' = trace w ++ tr0 ++ [EvSleep 1] /\
    EvPrint (MsgUpload img_rel_path (Str.replace "/" "_" img_rel_path)) ∈ tr0 /\
    (forall n : Z, EvSleep n ∉ tr0) /\
    (success_count st' + fail_count st')%nat = S (success_count st + fail_count st) /\
    skip_count st' = skip_count st.
Proof.
  unfold upload_tail. rewrite bind_run. unfold print at 1, emit at 1.
  rewrite bind_run.
  set (w0 := record _ w).
  destruct (upload_image_trace token (Str.replace "/" "_" img_rel_path)
              img_rel_path w0) as (res & w1 & -> & Hsent).
  rewrite bind_run.
  assert (Hw1 : exists sent : list event,
            trace w1 = trace w ++
              EvPrint (MsgUpload img_rel_path (Str.replace "/" "_" img_rel_path))
              :: sent /\
            forall n : Z, EvSleep n ∉ sent).
  { destruct Hsent as [-> | (rq & ->)]; subst w0; simpl.
    - exists []. split; [reflexivity|]. intros n. apply not_elem_of_nil.
    - exists [EvHttp rq]. rewrite <- app_assoc. split; [reflexivity|].
      intros n. rewrite list_elem_of_singleton. discriminate. }
  destruct Hw1 as (sent & Htr1 & Hsent1).
  destruct (record_result_cases st img_rel_path file_md5 res w1)
    as [(h' & media_id & w2 & -> & Htr2) | [-> | (e & w2 & ->)]];
    [| |discriminate].
  - run. intros [= <- <-]. simpl.
    exists (EvPrint (MsgUpload img_rel_path (Str.replace "/" "_" img_rel_path))
              :: sent ++ [EvPrint (MsgSynced media_id)]).
    rewrite Htr2, Htr1. repeat split.
    + rewrite <- ?app_assoc; simpl; rewrite <- ?app_assoc; reflexivity.
    + apply list_elem_of_here.
    + intros n. rewrite elem_of_cons, elem_of_app, list_elem_of_singleton.
      intros [H | [H | H]]; try discriminate. now apply (Hsent1 n).
  - run. intros [= <- <-]. simpl.
    exists (EvPrint (MsgUpload img_rel_path (Str.replace "/" "_" img_rel_path))
              :: sent ++ [EvPrint (MsgSyncFailed res)]).
    rewrite Htr1. repeat split.
    + rewrite <- ?app_assoc; simpl; rewrite <- ?app_assoc; reflexivity.
    + apply list_elem_of_here.
    + intros n. rewrite elem_of_cons, elem_of_app, list_elem_of_singleton.
      intros [H | [H | H]]; try discriminate. now apply (Hsent1 n).
    + lia.
Qed.

(** C4, as the code has it.  A turn of the loop that returns sleeps exactly
    once, for 1 second and as its last step, when it attempted an upload
    (the turn counts as a success or as a failure); a turn that skips the
    file or finds it missing does not sleep and sends nothing. *)
Theorem sync_one_sleeps (token : json) (st st' : sync_state)
    (img_rel_path : string) (w w' : world) :
  sync_one P cfg token st img_rel_path w = (Ok st', w') ->
  exists tr : list event,
    trace w' = trace w ++ tr /\
    (((success_count st' + fail_count st')%nat =
        S (success_count st + fail_count st) /\
      skip_count st' = skip_count st /\
      exists tr0 : list event,
        tr = tr0 ++ [EvSleep 1] /\
        EvPrint (MsgUpload img_rel_path (Str.replace "/" "_" img_rel_path)) ∈ tr0 /\
        forall n : Z, EvSleep n ∉ tr0) \/
     (success_count st' = success_count st /\
      fail_count st' = fail_count st /\
      (st' = st \/ skip_count st' = S (skip_count st)) /\
      (forall n : Z, EvSleep n ∉ tr) /\
      (forall rq : request, EvHttp rq ∉ tr))).
Proof.
  unfold sync_one. rewrite bind_run. unfold os_path_exists.
  destruct (bool_decide (is_Some (fs w !! Str.replace "/" "_" img_rel_path))).
  2:{ simpl. run. intros [= <- <-]. simpl.
      eexists; split; [reflexivity|]. right.
      repeat split; auto; intros x; rewrite list_elem_of_singleton; discriminate. }
  simpl. rewrite bind_run.
  pose proof (calculate_md5_world (Str.replace "/" "_" img_rel_path) w) as Hmd5.
  destruct (calculate_md5 P _ w) as [[file_md5|e] w1]; simpl in Hmd5; subst w1;
    [|discriminate].
  rewrite bind_run.
  destruct (unchanged_cases (history st) img_rel_path file_md5 w)
    as [-> | [-> | [-> | (e & ->)]]]; try discriminate.
  - intros [= <- <-]. simpl.
    eexists; split; [reflexivity|]. right.
    repeat split; auto; intros x; rewrite list_elem_of_singleton; discriminate.
  - intros Htail.
    apply (upload_tail_frame token st st' img_rel_path file_md5) in Htail.
    destruct Htail as (tr0 & Htr & Hin & Hno & Hcount & Hskip). simpl in Htr.
    exists (EvPrint (MsgUpdate img_rel_path) :: tr0 ++ [EvSleep 1]).
    split; [now rewrite Htr, <- app_assoc|]. left.
    repeat split; auto.
    exists (EvPrint (MsgUpdate img_rel_path) :: tr0). repeat split.
    + now apply list_elem_of_further.
    + intros n. rewrite elem_of_cons. intros [H | H]; [discriminate|].
      now apply (Hno n).
  - intros Htail.
    apply (upload_tail_frame token st st' img_rel_path file_md5) in Htail.
    destruct Htail as (tr0 & Htr & Hin & Hno & Hcount & Hskip).
    exists (tr0 ++ [EvSleep 1]). split; [exact Htr|]. left.
    repeat split; auto. now exists tr0.
Qed.

(** *** The whole run *)

(** [main] on a file list that is not empty. *)
Lemma main_nonempty (w : world) :
  IMAGES_LIST cfg <> [] ->
  main P cfg w =
    (os_makedirs (WORKSPACE_DIR cfg) ;;;
     token <- get_access_token P cfg ;;
     if negb (py_truthy token) then raise (SystemExit 1)
     else
       history <- load_history P cfg ;;
       st <- sync_all P cfg token (IMAGES_LIST cfg) (SyncState history 0 0 0) ;;
       print (MsgSummary (success_count st) (skip_count st) (fail_count st)))
      (record (EvPrint MsgStart) w).
Proof.
  intros Hlist. unfold main. rewrite bind_run. unfold print at 1, emit at 1.
  destruct (IMAGES_LIST cfg); [contradiction | reflexivity].
Qed.

Lemma history_file_ne : HISTORY_FILE cfg <> WORKSPACE_DIR cfg.
Proof. apply StrFacts.join_ne; [reflexivity | discriminate]. Qed.




Lemma save_history_ok (h : json) (w : world) :
  ledger_writable cfg w ->
  save_history P cfg h w =
    (Ok tt,
     World (<[HISTORY_FILE cfg := File true (json_dumps P (Some 2%nat) h)]> (fs w))
       (trace w) (ticks w)).
Proof.
  intros [Hdir Hfile]. unfold save_history. rewrite bind_run.
  unfold os_makedirs. rewrite Hdir. now apply write_file_ok.
Qed.






Lemma load_history_total (w : world) :
  exists h : json, load_history P cfg w = (Ok h, w).
Proof.
  pose proof (load_history_world w) as Hw.
  unfold load_history, os_path_exists, open_read, json_parse in *. revert Hw. run.
  destruct (fs w !! HISTORY_FILE cfg) as [[[|] text|]|] eqn:Hfile;
    simpl; rewrite ?Hfile; simpl; eauto.
  destruct (json_loads P text); simpl; eauto.
Qed.


(** C3, as the code has it.  On a run with a file list and a credential
    that is unset or empty, [main] ends with exit status 1 and sends no
    request; no file is read or written, but the workspace directory is made
    first when it was missing.  When the workspace path is taken by a file,
    the run already ends there, on [FileExistsError]. *)
Theorem main_missing_credentials (w : world) :
  IMAGES_LIST cfg <> [] ->
  (env_truthy (APP_ID cfg) && env_truthy (APP_SECRET cfg))%bool = false ->
  main P cfg w =
    match fs w !! WORKSPACE_DIR cfg with
    | Some (File _ _) =>
        (Raise (FileExistsError (WORKSPACE_DIR cfg)),
         World (fs w) (trace w ++ [EvPrint MsgStart]) (ticks w))
    | Some Dir =>
        (Raise (SystemExit 1),
         World (fs w)
           (trace w ++ [EvPrint MsgStart; EvPrint MsgMissingCredentials])
           (ticks w))
    | None =>
        (Raise (SystemExit 1),
         World (<[WORKSPACE_DIR cfg := Dir]> (fs w))
           (trace w ++ [EvPrint MsgStart; EvPrint MsgMissingCredentials])
           (ticks w))
    end /\
  exit_status (fst (main P cfg w)) = 1.
Proof.
  intros Hlist Hcreds.
  assert (Hget : forall w0 : world,
            get_access_token P cfg w0 =
              (Ok JNull, record (EvPrint MsgMissingCredentials) w0)).
  { intros w0. unfold get_access_token.
    destruct (env_truthy (APP_ID cfg)), (env_truthy (APP_SECRET cfg));
      try discriminate; reflexivity. }
  rewrite (main_nonempty w Hlist), bind_run. unfold os_makedirs. simpl.
  destruct (fs w !! WORKSPACE_DIR cfg) as [[a data|]|].
  - split; reflexivity.
  - rewrite bind_run, Hget. unfold record, raise. simpl.
    rewrite <- app_assoc. split; reflexivity.
  - rewrite bind_run, Hget. unfold record, raise. simpl.
    rewrite <- app_assoc. split; reflexivity.
Qed.

End Claims.

(** ** The claims on the concrete platform *)

(** [a/b.jpg] is in the ledger with the digest of the file: it is skipped,
    and the loop goes on with [c.png]. *)
Lemma sync_one_skip_demo :
  sync_one Demo.P_ok Demo.cfg0 (JStr "TOKEN") Demo.st_synced "a/b.jpg" Demo.w0 =
    (Ok (SyncState (JDict Demo.ledger0) 0 1 0),
     World Demo.files0 [EvPrint (MsgSkip "a/b.jpg")] 0) /\
  sync_all Demo.P_ok Demo.cfg0 (JStr "TOKEN") ["a/b.jpg"; "c.png"] Demo.st_synced
    Demo.w0 =
    sync_all Demo.P_ok Demo.cfg0 (JStr "TOKEN") ["c.png"]
      (SyncState (JDict Demo.ledger0) 0 1 0)
      (World Demo.files0 [EvPrint (MsgSkip "a/b.jpg")] 0).
Proof.
  apply (sync_one_skip Demo.P_ok Demo.cfg0 (JStr "TOKEN") [] ["c.png"] "a/b.jpg"
           Demo.st_synced Demo.st_synced Demo.w0 Demo.w0 "JPEG-BYTES"
           Demo.ledger0 Demo.entry0);
    vm_compute; reflexivity.
Defined.

(** No credential, two files: the run ends with status 1, the workspace
    directory made. *)
Lemma main_missing_credentials_demo :
  main Demo.P_ok Demo.cfg_no_credentials Demo.w0 =
    (Raise (SystemExit 1),
     World (<[Demo.workspace := Dir]> Demo.files0)
       [EvPrint MsgStart; EvPrint MsgMissingCredentials] 0) /\
  exit_status (fst (main Demo.P_ok Demo.cfg_no_credentials Demo.w0)) = 1.
Proof.
  apply (main_missing_credentials Demo.P_ok Demo.cfg_no_credentials Demo.w0).
  - vm_compute. discriminate.
  - reflexivity.
Defined.

(** With no credential set and two files to sync, the run makes the
    workspace directory before it looks at the credentials. *)
Lemma missing_credentials_mkdir :
  APP_ID Demo.cfg_no_credentials = None /\
  APP_SECRET Demo.cfg_no_credentials = None /\
  fs Demo.w0 !! Demo.workspace = None /\
  fs (snd (main Demo.P_ok Demo.cfg_no_credentials Demo.w0)) !! Demo.workspace =
    Some Dir /\
  ~ aborts_without_side_effect Demo.P_ok Demo.cfg_no_credentials Demo.w0.
Proof.
  repeat split; try (vm_compute; reflexivity).
  intros (_ & _ & Hfs).
  apply (f_equal (fun m => m !! Demo.workspace)) in Hfs.
  vm_compute in Hfs. discriminate.
Defined.

(** A file that is skipped is followed by no sleep. *)
Lemma skipped_file_no_sleep :
  skip_count
    (match fst (sync_one Demo.P_ok Demo.cfg0 (JStr "TOKEN") Demo.st_synced
                  "a/b.jpg" Demo.w0) with
     | Ok st' => st'
     | Raise _ => Demo.st_synced
     end) = 1%nat /\
  ~ sleeps_after_file Demo.P_ok Demo.cfg0 (JStr "TOKEN") Demo.st_synced
      "a/b.jpg" Demo.w0.
Proof.
  split; [vm_compute; reflexivity|].
  intros Hsleep.
  destruct (Hsleep (SyncState (JDict Demo.ledger0) 0 1 0)
              (World Demo.files0 [EvPrint (MsgSkip "a/b.jpg")] 0))
    as (tr & Htr).
  { vm_compute. reflexivity. }
  simpl in Htr. apply (f_equal last) in Htr.
  rewrite last_snoc in Htr. discriminate.
Defined.

(** A refused upload is followed by the sleep, and by nothing else. *)
Lemma sync_one_sleeps_demo :
  exists tr : list event,
    trace (snd (sync_one Demo.P_reject Demo.cfg0 (JStr "TOKEN") Demo.st_fresh
                  "a/b.jpg" Demo.w0)) = tr ++ [EvSleep 1] /\
    forall n : Z, EvSleep n ∉ tr.
Proof.
  destruct (sync_one_sleeps Demo.P_reject Demo.cfg0 (JStr "TOKEN") Demo.st_fresh
              (SyncState (JDict ∅) 0 0 1) "a/b.jpg" Demo.w0
              (snd (sync_one Demo.P_reject Demo.cfg0 (JStr "TOKEN") Demo.st_fresh
                      "a/b.jpg" Demo.w0)))
    as (tr & Htr & [(_ & _ & tr0 & -> & _ & Hno) | (_ & Hfail & _)]).
  - vm_compute. reflexivity.
  - exists tr0. split; [exact Htr | exact Hno].
  - discriminate Hfail.
Defined.


(** A history file that does not parse is read as the empty ledger. *)
Lemma load_history_unusable_demo :
  load_history Demo.P_ok Demo.cfg0
    (World (<[HISTORY_FILE Demo.cfg0 := File true "{oops"]> Demo.files0) [] 0) =
    (Ok (JDict ∅),
     World (<[HISTORY_FILE Demo.cfg0 := File true "{oops"]> Demo.files0) [] 0).
Proof.
  apply (load_history_unusable Demo.P_ok Demo.cfg0
           (World (<[HISTORY_FILE Demo.cfg0 := File true "{oops"]> Demo.files0)
              [] 0)).
  vm_compute. reflexivity.
Defined.

(** A file-list argument of two spaces: nothing to sync, status 0, with no
    credential set. *)
Lemma main_nothing_to_sync_demo :
  main Demo.P_down Demo.cfg_no_files Demo.w0 =
    (Ok tt, World Demo.files0 [EvPrint MsgStart; EvPrint MsgNothingToSync] 0) /\
  exit_status (fst (main Demo.P_down Demo.cfg_no_files Demo.w0)) = 0.
Proof.
  apply (main_nothing_to_sync Demo.P_down Demo.cfg_no_files Demo.w0).
  right. exists "  ". split; reflexivity.
Defined.

(** * More of the script

    Properties of the functions beyond the claims. *)

Section More.

Variable P : platform.
Variable cfg : config.

(** ** calculate_md5 *)

(** X1. [calculate_md5] gives the digest of the whole file, however long it
    is: the reads of 4096 characters leave nothing out.  On a path that is
    missing, a directory, or a file that cannot be opened it raises; in no
    case does it change the world. *)
Theorem calculate_md5_outcome (p : string) (w : world) :
  calculate_md5 P p w =
    match fs w !! p with
    | Some (File true data) => (Ok (md5_hexdigest P data), w)
    | Some (File false _) => (Raise (PermissionError p), w)
    | Some Dir => (Raise (IsADirectoryError p), w)
    | None => (Raise (FileNotFoundError p), w)
    end.
Proof.
  unfold calculate_md5, open_read. run.
  destruct (fs w !! p) as [[[|] data|]|]; try reflexivity.
  now rewrite StrFacts.md5_chunks_all by lia.
Qed.

(** ** The token cache *)

(** A cache that is valid answers with its token, after one reading of the
    clock. *)
Lemma read_token_cache_valid (w : world) (token : json) :
  cache_valid P cfg w token ->
  read_token_cache P cfg w =
    (Ok (Some token), World (fs w) (trace w) (S (ticks w))).
Proof.
  intros (text & c & e & Hfile & Hparse & He & Hlt & Htoken).
  unfold read_token_cache, os_path_exists, open_read, json_parse, time_time.
  run. rewrite Hfile. simpl. rewrite Hfile. simpl. rewrite Hparse. simpl.
  rewrite He. simpl. apply Z.ltb_lt in Hlt. rewrite Hlt. simpl.
  now rewrite Htoken.
Qed.

(** X2. The cache lookup of [get_access_token] never raises, and it answers
    with a token exactly when the cache file opens, parses to an object with
    a [token], and its [expires_at] (0 when missing) is a number strictly
    above the clock's reading; the lookup then has read the clock once and
    changed nothing else. *)
Theorem read_token_cache_hit (w : world) (token : json) :
  (exists (c : option json) (w' : world), read_token_cache P cfg w = (Ok c, w')) /\
  (fst (read_token_cache P cfg w) = Ok (Some token) <-> cache_valid P cfg w token) /\
  (cache_valid P cfg w token ->
   read_token_cache P cfg w =
     (Ok (Some token), World (fs w) (trace w) (S (ticks w)))).
Proof.
  pose proof (read_token_cache_valid w token) as Hhit.
  split; [|split; [split|]]; try exact Hhit.
  - destruct (read_token_cache_frame P cfg w) as (c & n & Hrun & _). eauto.
  - unfold cache_valid, read_token_cache, os_path_exists, open_read, json_parse,
      time_time. run.
    destruct (fs w !! token_file cfg) as [[[|] text|]|] eqn:Hfile; simpl;
      rewrite ?Hfile; simpl; try discriminate.
    destruct (json_loads P text) as [data|] eqn:Hparse; simpl; try discriminate.
    destruct data as [| | | | |c]; simpl; try discriminate.
    destruct (py_number (default (JNum 0) (c !! "expires_at"))) as [e|] eqn:He;
      simpl; try discriminate.
    destruct (clock P (ticks w) <? e) eqn:Hlt; simpl; try discriminate.
    destruct (c !! "token") as [t|] eqn:Htoken; simpl; try discriminate.
    intros [= <-]. apply Z.ltb_lt in Hlt.
    exists text, c, e. auto.
  - intros Hvalid. now rewrite (Hhit Hvalid).
Qed.

(** X5. A granted token is lost when the answer has no usable
    [expires_in]: if the remote's answer holds an [access_token] but
    [expires_in] is missing or is not a number, the exchange returns [None]
    after its one request and one clock reading, prints the error line of
    the [KeyError] or [TypeError], and writes no cache file. *)
Theorem refresh_token_no_expiry (w : world) (text : string)
    (r : gmap string json) (access_token : json) :
  remote P (trace w) (Get (token_url cfg)) = Body text ->
  json_loads P text = Some (JDict r) ->
  r !! "access_token" = Some access_token ->
  (forall (v : json) (ttl : Z), r !! "expires_in" = Some v -> py_number v <> Ok ttl) ->
  exists e : exn,
    (e = KeyError "expires_in" /\ r !! "expires_in" = None \/
     e = TypeError /\ is_Some (r !! "expires_in")) /\
    refresh_token P cfg w =
      (Ok JNull,
       World (fs w)
         (trace w ++ [EvHttp (Get (token_url cfg)); EvPrint (MsgNetworkError e)])
         (S (ticks w))).
Proof.
  intros Hremote Hparse Htoken Hbad.
  unfold refresh_token, http, json_parse, time_time. run.
  rewrite Hremote. simpl. rewrite Hparse. simpl. rewrite Htoken. simpl.
  destruct (r !! "expires_in") as [v|] eqn:Hv; simpl.
  - destruct (py_number v) as [ttl|e] eqn:Hnum.
    { exfalso. exact (Hbad v ttl eq_refl Hnum). }
    assert (He : e = TypeError) by (destruct v; simpl in Hnum; congruence).
    subst e. simpl. exists TypeError. split; [right; eauto|].
    now rewrite <- app_assoc.
  - exists (KeyError "expires_in"). split; [left; auto|].
    now rewrite <- app_assoc.
Qed.

Lemma token_file_ne : token_file cfg <> WORKSPACE_DIR cfg.
Proof. apply StrFacts.join_ne; [reflexivity | discriminate]. Qed.

(** With the cache path blocked, the exchange returns [None] whatever the
    remote answers: a granted token cannot be stored, and the failure to
    open the cache file is caught like a network error. *)
Lemma refresh_token_blocked (w : world) :
  cache_blocked cfg w ->
  exists (m : message) (n : nat),
    refresh_token P cfg w =
      (Ok JNull,
       World (fs w) (trace w ++ [EvHttp (Get (token_url cfg)); EvPrint m])
         (n + ticks w)).
Proof.
  unfold cache_blocked. intros Hblocked.
  unfold refresh_token, http, json_parse, time_time. run.
  destruct (remote P (trace w) (Get (token_url cfg))) as [text|text]; simpl.
  { eexists _, 0%nat. now rewrite <- app_assoc. }
  destruct (json_loads P text) as [data|]; simpl;
    [|eexists _, 0%nat; now rewrite <- app_assoc].
  destruct (py_contains "access_token" data) as [[|]|e] eqn:Hhas; simpl;
    [| eexists _, 0%nat; now rewrite <- app_assoc
     | rewrite (py_contains_raise _ _ _ Hhas);
       eexists _, 0%nat; now rewrite <- app_assoc].
  destruct (py_getitem data "expires_in") as [v|e] eqn:Hin; simpl;
    [| rewrite (py_getitem_raise _ _ _ Hin);
       eexists _, 1%nat; now rewrite <- app_assoc].
  destruct (py_number v) as [ttl|e] eqn:Hnum; simpl;
    [| rewrite (py_number_raise _ _ Hnum);
       eexists _, 1%nat; now rewrite <- app_assoc].
  destruct (py_getitem data "access_token") as [tok|e] eqn:Htok; simpl;
    [| rewrite (py_getitem_raise _ _ _ Htok);
       eexists _, 1%nat; now rewrite <- app_assoc].
  unfold write_file. simpl.
  destruct (fs w !! token_file cfg) as [[[|] old|]|]; try contradiction; simpl;
    eexists _, 1%nat; now rewrite <- app_assoc.
Qed.

(** X6. A token cache path that is a directory, or a file that cannot be
    opened, stops every run that has files to sync: with both credentials
    set, whatever the remote answers to the token request, [main] ends with
    exit status 1; when the workspace path is not a file, it ends on
    [sys.exit(1)] after the one token request, with no upload. *)
Theorem main_cache_blocked (w : world) :
  IMAGES_LIST cfg <> [] ->
  env_truthy (APP_ID cfg) = true ->
  env_truthy (APP_SECRET cfg) = true ->
  cache_blocked cfg w ->
  exit_status (fst (main P cfg w)) = 1 /\
  (match fs w !! WORKSPACE_DIR cfg with
   | Some (File _ _) => False
   | _ => True
   end ->
   exists (m : message) (n : nat),
     main P cfg w =
       (Raise (SystemExit 1),
        World (<[WORKSPACE_DIR cfg := Dir]> (fs w))
          (trace w ++ [EvPrint MsgStart; EvHttp (Get (token_url cfg)); EvPrint m])
          (n + ticks w))).
Proof.
  intros Hlist Hid Hsecret Hblocked.
  assert (Hrun : forall w0 : world, cache_blocked cfg w0 ->
    exists (m : message) (n : nat),
      (token <- get_access_token P cfg ;;
       if negb (py_truthy token) then raise (SystemExit 1)
       else
         history <- load_history P cfg ;;
         st <- sync_all P cfg token (IMAGES_LIST cfg) (SyncState history 0 0 0) ;;
         print (MsgSummary (success_count st) (skip_count st) (fail_count st))) w0 =
      (Raise (SystemExit 1) : result unit,
       World (fs w0) (trace w0 ++ [EvHttp (Get (token_url cfg)); EvPrint m])
         (n + ticks w0))).
  { intros w0 Hw0.
    rewrite bind_run, (get_access_token_unfold P cfg w0 Hid Hsecret).
    rewrite read_token_cache_corrupt.
    2:{ unfold token_cache_corrupt. unfold cache_blocked in Hw0.
        destruct (fs w0 !! token_file cfg) as [[[|] t|]|]; tauto. }
    destruct (refresh_token_blocked w0 Hw0) as (m & n & ->). simpl. eauto. }
  rewrite (main_nonempty P cfg w Hlist), bind_run. unfold os_makedirs. simpl.
  destruct (fs w !! WORKSPACE_DIR cfg) as [[a d|]|] eqn:Hws.
  - simpl. split; [reflexivity | intros []].
  - destruct (Hrun (record (EvPrint MsgStart) w) Hblocked) as (m & n & ->).
    simpl. split; [reflexivity|]. intros _. exists m, n.
    rewrite (insert_id _ _ _ Hws). now rewrite <- app_assoc.
  - match goal with
    | |- context [bind _ _ ?w1] => destruct (Hrun w1) as (m & n & ->)
    end.
    { unfold cache_blocked in *. simpl.
      now rewrite lookup_insert_ne by (apply not_eq_sym, token_file_ne). }
    simpl. split; [reflexivity|]. intros _. exists m, n.
    now rewrite <- app_assoc.
Qed.


(** ** The file list and the flattened names *)

Lemma has_space_of_list (l : list ascii) :
  has_space (string_of_list_ascii l) = existsb Str.isspace l.
Proof. induction l as [|c l IH]; simpl; congruence. Qed.

Lemma existsb_rev_eq {A : Type} (f : A -> bool) (l : list A) :
  existsb f (rev l) = existsb f l.
Proof.
  induction l as [|a l IH]; [reflexivity|].
  simpl. rewrite existsb_app, IH. simpl. rewrite orb_false_r. apply orb_comm.
Qed.

(** The run that [split_from] has read, once flushed, is a word. *)
Lemma flush_clean (cur : list ascii) (p : string) :
  existsb Str.isspace cur = false ->
  p ∈ match cur with
      | [] => []
      | _ => [string_of_list_ascii (rev cur)]
      end ->
  p <> "" /\ has_space p = false.
Proof.
  intros Hcur. destruct cur as [|a cur].
  - intros Hp. exfalso. exact (not_elem_of_nil p Hp).
  - rewrite list_elem_of_singleton. intros ->. split.
    + intros Hnil. apply (f_equal list_ascii_of_string) in Hnil.
      rewrite list_ascii_of_string_of_list_ascii in Hnil. simpl in Hnil.
      destruct (rev cur); discriminate.
    + now rewrite has_space_of_list, existsb_rev_eq.
Qed.

Lemma split_from_clean (s : string) (cur : list ascii) (p : string) :
  existsb Str.isspace cur = false ->
  p ∈ Str.split_from cur s ->
  p <> "" /\ has_space p = false.
Proof.
  revert cur. induction s as [|c s IH]; intros cur Hcur; cbn [Str.split_from].
  - now apply flush_clean.
  - destruct (Str.isspace c) eqn:Hc.
    + rewrite elem_of_app. intros [Hp | Hp].
      * now apply (flush_clean cur).
      * now apply (IH []).
    + apply IH. simpl. now rewrite Hc.
Qed.

(** X3. Every path of [IMAGES_LIST] is a word of the command-line argument:
    it is not empty and holds no white space, so no turn of the loop runs on
    an empty path. *)
Theorem images_list_words (p : string) :
  p ∈ IMAGES_LIST cfg ->
  p <> "" /\ has_space p = false /\ Str.replace "/" "_" p <> "".
Proof.
  unfold IMAGES_LIST. intros Hp.
  assert (Hword : p <> "" /\ has_space p = false).
  { destruct (argv cfg) as [|x [|a l]];
      try (exfalso; exact (not_elem_of_nil p Hp)).
    now apply (split_from_clean a []). }
  destruct Hword as [Hne Hspace]. repeat split; auto.
  intros Hflat. apply (f_equal String.length) in Hflat.
  rewrite StrFacts.replace_slash_length in Hflat.
  destruct p; [contradiction | discriminate].
Qed.

Lemma flat_no_slash (s : string) :
  has_slash (Str.map_chars Str.flat_char s) = false.
Proof.
  induction s as [|c s IH]; [reflexivity|].
  simpl. rewrite IH, orb_false_r. unfold Str.flat_char.
  destruct (Ascii.eqb c "/") eqn:Hc; [reflexivity | exact Hc].
Qed.

Lemma flat_id (s : string) :
  has_slash s = false <-> Str.map_chars Str.flat_char s = s.
Proof.
  induction s as [|c s IH]; simpl; [tauto|].
  unfold Str.flat_char. destruct (Ascii.eqb c "/") eqn:Hc; simpl.
  - split; [discriminate|]. intros [= Heq _].
    apply Ascii.eqb_eq in Hc. subst c. discriminate.
  - split.
    + intros Hs. f_equal. now apply IH.
    + intros [= Heq]. now apply IH.
Qed.

Lemma flat_app (a b : string) :
  Str.map_chars Str.flat_char (a +:+ b) =
    Str.map_chars Str.flat_char a +:+ Str.map_chars Str.flat_char b.
Proof.
  induction a as [|c a IH]; [reflexivity|].
  app_step. simpl. app_step. now rewrite IH.
Qed.

(** X4. The flattened name [replace("/", "_")] of a path holds no slash,
    is the path itself exactly when the path has no slash, and is not
    changed by flattening again.  Flattening does not tell a slash from an
    underscore: two paths that differ by that only have the same local file
    and the same upload name. *)
Theorem flattened_name (p : string) :
  has_slash (Str.replace "/" "_" p) = false /\
  (has_slash p = false <-> Str.replace "/" "_" p = p) /\
  Str.replace "/" "_" (Str.replace "/" "_" p) = Str.replace "/" "_" p /\
  forall pre post : string,
    Str.replace "/" "_" (pre +:+ "/" +:+ post) =
      Str.replace "/" "_" (pre +:+ "_" +:+ post).
Proof.
  rewrite !StrFacts.replace_slash. repeat split.
  - apply flat_no_slash.
  - apply flat_id.
  - apply flat_id.
  - apply flat_id, flat_no_slash.
  - intros pre post. rewrite !StrFacts.replace_slash, !flat_app. reflexivity.
Qed.

(** ** The loop, turn by turn *)

(** [save_history] writes the dump of the ledger into the history file, or
    raises and leaves the history file as it was. *)
Lemma save_history_cases (h : json) (w : world) :
  (exists w' : world,
     save_history P cfg h w = (Ok tt, w') /\
     trace w' = trace w /\ ticks w' = ticks w /\
     fs w' !! HISTORY_FILE cfg =
       Some (File true (json_dumps P (Some 2%nat) h)) /\
     same_files cfg w w') \/
  (exists (e : exn) (w' : world),
     save_history P cfg h w = (Raise e, w') /\
     trace w' = trace w /\
     fs w' !! HISTORY_FILE cfg = fs w !! HISTORY_FILE cfg /\
     is_Exception e = true).
Proof.
  unfold save_history. rewrite bind_run. unfold os_makedirs.
  destruct (fs w !! WORKSPACE_DIR cfg) as [[a d|]|] eqn:Hws.
  - right. eexists _, _. repeat split; reflexivity.
  - destruct (write_file_cases (HISTORY_FILE cfg)
                (json_dumps P (Some 2%nat) h) w) as [-> | (e & He & ->)].
    + left. eexists. repeat split.
      * simpl. apply lookup_insert_eq.
      * intros k Hk _. simpl. now apply lookup_insert_ne.
    + right. exists e, w. auto.
  - match goal with
    | |- context [write_file ?f ?t ?w1] =>
        destruct (write_file_cases f t w1) as [-> | (e & He & ->)]
    end.
    + left. eexists. repeat split.
      * simpl. apply lookup_insert_eq.
      * intros k Hk Hk'. simpl.
        rewrite lookup_insert_ne by now apply not_eq_sym.
        now apply lookup_insert_ne, not_eq_sym.
    + right. eexists e, _. repeat split; auto. simpl.
      apply lookup_insert_ne, not_eq_sym, history_file_ne.
Qed.

(** The ways out of the block [if img_rel_path in history]; what it raises
    is an [Exception]. *)
Lemma unchanged_spec (h : json) (p file_md5 : string) (w : world) :
  (unchanged h p file_md5 w = (Ok true, record (EvPrint (MsgSkip p)) w) /\
   exists d entry : gmap string json,
     h = JDict d /\ d !! p = Some (JDict entry) /\
     entry !! "md5" = Some (JStr file_md5)) \/
  unchanged h p file_md5 w = (Ok false, record (EvPrint (MsgUpdate p)) w) \/
  unchanged h p file_md5 w = (Ok false, w) \/
  exists e : exn, unchanged h p file_md5 w = (Raise e, w) /\ is_Exception e = true.
Proof.
  unfold unchanged, bind, lift, ret, print, emit.
  destruct (py_contains p h) as [[|]|e] eqn:Hin; eauto.
  2:{ do 3 right. exists e. split; [reflexivity|]. eapply py_contains_raise, Hin. }
  destruct (py_getitem h p) as [entry|e] eqn:Hentry.
  2:{ do 3 right. exists e. split; [reflexivity|]. eapply py_getitem_raise, Hentry. }
  destruct entry as [| | | | |fields]; simpl;
    try (do 3 right; exists AttributeError; split; reflexivity).
  destruct (py_eq_str _ _) eqn:Heq; auto.
  left. split; [reflexivity|].
  destruct h as [| | | | |d]; try discriminate. simpl in Hentry.
  destruct (d !! p) as [x|] eqn:Hx; [|discriminate]. injection Hentry as ->.
  exists d, fields. repeat split; auto.
  destruct (fields !! "md5") as [[| | |t| |]|]; try discriminate.
  simpl in Heq. apply String.eqb_eq in Heq. now subst t.
Qed.

(** The three ways out of the block [if 'media_id' in result]: the failure
    is counted; or the entry is set and saved; or the block raises, and the
    history file is as it was. *)
Lemma record_result_spec (st : sync_state) (p file_md5 : string) (res : json)
    (w : world) :
  (py_contains "media_id" res = Ok false /\
   record_result P cfg st p file_md5 res w =
     (Ok (SyncState (history st) (success_count st) (skip_count st)
            (S (fail_count st))),
      record (EvPrint (MsgSyncFailed res)) w)) \/
  (exists (d r : gmap string json) (media_id : json) (w' : world),
     res = JDict r /\ r !! "media_id" = Some media_id /\ history st = JDict d /\
     record_result P cfg st p file_md5 res w =
       (Ok (SyncState
              (JDict (<[p := ledger_entry media_id (default JNull (r !! "url"))
                               file_md5 (clock P (ticks w))]> d))
              (S (success_count st)) (skip_count st) (fail_count st)),
        w') /\
     trace w' = trace w ++ [EvPrint (MsgSynced media_id)] /\
     ticks w' = S (ticks w) /\
     fs w' !! HISTORY_FILE cfg =
       Some (File true
               (json_dumps P (Some 2%nat)
                  (JDict (<[p := ledger_entry media_id (default JNull (r !! "url"))
                                   file_md5 (clock P (ticks w))]> d)))) /\
     same_files cfg w w') \/
  (exists (e : exn) (w' : world) (tr : list event),
     record_result P cfg st p file_md5 res w = (Raise e, w') /\
     trace w' = trace w ++ tr /\
     (tr = [] \/ exists media_id : json, tr = [EvPrint (MsgSynced media_id)]) /\
     fs w' !! HISTORY_FILE cfg = fs w !! HISTORY_FILE cfg /\
     is_Exception e = true).
Proof.
  assert (Hraise : forall e : exn, is_Exception e = true ->
    exists (e0 : exn) (w' : world) (tr : list event),
      (Raise e : result sync_state, w) = (Raise e0, w') /\
      trace w' = trace w ++ tr /\
      (tr = [] \/ exists media_id : json, tr = [EvPrint (MsgSynced media_id)]) /\
      fs w' !! HISTORY_FILE cfg = fs w !! HISTORY_FILE cfg /\
      is_Exception e0 = true).
  { intros e He. exists e, w, []. rewrite app_nil_r. auto. }
  unfold record_result, time_time. run.
  destruct res as [|b|n|s|l|r]; simpl;
    try (right; right; now apply Hraise).
  - destruct (Str.contains "media_id" s); simpl;
      [right; right; now apply Hraise | now left].
  - destruct (existsb _ l); simpl;
      [right; right; now apply Hraise | now left].
  - destruct (r !! "media_id") as [media_id|] eqn:Hid; simpl; [|now left].
    right. destruct (history st) as [| | | | |d] eqn:Hdict; simpl;
      try solve [right; eexists TypeError, _, [_]; repeat split; eauto].
    match goal with
    | |- context [save_history P cfg ?h ?w1] =>
        destruct (save_history_cases h w1)
          as [(w' & -> & Htr & Hticks & Hfile & Hframe)
             | (e & w' & -> & Htr & Hfile & He)]
    end; simpl in *.
    + left. exists d, r, media_id, w'. repeat split; auto.
    + right. exists e, w', [EvPrint (MsgSynced media_id)]. repeat split; eauto.
Qed.

Lemma count_events_app (kind : event -> bool) (a b : list event) :
  count_events kind (a ++ b) = (count_events kind a + count_events kind b)%nat.
Proof. induction a as [|e a IH]; simpl; [reflexivity | rewrite IH; lia]. Qed.

(** One turn of the loop, by cases: the local file is missing; the path is
    skipped; an upload is attempted and the turn returns, having counted a
    failure or recorded and saved a success; or the turn raises. *)
Lemma sync_one_spec (token : json) (st : sync_state) (p : string) (w : world) :
  (fs w !! Str.replace "/" "_" p = None /\
   sync_one P cfg token st p w =
     (Ok st, record (EvPrint (MsgLocalMissing (Str.replace "/" "_" p))) w)) \/
  (sync_one P cfg token st p w =
     (Ok (SyncState (history st) (success_count st) (S (skip_count st))
            (fail_count st)),
      record (EvPrint (MsgSkip p)) w) /\
   exists d : gmap string json, history st = JDict d /\ synced P d w p) \/
  (exists (data : string) (pre : list event) (m : message) (st' : sync_state)
          (w' : world),
     fs w !! Str.replace "/" "_" p = Some (File true data) /\
     sync_one P cfg token st p w = (Ok st', w') /\
     trace w' =
       trace w ++ pre ++
         [EvPrint (MsgUpload p (Str.replace "/" "_" p));
          EvHttp (Post (upload_url P token) (Str.replace "/" "_" p) data);
          EvPrint m; EvSleep 1] /\
     (pre = [] \/ pre = [EvPrint (MsgUpdate p)]) /\
     skip_count st' = skip_count st /\
     ((exists res : json,
         m = MsgSyncFailed res /\
         history st' = history st /\
         success_count st' = success_count st /\
         fail_count st' = S (fail_count st) /\
         fs w' = fs w) \/
      (exists (d entry : gmap string json) (media_id : json),
         m = MsgSynced media_id /\
         history st = JDict d /\
         history st' = JDict (<[p := JDict entry]> d) /\
         entry !! "md5" = Some (JStr (md5_hexdigest P data)) /\
         success_count st' = S (success_count st) /\
         fail_count st' = fail_count st /\
         fs w' !! HISTORY_FILE cfg =
           Some (File true (json_dumps P (Some 2%nat) (history st'))) /\
         same_files cfg w w'))) \/
  (exists (e : exn) (w' : world) (tr : list event),
     sync_one P cfg token st p w = (Raise e, w') /\
     trace w' = trace w ++ tr /\
     count_events is_get tr = 0%nat /\
     count_events is_sleep tr = 0%nat /\
     (count_events is_post tr <= 1)%nat /\
     count_events is_missing tr = 0%nat /\
     fs w' !! HISTORY_FILE cfg = fs w !! HISTORY_FILE cfg /\
     is_Exception e = true).
Proof.
  unfold sync_one. rewrite bind_run. unfold os_path_exists.
  destruct (fs w !! Str.replace "/" "_" p) as [[[|] data|]|] eqn:Hnode; simpl.
  4:{ left. split; reflexivity. }
  2,3: right; right; right; unfold calculate_md5, open_read; run; rewrite Hnode;
    eexists _, w, []; rewrite app_nil_r; repeat split; auto.
  rewrite bind_run, (calculate_md5_file P _ _ _ Hnode), bind_run.
  assert (Htail : forall (w0 : world) (pre : list event),
    fs w0 = fs w -> trace w0 = trace w ++ pre ->
    pre = [] \/ pre = [EvPrint (MsgUpdate p)] ->
    (exists (pre0 : list event) (m : message) (st' : sync_state) (w' : world),
       (print (MsgUpload p (Str.replace "/" "_" p)) ;;;
        res <- upload_image P token (Str.replace "/" "_" p) p ;;
        st'0 <- record_result P cfg st p (md5_hexdigest P data) res ;;
        time_sleep 1 ;;; ret st'0) w0 = (Ok st', w') /\
       trace w' =
         trace w ++ pre0 ++
           [EvPrint (MsgUpload p (Str.replace "/" "_" p));
            EvHttp (Post (upload_url P token) (Str.replace "/" "_" p) data);
            EvPrint m; EvSleep 1] /\
       (pre0 = [] \/ pre0 = [EvPrint (MsgUpdate p)]) /\
       skip_count st' = skip_count st /\
       ((exists res : json,
           m = MsgSyncFailed res /\
           history st' = history st /\
           success_count st' = success_count st /\
           fail_count st' = S (fail_count st) /\
           fs w' = fs w) \/
        (exists (d entry : gmap string json) (media_id : json),
           m = MsgSynced media_id /\
           history st = JDict d /\
           history st' = JDict (<[p := JDict entry]> d) /\
           entry !! "md5" = Some (JStr (md5_hexdigest P data)) /\
           success_count st' = S (success_count st) /\
           fail_count st' = fail_count st /\
           fs w' !! HISTORY_FILE cfg =
             Some (File true (json_dumps P (Some 2%nat) (history st'))) /\
           same_files cfg w w'))) \/
    (exists (e : exn) (w' : world) (tr : list event),
       (print (MsgUpload p (Str.replace "/" "_" p)) ;;;
        res <- upload_image P token (Str.replace "/" "_" p) p ;;
        st'0 <- record_result P cfg st p (md5_hexdigest P data) res ;;
        time_sleep 1 ;;; ret st'0) w0 = (Raise e, w') /\
       trace w' = trace w ++ tr /\
       count_events is_get tr = 0%nat /\
       count_events is_sleep tr = 0%nat /\
       (count_events is_post tr <= 1)%nat /\
       count_events is_missing tr = 0%nat /\
       fs w' !! HISTORY_FILE cfg = fs w !! HISTORY_FILE cfg /\
       is_Exception e = true)).
  { intros w0 pre Hfs Htr Hpre.
    rewrite bind_run. unfold print, emit.
    rewrite bind_run, upload_image_cases. cbv zeta. simpl.
    rewrite Hfs, Hnode.
    set (w1 := World (fs w)
                 ((trace w0 ++ [EvPrint (MsgUpload p (Str.replace "/" "_" p))]) ++
                  [EvHttp (Post (upload_url P token) (Str.replace "/" "_" p) data)])
                 (ticks w0)).
    assert (Hrecord : forall res : json,
      (exists (pre0 : list event) (m : message) (st' : sync_state) (w' : world),
         (st'0 <- record_result P cfg st p (md5_hexdigest P data) res ;;
          time_sleep 1 ;;; ret st'0) w1 = (Ok st', w') /\
         trace w' =
           trace w ++ pre0 ++
             [EvPrint (MsgUpload p (Str.replace "/" "_" p));
              EvHttp (Post (upload_url P token) (Str.replace "/" "_" p) data);
              EvPrint m; EvSleep 1] /\
         (pre0 = [] \/ pre0 = [EvPrint (MsgUpdate p)]) /\
         skip_count st' = skip_count st /\
         ((exists res0 : json,
             m = MsgSyncFailed res0 /\
             history st' = history st /\
             success_count st' = success_count st /\
             fail_count st' = S (fail_count st) /\
             fs w' = fs w) \/
          (exists (d entry : gmap string json) (media_id : json),
             m = MsgSynced media_id /\
             history st = JDict d /\
             history st' = JDict (<[p := JDict entry]> d) /\
             entry !! "md5" = Some (JStr (md5_hexdigest P data)) /\
             success_count st' = S (success_count st) /\
             fail_count st' = fail_count st /\
             fs w' !! HISTORY_FILE cfg =
               Some (File true (json_dumps P (Some 2%nat) (history st'))) /\
             same_files cfg w w'))) \/
      (exists (e : exn) (w' : world) (tr : list event),
         (st'0 <- record_result P cfg st p (md5_hexdigest P data) res ;;
          time_sleep 1 ;;; ret st'0) w1 = (Raise e, w') /\
         trace w' = trace w ++ tr /\
         count_events is_get tr = 0%nat /\
         count_events is_sleep tr = 0%nat /\
         (count_events is_post tr <= 1)%nat /\
         count_events is_missing tr = 0%nat /\
         fs w' !! HISTORY_FILE cfg = fs w !! HISTORY_FILE cfg /\
         is_Exception e = true)).
    { intros res. rewrite bind_run.
      destruct (record_result_spec st p (md5_hexdigest P data) res w1)
        as [(_ & ->) | [(d & r & media_id & w' & -> & Hid & Hdict & -> & Htr' &
                          Hticks & Hfile & Hframe)
                       | (e & w' & tr & -> & Htr' & Hshape & Hfile & He)]].
      - left. run. eexists pre, _, _, _. repeat split; eauto.
        + rewrite Htr, <- ?app_assoc. reflexivity.
        + left. eexists. repeat split.
      - left. run. eexists pre, _, _, _. repeat split; eauto.
        + simpl. rewrite Htr'. unfold w1. simpl.
          rewrite Htr, <- ?app_assoc. reflexivity.
        + right. unfold ledger_entry. eexists d, _, media_id.
          repeat split; eauto.
      - right. exists e, w'.
        exists (pre ++
                  [EvPrint (MsgUpload p (Str.replace "/" "_" p));
                   EvHttp (Post (upload_url P token) (Str.replace "/" "_" p) data)]
                  ++ tr).
        split; [reflexivity|]. split.
        { rewrite Htr'. unfold w1. simpl. rewrite Htr, <- ?app_assoc.
          reflexivity. }
        rewrite !count_events_app.
        destruct Hpre as [-> | ->], Hshape as [-> | (x & ->)]; simpl;
          repeat split; auto. }
    destruct (remote P _ _) as [text|text]; [apply Hrecord|].
    destruct (json_loads P text); apply Hrecord. }
  destruct (unchanged_spec (history st) p (md5_hexdigest P data) w)
    as [(-> & d & entry & Hdict & Hentry & Hmd5) | [-> | [-> | (e & -> & He)]]].
  - right. left. split; [reflexivity|].
    exists d. split; [exact Hdict|]. now exists data, entry.
  - right. right.
    destruct (Htail (record (EvPrint (MsgUpdate p)) w) [EvPrint (MsgUpdate p)])
      as [(pre0 & m & st' & w' & Hrun & Hrest) | Hraise]; auto.
    left. exists data, pre0, m, st', w'. auto.
  - right. right.
    destruct (Htail w []) as [(pre0 & m & st' & w' & Hrun & Hrest) | Hraise];
      auto using app_nil_r.
    left. exists data, pre0, m, st', w'. auto.
  - right. right. right. exists e, w, []. rewrite app_nil_r. repeat split; auto.
Qed.

(** ** The loop as a whole *)

(** When the loop returns, each listed path has been counted once as a
    success, a skip or a failure, or has got the line of a missing local
    file; no counter has gone down; the uploads sent are as many as the
    successes and failures together, each followed by one sleep; and the
    loop has sent no other request. *)
Lemma sync_all_tally (token : json) (images : list string)
    (st st' : sync_state) (w w' : world) :
  sync_all P cfg token images st w = (Ok st', w') ->
  exists tr : list event,
    trace w' = trace w ++ tr /\
    (success_count st' + skip_count st' + fail_count st'
       + count_events is_missing tr =
     success_count st + skip_count st + fail_count st + length images)%nat /\
    (success_count st <= success_count st')%nat /\
    (skip_count st <= skip_count st')%nat /\
    (fail_count st <= fail_count st')%nat /\
    (count_events is_post tr + success_count st + fail_count st =
     success_count st' + fail_count st')%nat /\
    count_events is_sleep tr = count_events is_post tr /\
    count_events is_get tr = 0%nat.
Proof.
  revert st w. induction images as [|p images IH]; intros st w Hrun.
  - injection Hrun as <- <-. exists []. rewrite app_nil_r. simpl.
    repeat split; lia.
  - cbn [sync_all] in Hrun. rewrite bind_run in Hrun.
    destruct (sync_one_spec token st p w)
      as [(Hmiss & Hone)
         | [(Hone & _)
           | [(data & pre & m & st1 & w1 & Hnode & Hone & Htr & Hpre & Hskip & Hcase)
             | (e & w1 & tr & Hone & _)]]];
      rewrite Hone in Hrun; [| | |discriminate].
    + destruct (IH _ _ Hrun) as (tr2 & Htr2 & Htotal & Hs & Hk & Hf & Hposts &
                                  Hsleeps & Hgets).
      exists (EvPrint (MsgLocalMissing (Str.replace "/" "_" p)) :: tr2).
      split; [rewrite Htr2; simpl; now rewrite <- app_assoc|].
      simpl in *. repeat split; lia.
    + destruct (IH _ _ Hrun) as (tr2 & Htr2 & Htotal & Hs & Hk & Hf & Hposts &
                                  Hsleeps & Hgets).
      exists (EvPrint (MsgSkip p) :: tr2).
      split; [rewrite Htr2; simpl; now rewrite <- app_assoc|].
      simpl in *. repeat split; lia.
    + destruct (IH _ _ Hrun) as (tr2 & Htr2 & Htotal & Hs & Hk & Hf & Hposts &
                                  Hsleeps & Hgets).
      exists ((pre ++
                 [EvPrint (MsgUpload p (Str.replace "/" "_" p));
                  EvHttp (Post (upload_url P token) (Str.replace "/" "_" p) data);
                  EvPrint m; EvSleep 1]) ++ tr2).
      split; [rewrite Htr2, Htr; now rewrite <- !app_assoc|].
      rewrite !count_events_app.
      destruct Hpre as [-> | ->];
        destruct Hcase as [(res & -> & Hh & Hs1 & Hf1 & _)
                          | (d & entry & media_id & -> & _ & _ & _ & Hs1 & Hf1 & _ & _)];
        simpl in *; repeat split; lia.
Qed.

(** The loop, whatever its outcome: it sends uploads only, at most one per
    listed path, and sleeps at most once per upload; what it raises is an
    [Exception]. *)
Lemma sync_all_requests (token : json) (images : list string) (st : sync_state)
    (w : world) :
  exists tr : list event,
    trace (snd (sync_all P cfg token images st w)) = trace w ++ tr /\
    count_events is_get tr = 0%nat /\
    (count_events is_post tr <= length images)%nat /\
    (count_events is_sleep tr <= count_events is_post tr)%nat /\
    match fst (sync_all P cfg token images st w) with
    | Ok _ => True
    | Raise e => is_Exception e = true
    end.
Proof.
  revert st w. induction images as [|p images IH]; intros st w.
  - exists []. rewrite app_nil_r. simpl. repeat split; lia.
  - cbn [sync_all]. rewrite bind_run.
    destruct (sync_one_spec token st p w)
      as [(Hmiss & ->)
         | [(-> & _)
           | [(data & pre & m & st1 & w1 & Hnode & -> & Htr & Hpre & Hskip & Hcase)
             | (e & w1 & tr & -> & Htr & Hgets & Hsleeps & Hposts & _ & _ & He)]]].
    + destruct (IH st (record (EvPrint (MsgLocalMissing (Str.replace "/" "_" p))) w))
        as (tr2 & Htr2 & Hgets & Hposts & Hsleeps & Hexn).
      exists (EvPrint (MsgLocalMissing (Str.replace "/" "_" p)) :: tr2).
      split; [rewrite Htr2; simpl; now rewrite <- app_assoc|].
      simpl in *. repeat split; auto; lia.
    + match goal with
      | |- context [sync_all P cfg token images ?st1 ?w1] =>
          destruct (IH st1 w1) as (tr2 & Htr2 & Hgets & Hposts & Hsleeps & Hexn)
      end.
      exists (EvPrint (MsgSkip p) :: tr2).
      split; [rewrite Htr2; simpl; now rewrite <- app_assoc|].
      simpl in *. repeat split; auto; lia.
    + destruct (IH st1 w1) as (tr2 & Htr2 & Hgets & Hposts & Hsleeps & Hexn).
      exists ((pre ++
                 [EvPrint (MsgUpload p (Str.replace "/" "_" p));
                  EvHttp (Post (upload_url P token) (Str.replace "/" "_" p) data);
                  EvPrint m; EvSleep 1]) ++ tr2).
      split; [rewrite Htr2, Htr; now rewrite <- !app_assoc|].
      rewrite !count_events_app.
      destruct Hpre as [-> | ->]; simpl in *; repeat split; auto; lia.
    + exists tr. simpl. repeat split; auto; lia.
Qed.

Lemma count_events_zero (kind : event -> bool) (tr : list event) :
  (forall e : event, e ∈ tr -> kind e = false) -> count_events kind tr = 0%nat.
Proof.
  induction tr as [|e tr IH]; intros Hnone; [reflexivity|].
  simpl. rewrite (Hnone e) by apply list_elem_of_here.
  apply IH. intros e' He'. apply Hnone. now apply list_elem_of_further.
Qed.

(** [get_access_token] never raises; it sends at most one request, the
    token request, and does not sleep. *)
Lemma get_access_token_requests (w : world) :
  exists (v : json) (w' : world) (tr : list event),
    get_access_token P cfg w = (Ok v, w') /\
    trace w' = trace w ++ tr /\
    (count_events is_get tr <= 1)%nat /\
    count_events is_post tr = 0%nat /\
    count_events is_sleep tr = 0%nat.
Proof.
  unfold get_access_token.
  destruct (negb (env_truthy (APP_ID cfg)) || negb (env_truthy (APP_SECRET cfg)))%bool.
  { run. eexists _, _, [_]. repeat split; simpl; lia. }
  rewrite bind_run.
  destruct (read_token_cache_frame P cfg w) as (c & n & -> & _).
  destruct c as [token|].
  { exists token. eexists _, []. rewrite app_nil_r. repeat split; simpl; lia. }
  match goal with
  | |- context [refresh_token P cfg ?w0] =>
      destruct (refresh_token_frame P cfg w0)
        as (v & w' & tail & -> & Htr & Hhttp & Hsleep & _)
  end.
  exists v, w', (EvHttp (Get (token_url cfg)) :: tail).
  split; [reflexivity|]. split; [exact Htr|]. simpl.
  rewrite !count_events_zero; [lia | | |].
  - intros [m|n0|rq] He; try reflexivity. now apply Hsleep in He.
  - intros [m|n0|[u|u f d]] He; try reflexivity. now apply Hhttp in He.
  - intros [m|n0|[u|u f d]] He; try reflexivity. now apply Hhttp in He.
Qed.

(** X9. No retry and no request beyond the protocol: whatever the
    credentials, the files, the remote's answers and the outcome, a run of
    [main] sends at most one token request and at most one upload per listed
    path, sleeps at most once per upload, and ends with exit status 0
    or 1. *)
Theorem main_requests_bounded (w : world) :
  exists tr : list event,
    trace (snd (main P cfg w)) = trace w ++ tr /\
    (count_events is_get tr <= 1)%nat /\
    (count_events is_post tr <= length (IMAGES_LIST cfg))%nat /\
    (count_events is_sleep tr <= count_events is_post tr)%nat /\
    (exit_status (fst (main P cfg w)) = 0 \/
     exit_status (fst (main P cfg w)) = 1).
Proof.
  destruct (IMAGES_LIST cfg) as [|p images] eqn:Hlist.
  { assert (Hmain : main P cfg w =
      (Ok tt, World (fs w)
                (trace w ++ [EvPrint MsgStart; EvPrint MsgNothingToSync])
                (ticks w))).
    { unfold main. rewrite Hlist. run. now rewrite <- app_assoc. }
    rewrite Hmain. exists [EvPrint MsgStart; EvPrint MsgNothingToSync].
    simpl. repeat split; auto; lia. }
  rewrite (main_nonempty P cfg w) by (rewrite Hlist; discriminate).
  rewrite Hlist, bind_run.
  assert (Hrest : forall w1 : world,
    trace w1 = trace w ++ [EvPrint MsgStart] ->
    exists tr : list event,
      trace (snd ((token <- get_access_token P cfg ;;
                   if negb (py_truthy token) then raise (SystemExit 1)
                   else
                     history <- load_history P cfg ;;
                     st <- sync_all P cfg token (p :: images)
                             (SyncState history 0 0 0) ;;
                     print (MsgSummary (success_count st) (skip_count st)
                              (fail_count st))) w1)) = trace w ++ tr /\
      (count_events is_get tr <= 1)%nat /\
      (count_events is_post tr <= length (p :: images))%nat /\
      (count_events is_sleep tr <= count_events is_post tr)%nat /\
      (exit_status (fst ((token <- get_access_token P cfg ;;
                   if negb (py_truthy token) then raise (SystemExit 1)
                   else
                     history <- load_history P cfg ;;
                     st <- sync_all P cfg token (p :: images)
                             (SyncState history 0 0 0) ;;
                     print (MsgSummary (success_count st) (skip_count st)
                              (fail_count st))) w1)) = 0 \/
       exit_status (fst ((token <- get_access_token P cfg ;;
                   if negb (py_truthy token) then raise (SystemExit 1)
                   else
                     history <- load_history P cfg ;;
                     st <- sync_all P cfg token (p :: images)
                             (SyncState history 0 0 0) ;;
                     print (MsgSummary (success_count st) (skip_count st)
                              (fail_count st))) w1)) = 1)).
  { intros w1 Hw1. rewrite bind_run.
    destruct (get_access_token_requests w1)
      as (token & w2 & tr1 & -> & Htr1 & Hgets1 & Hposts1 & Hsleeps1).
    destruct (negb (py_truthy token)).
    { exists (EvPrint MsgStart :: tr1). simpl.
      split; [rewrite Htr1, Hw1; now rewrite <- app_assoc|].
      repeat split; auto; lia. }
    rewrite bind_run.
    destruct (load_history_total P cfg w2) as (h & ->).
    rewrite bind_run.
    destruct (sync_all_requests token (p :: images) (SyncState h 0 0 0) w2)
      as (tr2 & Htr2 & Hgets2 & Hposts2 & Hsleeps2 & Hexn).
    destruct (sync_all P cfg token (p :: images) (SyncState h 0 0 0) w2)
      as [[st|e] w3]; simpl in Htr2, Hexn.
    - run. exists (EvPrint MsgStart :: tr1 ++ tr2 ++
                     [EvPrint (MsgSummary (success_count st) (skip_count st)
                                 (fail_count st))]).
      split.
      { rewrite Htr2, Htr1, Hw1. rewrite <- !app_assoc. reflexivity. }
      simpl. rewrite !count_events_app. simpl in *. repeat split; auto; lia.
    - exists (EvPrint MsgStart :: tr1 ++ tr2). simpl.
      split.
      { rewrite Htr2, Htr1, Hw1. rewrite <- !app_assoc. reflexivity. }
      rewrite !count_events_app. simpl in *. repeat split; auto; try lia.
      right. now destruct e. }
  unfold os_makedirs. simpl.
  destruct (fs w !! WORKSPACE_DIR cfg) as [[a d|]|].
  - simpl. exists [EvPrint MsgStart]. simpl.
    repeat split; auto; lia.
  - apply Hrest. reflexivity.
  - apply Hrest. reflexivity.
Qed.

(** The exchange sends its one request; it prints a line only when it
    returns [None]. *)
Lemma refresh_token_lines (w : world) :
  (exists (v : json) (w' : world),
     refresh_token P cfg w = (Ok v, w') /\
     trace w' = trace w ++ [EvHttp (Get (token_url cfg))]) \/
  (exists (m : message) (w' : world),
     refresh_token P cfg w = (Ok JNull, w') /\
     trace w' = trace w ++ [EvHttp (Get (token_url cfg)); EvPrint m]).
Proof.
  unfold refresh_token, http, json_parse, time_time. run.
  destruct (remote P (trace w) (Get (token_url cfg))) as [text|text]; simpl.
  { right. eexists _, _. split; [reflexivity|]. simpl. now rewrite <- app_assoc. }
  destruct (json_loads P text) as [data|]; simpl.
  2:{ right. eexists _, _. split; [reflexivity|]. simpl.
      now rewrite <- app_assoc. }
  destruct (py_contains "access_token" data) as [[|]|e] eqn:Hhas; simpl.
  2:{ right. eexists _, _. split; [reflexivity|]. simpl.
      now rewrite <- app_assoc. }
  2:{ rewrite (py_contains_raise _ _ _ Hhas). right. eexists _, _.
      split; [reflexivity|]. simpl. now rewrite <- app_assoc. }
  destruct (py_getitem data "expires_in") as [v|e] eqn:Hin; simpl.
  2:{ rewrite (py_getitem_raise _ _ _ Hin). right. eexists _, _.
      split; [reflexivity|]. simpl. now rewrite <- app_assoc. }
  destruct (py_number v) as [ttl|e] eqn:Hnum; simpl.
  2:{ rewrite (py_number_raise _ _ Hnum). right. eexists _, _.
      split; [reflexivity|]. simpl. now rewrite <- app_assoc. }
  destruct (py_getitem data "access_token") as [tok|e] eqn:Htok; simpl.
  2:{ rewrite (py_getitem_raise _ _ _ Htok). right. eexists _, _.
      split; [reflexivity|]. simpl. now rewrite <- app_assoc. }
  match goal with
  | |- context [write_file ?f ?t ?w0] =>
      destruct (write_file_cases f t w0) as [-> | (e & He & ->)]
  end; simpl.
  - left. eexists _, _. split; reflexivity.
  - rewrite He. simpl. right. eexists _, _. split; [reflexivity|]. simpl.
    now rewrite <- app_assoc.
Qed.

(** A token that [main] goes on with was obtained silently: from the
    cache, or by the one token request. *)
Lemma get_access_token_truthy (token : json) (w w' : world) :
  get_access_token P cfg w = (Ok token, w') ->
  py_truthy token = true ->
  trace w' = trace w \/ trace w' = trace w ++ [EvHttp (Get (token_url cfg))].
Proof.
  unfold get_access_token.
  destruct (negb (env_truthy (APP_ID cfg)) || negb (env_truthy (APP_SECRET cfg)))%bool.
  { run. intros [= <- <-]. discriminate. }
  rewrite bind_run.
  destruct (read_token_cache_frame P cfg w) as (c & n & -> & _).
  destruct c as [cached|].
  { intros [= <- <-] _. now left. }
  match goal with
  | |- context [refresh_token P cfg ?w0] =>
      destruct (refresh_token_lines w0)
        as [(v & w1 & -> & Htr) | (m & w1 & -> & Htr)]
  end.
  - intros [= <- <-] _. now right.
  - intros [= <- <-]. discriminate.
Qed.

(** X8. The summary is right.  When [main] returns normally on a list that
    is not empty, the last line it printed is the summary, and its three
    numbers, with the lines of missing local files, account for every
    listed path once; the successes and failures together are the uploads
    that were sent, each followed by one sleep.  Before the loop the run
    sent at most the one token request. *)
Theorem main_summary (w w' : world) :
  IMAGES_LIST cfg <> [] ->
  main P cfg w = (Ok tt, w') ->
  exists (auth tr : list event) (s k f : nat),
    trace w' =
      trace w ++ EvPrint MsgStart :: auth ++ tr ++ [EvPrint (MsgSummary s k f)] /\
    (auth = [] \/ auth = [EvHttp (Get (token_url cfg))]) /\
    (s + k + f + count_events is_missing tr = length (IMAGES_LIST cfg))%nat /\
    count_events is_post tr = (s + f)%nat /\
    count_events is_sleep tr = (s + f)%nat /\
    count_events is_get tr = 0%nat.
Proof.
  intros Hlist. rewrite (main_nonempty P cfg w Hlist), bind_run.
  assert (Hrest : forall w1 : world,
    trace w1 = trace w ++ [EvPrint MsgStart] ->
    (token <- get_access_token P cfg ;;
     if negb (py_truthy token) then raise (SystemExit 1)
     else
       history <- load_history P cfg ;;
       st <- sync_all P cfg token (IMAGES_LIST cfg) (SyncState history 0 0 0) ;;
       print (MsgSummary (success_count st) (skip_count st) (fail_count st))) w1 =
      (Ok tt, w') ->
    exists (auth tr : list event) (s k f : nat),
      trace w' =
        trace w ++ EvPrint MsgStart :: auth ++ tr ++ [EvPrint (MsgSummary s k f)] /\
      (auth = [] \/ auth = [EvHttp (Get (token_url cfg))]) /\
      (s + k + f + count_events is_missing tr = length (IMAGES_LIST cfg))%nat /\
      count_events is_post tr = (s + f)%nat /\
      count_events is_sleep tr = (s + f)%nat /\
      count_events is_get tr = 0%nat).
  { intros w1 Hw1. rewrite bind_run.
    destruct (get_access_token P cfg w1) as [[token|e] w2] eqn:Htoken;
      [|discriminate].
    destruct (py_truthy token) eqn:Htruthy; [|discriminate]. simpl.
    rewrite bind_run.
    destruct (load_history_total P cfg w2) as (h & ->).
    rewrite bind_run.
    destruct (sync_all P cfg token (IMAGES_LIST cfg) (SyncState h 0 0 0) w2)
      as [[st|e] w3] eqn:Hloop; [|discriminate].
    run. intros [= <-]. simpl.
    destruct (sync_all_tally token _ _ _ _ _ Hloop)
      as (tr & Htr & Htotal & _ & _ & _ & Hposts & Hsleeps & Hgets).
    simpl in *.
    destruct (get_access_token_truthy token w1 w2 Htoken Htruthy) as [Hauth | Hauth].
    - exists [], tr, (success_count st), (skip_count st), (fail_count st).
      repeat split; auto; try lia.
      rewrite Htr, Hauth, Hw1. rewrite <- !app_assoc. reflexivity.
    - exists [EvHttp (Get (token_url cfg))], tr, (success_count st),
        (skip_count st), (fail_count st).
      repeat split; auto; try lia.
      rewrite Htr, Hauth, Hw1. rewrite <- !app_assoc. reflexivity. }
  unfold os_makedirs. simpl.
  destruct (fs w !! WORKSPACE_DIR cfg) as [[a d|]|]; [discriminate| |];
    apply Hrest; reflexivity.
Qed.

(** X10. The loop only ever sets the entries of listed paths: when it
    returns, the ledger is still a mapping, the entry of every path that is
    not in the list is what it was, no key has been removed, and if every
    entry was an object every entry still is. *)
Theorem sync_all_ledger (token : json) (images : list string)
    (st st' : sync_state) (w w' : world) (d : gmap string json) :
  sync_all P cfg token images st w = (Ok st', w') ->
  history st = JDict d ->
  exists d' : gmap string json,
    history st' = JDict d' /\
    (forall k : string, k ∉ images -> d' !! k = d !! k) /\
    (forall k : string, is_Some (d !! k) -> is_Some (d' !! k)) /\
    (ledger_shape (JDict d) -> ledger_shape (JDict d')).
Proof.
  revert st w d. induction images as [|p images IH]; intros st w d Hrun Hdict.
  - injection Hrun as <- <-. exists d. auto.
  - cbn [sync_all] in Hrun. rewrite bind_run in Hrun.
    assert (Hsame : forall (st1 : sync_state) (w1 : world),
      history st1 = history st ->
      sync_all P cfg token images st1 w1 = (Ok st', w') ->
      exists d' : gmap string json,
        history st' = JDict d' /\
        (forall k : string, k ∉ p :: images -> d' !! k = d !! k) /\
        (forall k : string, is_Some (d !! k) -> is_Some (d' !! k)) /\
        (ledger_shape (JDict d) -> ledger_shape (JDict d'))).
    { intros st1 w1 Hh Hrest.
      destruct (IH st1 w1 d Hrest) as (d' & Hd' & Hout & Hkeys & Hshape);
        [now rewrite Hh|].
      exists d'. repeat split; auto.
      intros k Hk. apply Hout. rewrite not_elem_of_cons in Hk. tauto. }
    destruct (sync_one_spec token st p w)
      as [(Hmiss & Hone)
         | [(Hone & _)
           | [(data & pre & m & st1 & w1 & Hnode & Hone & Htr & Hpre & Hskip & Hcase)
             | (e & w1 & tr & Hone & _)]]];
      rewrite Hone in Hrun; [| | |discriminate].
    + eapply Hsame; [|exact Hrun]. reflexivity.
    + eapply Hsame; [|exact Hrun]. reflexivity.
    + destruct Hcase as [(res & _ & Hh & _)
                        | (d0 & entry & media_id & _ & Hd0 & Hd1 & _)].
      * now apply (Hsame _ _ Hh Hrun).
      * rewrite Hdict in Hd0. injection Hd0 as <-.
        destruct (IH st1 w1 _ Hrun Hd1) as (d' & Hd' & Hout & Hkeys & Hshape).
        exists d'. repeat split; auto.
        -- intros k Hk. rewrite not_elem_of_cons in Hk. destruct Hk as [Hne Hk].
           rewrite (Hout k Hk). now apply lookup_insert_ne.
        -- intros k Hk. apply Hkeys.
           destruct (decide (p = k)) as [<- | Hne].
           ++ rewrite lookup_insert_eq. eauto.
           ++ now rewrite lookup_insert_ne.
        -- intros (d2 & [= <-] & Hentries). apply Hshape.
           eexists. split; [reflexivity|]. intros k v.
           destruct (decide (p = k)) as [<- | Hne].
           ++ rewrite lookup_insert_eq. intros [= <-]. eauto.
           ++ rewrite lookup_insert_ne by exact Hne. apply Hentries.
Qed.

(** When the loop returns, either it has recorded nothing and the history
    file is as it was, or the history file holds the ledger the loop ended
    with. *)
Lemma sync_all_saved (token : json) (images : list string) (st st' : sync_state)
    (w w' : world) :
  sync_all P cfg token images st w = (Ok st', w') ->
  (history st' = history st /\ success_count st' = success_count st /\
   fs w' !! HISTORY_FILE cfg = fs w !! HISTORY_FILE cfg) \/
  ((success_count st < success_count st')%nat /\
   fs w' !! HISTORY_FILE cfg =
     Some (File true (json_dumps P (Some 2%nat) (history st')))).
Proof.
  revert st w. induction images as [|p images IH]; intros st w Hrun.
  - injection Hrun as <- <-. now left.
  - cbn [sync_all] in Hrun. rewrite bind_run in Hrun.
    destruct (sync_one_spec token st p w)
      as [(Hmiss & Hone)
         | [(Hone & _)
           | [(data & pre & m & st1 & w1 & Hnode & Hone & Htr & Hpre & Hskip & Hcase)
             | (e & w1 & tr & Hone & _)]]];
      rewrite Hone in Hrun; [| | |discriminate].
    + destruct (IH _ _ Hrun) as [(Hh & Hs & Hfile) | (Hs & Hfile)]; auto.
    + destruct (IH _ _ Hrun) as [(Hh & Hs & Hfile) | (Hs & Hfile)]; auto.
    + destruct Hcase as [(res & _ & Hh1 & Hs1 & _ & Hfs)
                        | (d0 & entry & media_id & _ & _ & _ & _ & Hs1 & _ & Hfile1 & _)].
      * destruct (IH _ _ Hrun) as [(Hh & Hs & Hfile) | (Hs & Hfile)].
        -- left. rewrite Hh, Hs, Hfile, Hh1, Hs1, Hfs. auto.
        -- right. split; [lia | exact Hfile].
      * right.
        destruct (IH _ _ Hrun) as [(Hh & Hs & Hfile) | (Hs & Hfile)].
        -- split; [lia|]. now rewrite Hfile, Hh.
        -- split; [lia | exact Hfile].
Qed.

(** X11. Saving after every success keeps what was recorded when the run
    crashes.  If the turn of [p] raises after the paths before it were
    processed, the loop raises the same exception, an [Exception], and stops
    there; the history file then holds the ledger with every success made
    so far, or is as it was before the loop if there was none. *)
Theorem sync_all_crash_safe (token : json) (pre post : list string) (p : string)
    (st st1 : sync_state) (w w1 w2 : world) (e : exn) :
  sync_all P cfg token pre st w = (Ok st1, w1) ->
  sync_one P cfg token st1 p w1 = (Raise e, w2) ->
  sync_all P cfg token (pre ++ p :: post) st w = (Raise e, w2) /\
  is_Exception e = true /\
  ((success_count st < success_count st1)%nat ->
   fs w2 !! HISTORY_FILE cfg =
     Some (File true (json_dumps P (Some 2%nat) (history st1)))) /\
  (success_count st1 = success_count st ->
   history st1 = history st /\
   fs w2 !! HISTORY_FILE cfg = fs w !! HISTORY_FILE cfg).
Proof.
  intros Hpre Hone.
  assert (Hframe : fs w2 !! HISTORY_FILE cfg = fs w1 !! HISTORY_FILE cfg /\
                   is_Exception e = true).
  { destruct (sync_one_spec token st1 p w1)
      as [(_ & Heq)
         | [(Heq & _)
           | [(data & pre0 & m & st2 & w3 & _ & Heq & _)
             | (e0 & w3 & tr & Heq & _ & _ & _ & _ & _ & Hfile & He)]]];
      rewrite Heq in Hone; try discriminate.
    injection Hone as <- <-. auto. }
  destruct Hframe as [Hfile He].
  split; [|split; [exact He|]].
  { rewrite sync_all_app, bind_run, Hpre. cbn [sync_all].
    now rewrite bind_run, Hone. }
  destruct (sync_all_saved token pre st st1 w w1 Hpre)
    as [(Hh & Hs & Hfile1) | (Hs & Hfile1)].
  - split; [lia|]. intros _. split; [exact Hh|]. now rewrite Hfile.
  - split; [|lia]. intros _. now rewrite Hfile.
Qed.

(** X12. With a ledger that is not a mapping (the script does not check
    what the history file holds) the loop records nothing: whenever it
    returns, the ledger is that same value, no success was counted and the
    file system is as it was. *)
Theorem sync_all_not_a_mapping (token : json) (images : list string)
    (st st' : sync_state) (w w' : world) :
  (forall d : gmap string json, history st <> JDict d) ->
  sync_all P cfg token images st w = (Ok st', w') ->
  history st' = history st /\
  success_count st' = success_count st /\
  fs w' = fs w.
Proof.
  intros Hshape. revert st w Hshape.
  induction images as [|p images IH]; intros st w Hshape Hrun.
  - injection Hrun as <- <-. auto.
  - cbn [sync_all] in Hrun. rewrite bind_run in Hrun.
    destruct (sync_one_spec token st p w)
      as [(Hmiss & Hone)
         | [(Hone & _)
           | [(data & pre & m & st1 & w1 & Hnode & Hone & Htr & Hpre & Hskip & Hcase)
             | (e & w1 & tr & Hone & _)]]];
      rewrite Hone in Hrun; [| | |discriminate].
    + now apply IH in Hrun.
    + now apply IH in Hrun.
    + destruct Hcase as [(res & _ & Hh1 & Hs1 & _ & Hfs)
                        | (d0 & entry & media_id & _ & Hd0 & _)].
      * apply IH in Hrun; [|now rewrite Hh1].
        destruct Hrun as (Hh & Hs & Hfs'). rewrite Hh, Hs, Hfs'. auto.
      * now apply Hshape in Hd0.
Qed.

(** ** Upload, then skip *)

Lemma sync_one_missing (token : json) (st : sync_state) (p : string) (w : world) :
  fs w !! Str.replace "/" "_" p = None ->
  sync_one P cfg token st p w =
    (Ok st, record (EvPrint (MsgLocalMissing (Str.replace "/" "_" p))) w).
Proof.
  intros Hnone. unfold sync_one. rewrite bind_run. unfold os_path_exists.
  now rewrite Hnone.
Qed.

Lemma sync_one_synced (token : json) (st : sync_state) (p : string) (w : world)
    (d : gmap string json) :
  history st = JDict d ->
  synced P d w p ->
  sync_one P cfg token st p w =
    (Ok (SyncState (history st) (success_count st) (S (skip_count st))
           (fail_count st)),
     record (EvPrint (MsgSkip p)) w).
Proof.
  intros Hdict (data & entry & Hfile & Hentry & Hmd5).
  unfold sync_one. rewrite bind_run. unfold os_path_exists. rewrite Hfile. simpl.
  rewrite bind_run, (calculate_md5_file P _ _ _ Hfile), bind_run.
  unfold unchanged. rewrite Hdict. run.
  rewrite Hentry. simpl. rewrite Hmd5. simpl.
  now rewrite String.eqb_refl.
Qed.

(** The turn of a new or changed file whose upload is accepted. *)
Lemma sync_one_upload (token : json) (st : sync_state) (p : string) (w : world)
    (data text : string) (d r : gmap string json) (media_id : json) :
  fs w !! Str.replace "/" "_" p = Some (File true data) ->
  history st = JDict d ->
  needs_upload d p (md5_hexdigest P data) ->
  remote P
    (trace w ++ update_line d p ++
       [EvPrint (MsgUpload p (Str.replace "/" "_" p))])
    (Post (upload_url P token) (Str.replace "/" "_" p) data) = Body text ->
  json_loads P text = Some (JDict r) ->
  r !! "media_id" = Some media_id ->
  ledger_writable cfg w ->
  sync_one P cfg token st p w =
    (Ok (SyncState
           (JDict (<[p := ledger_entry media_id (default JNull (r !! "url"))
                            (md5_hexdigest P data) (clock P (ticks w))]> d))
           (S (success_count st)) (skip_count st) (fail_count st)),
     World
       (<[HISTORY_FILE cfg :=
            File true
              (json_dumps P (Some 2%nat)
                 (JDict (<[p := ledger_entry media_id (default JNull (r !! "url"))
                                  (md5_hexdigest P data) (clock P (ticks w))]> d)))]>
          (fs w))
       (trace w ++ update_line d p ++
          [EvPrint (MsgUpload p (Str.replace "/" "_" p));
           EvHttp (Post (upload_url P token) (Str.replace "/" "_" p) data);
           EvPrint (MsgSynced media_id); EvSleep 1])
       (S (ticks w))).
Proof.
  intros Hfile Hdict Hneeds Hremote Hparse Hid Hwritable.
  unfold sync_one. rewrite bind_run. unfold os_path_exists. rewrite Hfile. simpl.
  rewrite bind_run, (calculate_md5_file P _ _ _ Hfile), bind_run.
  assert (Htail : forall w0 : world,
    fs w0 = fs w -> ticks w0 = ticks w ->
    trace w0 = trace w ++ update_line d p ->
    (print (MsgUpload p (Str.replace "/" "_" p)) ;;;
     res <- upload_image P token (Str.replace "/" "_" p) p ;;
     st' <- record_result P cfg st p (md5_hexdigest P data) res ;;
     time_sleep 1 ;;; ret st') w0 =
    (Ok (SyncState
           (JDict (<[p := ledger_entry media_id (default JNull (r !! "url"))
                            (md5_hexdigest P data) (clock P (ticks w))]> d))
           (S (success_count st)) (skip_count st) (fail_count st)),
     World
       (<[HISTORY_FILE cfg :=
            File true
              (json_dumps P (Some 2%nat)
                 (JDict (<[p := ledger_entry media_id (default JNull (r !! "url"))
                                  (md5_hexdigest P data) (clock P (ticks w))]> d)))]>
          (fs w))
       (trace w ++ update_line d p ++
          [EvPrint (MsgUpload p (Str.replace "/" "_" p));
           EvHttp (Post (upload_url P token) (Str.replace "/" "_" p) data);
           EvPrint (MsgSynced media_id); EvSleep 1])
       (S (ticks w)))).
  { intros w0 Hfs Hticks Htr.
    rewrite bind_run. unfold print, emit.
    rewrite bind_run, upload_image_cases. cbv zeta. simpl.
    rewrite Hfs, Hfile, Htr, <- app_assoc, Hremote, Hparse.
    rewrite bind_run.
    unfold record_result, time_time. rewrite Hdict. run. rewrite Hid. simpl.
    rewrite save_history_ok.
    2:{ destruct Hwritable as [Hdir Hw]. split; [exact Hdir|].
        unfold writable, is_dir in *. simpl. exact Hw. }
    simpl. rewrite Hticks. unfold ledger_entry.
    rewrite <- !app_assoc. reflexivity. }
  assert (Hblock : unchanged (history st) p (md5_hexdigest P data) w =
    (Ok false, World (fs w) (trace w ++ update_line d p) (ticks w))).
  { unfold needs_upload in Hneeds. unfold unchanged, update_line.
    rewrite Hdict. run.
    destruct (d !! p) as [entry|] eqn:Hentry; simpl.
    - destruct entry as [| | | | |fields]; try contradiction. simpl.
      now rewrite Hneeds.
    - rewrite app_nil_r. now destruct w. }
  rewrite Hblock. now apply Htail.
Qed.

Lemma has_slash_app (a b : string) :
  has_slash (a +:+ b) = (has_slash a || has_slash b)%bool.
Proof.
  induction a as [|c a IH]; [reflexivity|].
  app_step. simpl. now rewrite IH, orb_assoc.
Qed.

(** With a workspace path that holds a slash, no flattened name is the path
    of the history file. *)
Lemma local_file_ne_history (p : string) :
  has_slash (WORKSPACE_DIR cfg) = true ->
  Str.replace "/" "_" p <> HISTORY_FILE cfg.
Proof.
  intros Hslash Heq.
  assert (Hfile : has_slash (HISTORY_FILE cfg) = true).
  { unfold HISTORY_FILE, os_path_join. simpl.
    destruct (_ || _)%bool; rewrite !has_slash_app, Hslash; reflexivity. }
  rewrite <- Heq, StrFacts.replace_slash, flat_no_slash in Hfile. discriminate.
Qed.

(** X13. An accepted upload is recorded so that the same path is skipped
    from then on.  For a file that is new to the ledger or whose MD5 has
    changed, with an answer holding a [media_id] and a history file that can
    be written, the turn sets the entry to the new MD5, saves the ledger,
    counts a success and sleeps; the next turn on the same path, in the
    state and world the first one left, is a skip with no request.  So a
    path listed twice is uploaded once. *)
Theorem sync_one_upload_then_skip (token : json) (st : sync_state) (p : string)
    (w : world) (data text : string) (d r : gmap string json) (media_id : json) :
  has_slash (WORKSPACE_DIR cfg) = true ->
  fs w !! Str.replace "/" "_" p = Some (File true data) ->
  history st = JDict d ->
  needs_upload d p (md5_hexdigest P data) ->
  remote P
    (trace w ++ update_line d p ++
       [EvPrint (MsgUpload p (Str.replace "/" "_" p))])
    (Post (upload_url P token) (Str.replace "/" "_" p) data) = Body text ->
  json_loads P text = Some (JDict r) ->
  r !! "media_id" = Some media_id ->
  ledger_writable cfg w ->
  let ledger :=
    <[p := ledger_entry media_id (default JNull (r !! "url"))
             (md5_hexdigest P data) (clock P (ticks w))]> d in
  let st1 :=
    SyncState (JDict ledger) (S (success_count st)) (skip_count st)
      (fail_count st) in
  let w1 :=
    World
      (<[HISTORY_FILE cfg := File true (json_dumps P (Some 2%nat) (JDict ledger))]>
         (fs w))
      (trace w ++ update_line d p ++
         [EvPrint (MsgUpload p (Str.replace "/" "_" p));
          EvHttp (Post (upload_url P token) (Str.replace "/" "_" p) data);
          EvPrint (MsgSynced media_id); EvSleep 1])
      (S (ticks w)) in
  let st2 :=
    SyncState (JDict ledger) (S (success_count st)) (S (skip_count st))
      (fail_count st) in
  sync_one P cfg token st p w = (Ok st1, w1) /\
  sync_one P cfg token st1 p w1 = (Ok st2, record (EvPrint (MsgSkip p)) w1) /\
  forall rest : list string,
    sync_all P cfg token (p :: p :: rest) st w =
      sync_all P cfg token rest st2 (record (EvPrint (MsgSkip p)) w1).
Proof.
  intros Hslash Hfile Hdict Hneeds Hremote Hparse Hid Hwritable. cbv zeta.
  pose proof (sync_one_upload token st p w data text d r media_id Hfile Hdict
                Hneeds Hremote Hparse Hid Hwritable) as Hfirst.
  match type of Hfirst with
  | _ = (Ok ?st1, ?w1) =>
      assert (Hsecond : sync_one P cfg token st1 p w1 =
        (Ok (SyncState (history st1) (success_count st1) (S (skip_count st1))
               (fail_count st1)),
         record (EvPrint (MsgSkip p)) w1))
  end.
  { eapply sync_one_synced; [reflexivity|].
    eexists data, _. split; [|split].
    - simpl. rewrite lookup_insert_ne by (apply not_eq_sym, local_file_ne_history,
                                           Hslash).
      exact Hfile.
    - apply lookup_insert_eq.
    - reflexivity. }
  split; [exact Hfirst|]. split; [exact Hsecond|].
  intros rest. cbn [sync_all]. now rewrite bind_run, Hfirst, bind_run, Hsecond.
Qed.

(** ** A run with nothing to upload *)

Lemma present_fs (w w0 : world) (images : list string) :
  fs w0 = fs w -> present w0 images = present w images.
Proof.
  intros Hfs. induction images as [|p images IH]; [reflexivity|].
  cbn [present]. now rewrite Hfs, IH.
Qed.

(** The loop over paths that are all missing or up to date prints one line
    per path and counts the skips; it changes nothing else. *)
Lemma sync_all_quiet (token : json) (images : list string)
    (d : gmap string json) (w : world) :
  (forall p : string, p ∈ images ->
     fs w !! Str.replace "/" "_" p = None \/ synced P d w p) ->
  forall (st : sync_state) (w0 : world),
    history st = JDict d ->
    fs w0 = fs w ->
    sync_all P cfg token images st w0 =
      (Ok (SyncState (history st) (success_count st)
             (skip_count st + present w images) (fail_count st)),
       World (fs w0) (trace w0 ++ map (quiet_line w) images) (ticks w0)).
Proof.
  induction images as [|p images IH]; intros Hall st w0 Hdict Hfs.
  - simpl. rewrite app_nil_r, Nat.add_0_r. now destruct st, w0.
  - cbn [sync_all present map]. rewrite bind_run. unfold quiet_line at 1.
    assert (Hrest : forall q : string, q ∈ images ->
              fs w !! Str.replace "/" "_" q = None \/ synced P d w q).
    { intros q Hq. apply Hall. now apply list_elem_of_further. }
    destruct (Hall p) as [Hnone | Hsynced]; [apply list_elem_of_here| |].
    + rewrite sync_one_missing by now rewrite Hfs.
      rewrite (IH Hrest) by auto. rewrite Hnone. simpl.
      now rewrite <- app_assoc.
    + rewrite (sync_one_synced token st p w0 d Hdict).
      2:{ destruct Hsynced as (data & entry & Hfile & Hentry & Hmd5).
          exists data, entry. now rewrite Hfs. }
      rewrite (IH Hrest) by auto.
      destruct Hsynced as (data & entry & Hfile & _). rewrite Hfile. simpl.
      rewrite <- app_assoc, Nat.add_succ_r. reflexivity.
Qed.

(** X14. A run on files that were all synced before is offline.  With a
    list of files, both credentials, the workspace directory, a token cache
    that is still good and a history file that holds each listed file with
    its present MD5 (or the local file missing), [main] returns normally
    having sent no request and slept not at all: it prints the start line,
    one line per path and the summary, reads the clock once, and leaves the
    file system as it was. *)
Theorem main_up_to_date (w : world) (token : json) (text : string)
    (d : gmap string json) :
  IMAGES_LIST cfg <> [] ->
  env_truthy (APP_ID cfg) = true ->
  env_truthy (APP_SECRET cfg) = true ->
  fs w !! WORKSPACE_DIR cfg = Some Dir ->
  cache_valid P cfg w token ->
  py_truthy token = true ->
  fs w !! HISTORY_FILE cfg = Some (File true text) ->
  json_loads P text = Some (JDict d) ->
  (forall p : string, p ∈ IMAGES_LIST cfg ->
     fs w !! Str.replace "/" "_" p = None \/ synced P d w p) ->
  main P cfg w =
    (Ok tt,
     World (fs w)
       (trace w ++
          EvPrint MsgStart :: map (quiet_line w) (IMAGES_LIST cfg) ++
          [EvPrint (MsgSummary 0 (present w (IMAGES_LIST cfg)) 0)])
       (S (ticks w))).
Proof.
  intros Hlist Hid Hsecret Hws Hcache Htruthy Hfile Hparse Hall.
  rewrite (main_nonempty P cfg w Hlist), bind_run.
  unfold os_makedirs. simpl. rewrite Hws.
  rewrite bind_run, (get_access_token_unfold P cfg _ Hid Hsecret).
  rewrite (read_token_cache_valid _ token) by exact Hcache.
  simpl. rewrite Htruthy. simpl.
  rewrite bind_run, (load_history_text P cfg _ text) by exact Hfile.
  rewrite Hparse. simpl.
  rewrite bind_run, (sync_all_quiet token (IMAGES_LIST cfg) d w Hall)
    by reflexivity.
  run. now rewrite <- !app_assoc.
Qed.

(** ** Saving again *)

(** Whether [save_history] succeeds does not depend on the ledger; when it
    does, the workspace is a directory and the history file holds the
    dump. *)
Lemma save_history_any (h1 : json) (w w1 : world) :
  save_history P cfg h1 w = (Ok tt, w1) ->
  forall h2 : json,
    save_history P cfg h2 w =
      (Ok tt,
       World (<[HISTORY_FILE cfg := File true (json_dumps P (Some 2%nat) h2)]>
                (<[WORKSPACE_DIR cfg := Dir]> (fs w)))
         (trace w) (ticks w)).
Proof.
  intros Hsave h2. revert Hsave.
  unfold save_history. rewrite !bind_run. unfold os_makedirs.
  destruct (fs w !! WORKSPACE_DIR cfg) as [[a t|]|] eqn:Hws; [discriminate| |].
  - rewrite (insert_id _ _ _ Hws). unfold write_file.
    destruct (fs w !! HISTORY_FILE cfg) as [[[|] t|]|]; try discriminate;
      [reflexivity|].
    destruct (is_dir w _); [reflexivity | discriminate].
  - unfold write_file. simpl.
    destruct (<[WORKSPACE_DIR cfg:=Dir]> (fs w) !! HISTORY_FILE cfg)
      as [[[|] t|]|]; try discriminate; [reflexivity|].
    destruct (is_dir _ _); [reflexivity | discriminate].
Qed.

(** X15. Once the ledger has been saved, saving again cannot fail, and the
    last save wins: saving one ledger and then another leaves exactly the
    world that saving the second alone leaves, with the second ledger's dump
    in the history file. *)
Theorem save_history_twice (h1 h2 : json) (w w1 : world) :
  save_history P cfg h1 w = (Ok tt, w1) ->
  save_history P cfg h2 w1 =
    (Ok tt,
     World (<[HISTORY_FILE cfg := File true (json_dumps P (Some 2%nat) h2)]> (fs w1))
       (trace w1) (ticks w1)) /\
  save_history P cfg h2 w1 = save_history P cfg h2 w.
Proof.
  intros Hsave.
  pose proof (save_history_any h1 w w1 Hsave) as Hany.
  rewrite (Hany h1) in Hsave. injection Hsave as <-.
  assert (Hagain : save_history P cfg h2
      (World (<[HISTORY_FILE cfg := File true (json_dumps P (Some 2%nat) h1)]>
                (<[WORKSPACE_DIR cfg := Dir]> (fs w)))
         (trace w) (ticks w)) =
    (Ok tt,
     World (<[HISTORY_FILE cfg := File true (json_dumps P (Some 2%nat) h2)]>
              (<[HISTORY_FILE cfg := File true (json_dumps P (Some 2%nat) h1)]>
                 (<[WORKSPACE_DIR cfg := Dir]> (fs w))))
       (trace w) (ticks w))).
  { match goal with
    | |- save_history _ _ _ ?w0 = _ => apply (save_history_ok P cfg h2 w0)
    end.
    split; simpl.
    - rewrite lookup_insert_ne by apply history_file_ne. apply lookup_insert_eq.
    - unfold writable. simpl. now rewrite lookup_insert_eq. }
  split; [exact Hagain|].
  rewrite Hagain, (Hany h2). now rewrite insert_insert_eq.
Qed.

(** ** Running the loop again *)

Lemma local_file_ne_workspace (p : string) :
  has_slash (WORKSPACE_DIR cfg) = true ->
  Str.replace "/" "_" p <> WORKSPACE_DIR cfg.
Proof.
  intros Hslash Heq.
  rewrite <- Heq, StrFacts.replace_slash, flat_no_slash in Hslash. discriminate.
Qed.

(** After a loop that returned and counted no failure, every listed path
    is settled: its local file is missing, or the ledger has it with the
    MD5 of the file.  Paths that were settled before still are. *)
Lemma sync_all_settled (token : json) (images : list string) (st st' : sync_state)
    (w w' : world) (d : gmap string json) :
  has_slash (WORKSPACE_DIR cfg) = true ->
  sync_all P cfg token images st w = (Ok st', w') ->
  fail_count st' = fail_count st ->
  history st = JDict d ->
  exists d' : gmap string json,
    history st' = JDict d' /\
    (forall q : string,
       fs w !! Str.replace "/" "_" q = None \/ synced P d w q ->
       fs w' !! Str.replace "/" "_" q = None \/ synced P d' w' q) /\
    (forall q : string, q ∈ images ->
       fs w' !! Str.replace "/" "_" q = None \/ synced P d' w' q).
Proof.
  intros Hslash. revert st w d.
  induction images as [|p images IH]; intros st w d Hrun Hfail Hdict.
  - injection Hrun as <- <-. exists d. repeat split; auto.
    intros q Hq. exfalso. exact (not_elem_of_nil q Hq).
  - cbn [sync_all] in Hrun. rewrite bind_run in Hrun.
    assert (Hstep : forall (st1 : sync_state) (w1 : world) (d1 : gmap string json),
      sync_all P cfg token images st1 w1 = (Ok st', w') ->
      fail_count st1 = fail_count st ->
      history st1 = JDict d1 ->
      (forall q : string,
         fs w !! Str.replace "/" "_" q = None \/ synced P d w q ->
         fs w1 !! Str.replace "/" "_" q = None \/ synced P d1 w1 q) ->
      fs w1 !! Str.replace "/" "_" p = None \/ synced P d1 w1 p ->
      exists d' : gmap string json,
        history st' = JDict d' /\
        (forall q : string,
           fs w !! Str.replace "/" "_" q = None \/ synced P d w q ->
           fs w' !! Str.replace "/" "_" q = None \/ synced P d' w' q) /\
        (forall q : string, q ∈ p :: images ->
           fs w' !! Str.replace "/" "_" q = None \/ synced P d' w' q)).
    { intros st1 w1 d1 Hrest Hfail1 Hdict1 Hkeep Hp.
      destruct (IH st1 w1 d1 Hrest) as (d' & Hd' & Hkeep' & Hall); auto.
      { now rewrite Hfail, Hfail1. }
      exists d'. repeat split; auto.
      intros q Hq. apply elem_of_cons in Hq as [-> | Hq]; auto. }
    destruct (sync_one_spec token st p w)
      as [(Hmiss & Hone)
         | [(Hone & d0 & Hd0 & Hsynced)
           | [(data & pre & m & st1 & w1 & Hnode & Hone & Htr & Hpre & Hskip & Hcase)
             | (e & w1 & tr & Hone & _)]]];
      rewrite Hone in Hrun; [| | |discriminate].
    + apply (Hstep _ _ d Hrun); auto.
    + rewrite Hdict in Hd0. injection Hd0 as <-.
      apply (Hstep _ _ d Hrun); auto.
    + destruct (sync_all_tally token _ _ _ _ _ Hrun)
        as (tr2 & _ & _ & _ & _ & Hmono & _).
      destruct Hcase as [(res & _ & _ & _ & Hf1 & _)
                        | (d0 & entry & media_id & _ & Hd0 & Hd1 & Hmd5 & _ & Hf1 &
                           _ & Hframe)]; [lia|].
      rewrite Hdict in Hd0. injection Hd0 as <-.
      assert (Hlocal : forall q : string,
                fs w1 !! Str.replace "/" "_" q = fs w !! Str.replace "/" "_" q).
      { intros q. apply Hframe.
        - now apply local_file_ne_history.
        - now apply local_file_ne_workspace. }
      apply (Hstep _ _ _ Hrun Hf1 Hd1).
      * intros q [Hnone | (data_q & entry_q & Hfile_q & Hentry_q & Hmd5_q)].
        { left. now rewrite Hlocal. }
        right. destruct (decide (p = q)) as [<- | Hne].
        -- exists data, entry. rewrite Hlocal, lookup_insert_eq. auto.
        -- exists data_q, entry_q. rewrite Hlocal, lookup_insert_ne by exact Hne.
           auto.
      * right. exists data, entry. rewrite Hlocal, lookup_insert_eq. auto.
Qed.

(** X16. Running the loop again uploads nothing.  After a loop that
    returned without counting a failure, the loop over the same list, from
    the state and the world the first one left and with any token, sends no
    request and does not sleep: every path is skipped or found missing, and
    the ledger and the file system stay as they are. *)
Theorem sync_all_again (token token' : json) (images : list string)
    (st st' : sync_state) (w w' : world) (d : gmap string json) :
  has_slash (WORKSPACE_DIR cfg) = true ->
  history st = JDict d ->
  sync_all P cfg token images st w = (Ok st', w') ->
  fail_count st' = fail_count st ->
  sync_all P cfg token' images st' w' =
    (Ok (SyncState (history st') (success_count st')
           (skip_count st' + present w' images) (fail_count st')),
     World (fs w') (trace w' ++ map (quiet_line w') images) (ticks w')).
Proof.
  intros Hslash Hdict Hrun Hfail.
  destruct (sync_all_settled token images st st' w w' d Hslash Hrun Hfail Hdict)
    as (d' & Hd' & _ & Hall).
  now apply (sync_all_quiet token' images d' w' Hall).
Qed.

End More.

(** ** More of the script, on the concrete platform *)

(** [a/b.jpg] is a word of the argument ["a/b.jpg c.png"]. *)
Lemma images_list_words_demo :
  "a/b.jpg" <> "" /\ has_space "a/b.jpg" = false /\
  Str.replace "/" "_" "a/b.jpg" <> "".
Proof.
  apply (images_list_words Demo.cfg0 "a/b.jpg").
  change (IMAGES_LIST Demo.cfg0) with ["a/b.jpg"; "c.png"].
  apply list_elem_of_here.
Defined.

(** A token granted without [expires_in] is dropped on a [KeyError]. *)
Lemma refresh_token_no_expiry_demo :
  refresh_token Demo.P_no_expiry Demo.cfg0 Demo.w_dir =
    (Ok JNull,
     World (fs Demo.w_dir)
       [EvHttp (Get (token_url Demo.cfg0));
        EvPrint (MsgNetworkError (KeyError "expires_in"))] 1).
Proof.
  destruct (refresh_token_no_expiry Demo.P_no_expiry Demo.cfg0 Demo.w_dir
              (Demo.dumps None (JDict (<["access_token" := JStr "TOKEN"]> ∅)))
              (<["access_token" := JStr "TOKEN"]> ∅) (JStr "TOKEN"))
    as (e & [[-> _] | [_ [v Hv]]] & Hrun).
  - vm_compute. reflexivity.
  - vm_compute. reflexivity.
  - vm_compute. reflexivity.
  - intros v ttl Hv. vm_compute in Hv. discriminate Hv.
  - exact Hrun.
  - vm_compute in Hv. discriminate Hv.
Defined.

(** With a directory at the path of the token cache, the run ends with
    status 1 although the remote grants the token. *)
Lemma main_cache_blocked_demo :
  exit_status (fst (main Demo.P_ok Demo.cfg0 Demo.w_blocked)) = 1.
Proof.
  apply (main_cache_blocked Demo.P_ok Demo.cfg0 Demo.w_blocked).
  - vm_compute. discriminate.
  - reflexivity.
  - reflexivity.
  - vm_compute. exact I.
Defined.


(** A first run on the two images: its summary accounts for both. *)
Lemma main_summary_demo :
  exists (auth tr : list event) (s k f : nat),
    trace (snd (main Demo.P_ok Demo.cfg0 Demo.w0)) =
      EvPrint MsgStart :: auth ++ tr ++ [EvPrint (MsgSummary s k f)] /\
    (s + k + f + count_events is_missing tr = 2)%nat /\
    count_events is_post tr = (s + f)%nat.
Proof.
  destruct (main_summary Demo.P_ok Demo.cfg0 Demo.w0
              (snd (main Demo.P_ok Demo.cfg0 Demo.w0)))
    as (auth & tr & s & k & f & Htr & _ & Htotal & Hposts & _).
  - vm_compute. discriminate.
  - vm_compute. reflexivity.
  - exists auth, tr, s, k, f. split; [exact Htr|]. split; [exact Htotal|].
    exact Hposts.
Defined.

(** Uploading [c.png] leaves the entry of [a/b.jpg] alone. *)
Lemma sync_all_ledger_demo :
  exists (st' : sync_state) (w' : world) (d' : gmap string json),
    sync_all Demo.P_ok Demo.cfg0 (JStr "TOKEN") ["c.png"] Demo.st_synced
      Demo.w_dir = (Ok st', w') /\
    history st' = JDict d' /\
    d' !! "a/b.jpg" = Some (JDict Demo.entry0).
Proof.
  assert (Hrun : exists (st' : sync_state) (w' : world),
            sync_all Demo.P_ok Demo.cfg0 (JStr "TOKEN") ["c.png"] Demo.st_synced
              Demo.w_dir = (Ok st', w')).
  { eexists _, _. vm_compute. reflexivity. }
  destruct Hrun as (st' & w' & Hrun).
  destruct (sync_all_ledger Demo.P_ok Demo.cfg0 (JStr "TOKEN") ["c.png"]
              Demo.st_synced st' Demo.w_dir w' Demo.ledger0 Hrun eq_refl)
    as (d' & Hd' & Hout & _).
  exists st', w', d'. split; [exact Hrun|]. split; [exact Hd'|].
  rewrite Hout; [reflexivity|].
  rewrite not_elem_of_cons. split; [discriminate | apply not_elem_of_nil].
Defined.

(** [c.png] cannot be read: the run crashes there, with the upload of
    [a/b.jpg] already in the history file. *)
Lemma sync_all_crash_safe_demo :
  exists (st1 : sync_state) (e : exn) (w2 : world),
    sync_all Demo.P_ok Demo.cfg0 (JStr "TOKEN") ["a/b.jpg"; "c.png"]
      Demo.st_fresh Demo.w_crash = (Raise e, w2) /\
    success_count st1 = 1%nat /\
    fs w2 !! HISTORY_FILE Demo.cfg0 =
      Some (File true (Demo.dumps (Some 2%nat) (history st1))).
Proof.
  assert (Hpre : exists (st1 : sync_state) (w1 : world),
            sync_all Demo.P_ok Demo.cfg0 (JStr "TOKEN") ["a/b.jpg"] Demo.st_fresh
              Demo.w_crash = (Ok st1, w1) /\
            success_count st1 = 1%nat /\
            sync_one Demo.P_ok Demo.cfg0 (JStr "TOKEN") st1 "c.png" w1 =
              (Raise (IsADirectoryError "c.png"), w1)).
  { eexists _, _. split; [vm_compute; reflexivity|].
    split; vm_compute; reflexivity. }
  destruct Hpre as (st1 & w1 & Hpre & Hs & Hone).
  destruct (sync_all_crash_safe Demo.P_ok Demo.cfg0 (JStr "TOKEN") ["a/b.jpg"] []
              "c.png" Demo.st_fresh st1 Demo.w_crash w1 w1 _ Hpre Hone)
    as (Hall & _ & Hsaved & _).
  exists st1, (IsADirectoryError "c.png"), w1.
  split; [exact Hall|]. split; [exact Hs|].
  apply Hsaved. rewrite Hs. simpl. lia.
Defined.

(** A history file that holds [[]]: the refused upload is counted, nothing
    is recorded. *)
Lemma sync_all_not_a_mapping_demo :
  exists (st' : sync_state) (w' : world),
    sync_all Demo.P_reject Demo.cfg0 (JStr "TOKEN") ["a/b.jpg"]
      (SyncState (JList []) 0 0 0) Demo.w0 = (Ok st', w') /\
    history st' = JList [] /\ success_count st' = 0%nat /\ fs w' = Demo.files0.
Proof.
  assert (Hrun : exists (st' : sync_state) (w' : world),
            sync_all Demo.P_reject Demo.cfg0 (JStr "TOKEN") ["a/b.jpg"]
              (SyncState (JList []) 0 0 0) Demo.w0 = (Ok st', w')).
  { eexists _, _. vm_compute. reflexivity. }
  destruct Hrun as (st' & w' & Hrun).
  exists st', w'. split; [exact Hrun|].
  apply (sync_all_not_a_mapping Demo.P_reject Demo.cfg0 (JStr "TOKEN") ["a/b.jpg"]
           (SyncState (JList []) 0 0 0) st' Demo.w0 w').
  - intros d. discriminate.
  - exact Hrun.
Defined.

(** [c.png] listed twice: one upload, then one skip. *)
Lemma sync_one_upload_then_skip_demo :
  exists (st2 : sync_state) (w2 : world),
    sync_all Demo.P_ok Demo.cfg0 (JStr "TOKEN") ["c.png"; "c.png"] Demo.st_fresh
      Demo.w_dir = (Ok st2, w2) /\
    success_count st2 = 1%nat /\ skip_count st2 = 1%nat /\
    count_events is_post (trace w2) = 1%nat.
Proof.
  pose proof (sync_one_upload_then_skip Demo.P_ok Demo.cfg0 (JStr "TOKEN")
                Demo.st_fresh "c.png" Demo.w_dir "PNG-BYTES"
                (Demo.dumps None
                   (JDict (<["media_id" := JStr "M-c.png"]>
                             (<["url" := JStr "http://mmbiz.qpic.cn/x"]> ∅))))
                ∅
                (<["media_id" := JStr "M-c.png"]>
                   (<["url" := JStr "http://mmbiz.qpic.cn/x"]> ∅))
                (JStr "M-c.png")) as Hspec.
  cbv zeta in Hspec.
  destruct Hspec as (_ & _ & Hall).
  - reflexivity.
  - vm_compute. reflexivity.
  - reflexivity.
  - vm_compute. exact I.
  - vm_compute. reflexivity.
  - vm_compute. reflexivity.
  - vm_compute. reflexivity.
  - split; vm_compute; reflexivity.
  - eexists _, _. split; [rewrite (Hall []); reflexivity|].
    repeat split; vm_compute; reflexivity.
Defined.

(** A second run with the remote down: one file skipped, one missing,
    status 0. *)
Lemma main_up_to_date_demo :
  main Demo.P_down Demo.cfg0 Demo.w_settled =
    (Ok tt,
     World (fs Demo.w_settled)
       [EvPrint MsgStart; EvPrint (MsgSkip "a/b.jpg");
        EvPrint (MsgLocalMissing "c.png"); EvPrint (MsgSummary 0 1 0)] 1).
Proof.
  rewrite (main_up_to_date Demo.P_down Demo.cfg0 Demo.w_settled (JStr "CACHED")
             (Demo.dumps (Some 2%nat) (JDict Demo.ledger0)) Demo.ledger0).
  - vm_compute. reflexivity.
  - vm_compute. discriminate.
  - reflexivity.
  - reflexivity.
  - vm_compute. reflexivity.
  - eexists _, _, _. repeat split; vm_compute; reflexivity.
  - reflexivity.
  - vm_compute. reflexivity.
  - vm_compute. reflexivity.
  - intros p Hp. change (IMAGES_LIST Demo.cfg0) with ["a/b.jpg"; "c.png"] in Hp.
    apply elem_of_cons in Hp as [-> | Hp].
    { right. exists "JPEG-BYTES", Demo.entry0. repeat split; vm_compute; reflexivity. }
    apply elem_of_cons in Hp as [-> | Hp].
    { left. vm_compute. reflexivity. }
    exfalso. exact (not_elem_of_nil p Hp).
Defined.

(** Saving the empty ledger and then [ledger0] is saving [ledger0]. *)
Lemma save_history_twice_demo :
  save_history Demo.P_ok Demo.cfg0 (JDict Demo.ledger0)
    (snd (save_history Demo.P_ok Demo.cfg0 (JDict ∅) Demo.w0)) =
  save_history Demo.P_ok Demo.cfg0 (JDict Demo.ledger0) Demo.w0.
Proof.
  apply (save_history_twice Demo.P_ok Demo.cfg0 (JDict ∅) (JDict Demo.ledger0)
           Demo.w0).
  vm_compute. reflexivity.
Defined.

(** After the first loop over the two images, the second one only skips. *)
Lemma sync_all_again_demo :
  exists (st' : sync_state) (w' : world),
    sync_all Demo.P_ok Demo.cfg0 (JStr "TOKEN") ["a/b.jpg"; "c.png"]
      Demo.st_fresh Demo.w_dir = (Ok st', w') /\
    success_count st' = 2%nat /\
    sync_all Demo.P_ok Demo.cfg0 (JStr "OTHER") ["a/b.jpg"; "c.png"] st' w' =
      (Ok (SyncState (history st') (success_count st')
             (skip_count st' + present w' ["a/b.jpg"; "c.png"]) (fail_count st')),
       World (fs w')
         (trace w' ++ map (quiet_line w') ["a/b.jpg"; "c.png"]) (ticks w')).
Proof.
  assert (Hrun : exists (st' : sync_state) (w' : world),
            sync_all Demo.P_ok Demo.cfg0 (JStr "TOKEN") ["a/b.jpg"; "c.png"]
              Demo.st_fresh Demo.w_dir = (Ok st', w') /\
            success_count st' = 2%nat /\ fail_count st' = 0%nat).
  { eexists _, _. split; [vm_compute; reflexivity|]. split; reflexivity. }
  destruct Hrun as (st' & w' & Hrun & Hs & Hf).
  exists st', w'. split; [exact Hrun|]. split; [exact Hs|].
  apply (sync_all_again Demo.P_ok Demo.cfg0 (JStr "TOKEN") (JStr "OTHER")
           ["a/b.jpg"; "c.png"] Demo.st_fresh st' Demo.w_dir w' ∅).
  - reflexivity.
  - reflexivity.
  - exact Hrun.
  - exact Hf.
Defined.

(** * Results and caches of any shape

    What the remote answers is not checked by the script, and neither is
    what the cache path holds. *)

Section Shapes.

Variable P : platform.
Variable cfg : config.

(** ** The result of an upload *)


(** ** The token cache *)


(** ** The exit status *)




End Shapes.

(** ** On the concrete platform *)







(** * The codec

    What [json.dump] writes, [json.load] reads back. *)

Module JsonFacts.
Import Demo.

(** *** White space *)

(** White space before a value is skipped. *)
Lemma skip_ws_blank (g s : string) : blank g = true -> skip_ws (g +:+ s) = skip_ws s.
Proof.
  induction g as [|c g IH]; [reflexivity|]. simpl. intros Hg.
  apply andb_true_iff in Hg as [Hc Hg]. app_step. simpl. rewrite Hc. now apply IH.
Qed.

Lemma blank_spaces (n : nat) : blank (spaces n) = true.
Proof. induction n as [|n IH]; [reflexivity|]. simpl. app_step. simpl. exact IH. Qed.

Lemma blank_break (indent : option nat) (level : nat) : blank (break indent level) = true.
Proof.
  destruct indent as [n|]; [|reflexivity]. unfold break, newline. app_step.
  simpl. apply blank_spaces.
Qed.

Lemma parse_value_ws (fuel : nat) (s s' : string) :
  skip_ws s = skip_ws s' -> parse_value fuel s = parse_value fuel s'.
Proof. destruct fuel; [reflexivity|]. simpl. now intros ->. Qed.

Lemma parse_members_ws (fuel : nat) (elem : string -> option (json * string))
    (acc : gmap string json) (s s' : string) :
  skip_ws s = skip_ws s' -> parse_members fuel elem acc s = parse_members fuel elem acc s'.
Proof. destruct fuel; [reflexivity|]. simpl. now intros ->. Qed.

(** *** Strings *)

(** A character is read back from what [escape_char] writes for it. *)
Lemma parse_chars_escape_char (c : ascii) (acc : list ascii) (t : string) :
  parse_chars acc (escape_char c +:+ t) = parse_chars (c :: acc) t.
Proof.
  destruct c as [[] [] [] [] [] [] [] []]; reflexivity.
Qed.

Lemma string_of_list_ascii_snoc (l : list ascii) (c : ascii) :
  string_of_list_ascii (l ++ [c]) = string_of_list_ascii l +:+ String c "".
Proof. induction l as [|a l IH]; [reflexivity|]. simpl. app_step. now rewrite IH. Qed.

(** A string is read back from its escaped text, up to the closing quote. *)
Lemma parse_chars_escape (s : string) (acc : list ascii) (rest : string) :
  parse_chars acc (escape s +:+ quote +:+ rest) =
    Some (string_of_list_ascii (rev acc) +:+ s, rest).
Proof.
  revert acc. induction s as [|c s IH]; intros acc.
  - cbn [escape]. unfold quote. app_step. simpl.
    now rewrite StrFacts.append_empty_r.
  - cbn [escape]. rewrite StrFacts.append_assoc, parse_chars_escape_char, IH.
    cbn [rev]. rewrite string_of_list_ascii_snoc, StrFacts.append_assoc.
    app_step. reflexivity.
Qed.

(** *** Numbers *)

Lemma parse_digits_end (acc : Z) (rest : string) :
  no_digit rest -> parse_digits acc true rest = Some (acc, rest).
Proof. destruct rest as [|c r]; simpl; [reflexivity|]. now intros ->. Qed.

Lemma parse_digits_acc (d : Decimal.uint) (acc : positive) (rest : string) :
  no_digit rest ->
  parse_digits (Zpos acc) true (NilEmpty.string_of_uint d +:+ rest) =
    Some (Zpos (Pos.of_uint_acc d acc), rest).
Proof.
  intros Hrest. revert acc.
  induction d as [|d IH|d IH|d IH|d IH|d IH|d IH|d IH|d IH|d IH|d IH]; intros acc;
    cbn [NilEmpty.string_of_uint Pos.of_uint_acc]; app_step;
    try (cbn [parse_digits];
         match goal with
         | |- context [digit_of ?c] =>
             change (digit_of c) with (Some (Z.of_nat (nat_of_ascii c - 48)))
         end; cbv beta iota;
         rewrite <- IH; f_equal; simpl; lia).
  now apply parse_digits_end.
Qed.

Lemma parse_digits_uint (d : Decimal.uint) (seen : bool) (rest : string) :
  no_digit rest ->
  seen = true \/ d <> Decimal.Nil ->
  parse_digits 0 seen (NilEmpty.string_of_uint d +:+ rest) =
    Some (Z.of_N (Pos.of_uint d), rest).
Proof.
  intros Hrest. revert seen.
  induction d as [|d IH|d IH|d IH|d IH|d IH|d IH|d IH|d IH|d IH|d IH];
    intros seen Hseen;
    cbn [NilEmpty.string_of_uint Pos.of_uint]; app_step.
  - destruct Hseen as [-> | Hnil]; [|contradiction]. now apply parse_digits_end.
  - cbn [parse_digits]. change (digit_of "0") with (Some 0). cbv beta iota.
    change (10 * 0 + 0) with 0. apply IH. now left.
  - cbn [parse_digits]. change (digit_of "1") with (Some 1). cbv beta iota.
    change (10 * 0 + 1) with (Zpos 1). now rewrite parse_digits_acc.
  - cbn [parse_digits]. change (digit_of "2") with (Some 2). cbv beta iota.
    change (10 * 0 + 2) with (Zpos 2). now rewrite parse_digits_acc.
  - cbn [parse_digits]. change (digit_of "3") with (Some 3). cbv beta iota.
    change (10 * 0 + 3) with (Zpos 3). now rewrite parse_digits_acc.
  - cbn [parse_digits]. change (digit_of "4") with (Some 4). cbv beta iota.
    change (10 * 0 + 4) with (Zpos 4). now rewrite parse_digits_acc.
  - cbn [parse_digits]. change (digit_of "5") with (Some 5). cbv beta iota.
    change (10 * 0 + 5) with (Zpos 5). now rewrite parse_digits_acc.
  - cbn [parse_digits]. change (digit_of "6") with (Some 6). cbv beta iota.
    change (10 * 0 + 6) with (Zpos 6). now rewrite parse_digits_acc.
  - cbn [parse_digits]. change (digit_of "7") with (Some 7). cbv beta iota.
    change (10 * 0 + 7) with (Zpos 7). now rewrite parse_digits_acc.
  - cbn [parse_digits]. change (digit_of "8") with (Some 8). cbv beta iota.
    change (10 * 0 + 8) with (Zpos 8). now rewrite parse_digits_acc.
  - cbn [parse_digits]. change (digit_of "9") with (Some 9). cbv beta iota.
    change (10 * 0 + 9) with (Zpos 9). now rewrite parse_digits_acc.
Qed.

Lemma to_uint_nonnil (p : positive) : Pos.to_uint p <> Decimal.Nil.
Proof.
  intros Hnil. pose proof (Unsigned.of_to p) as Hp. rewrite Hnil in Hp.
  discriminate Hp.
Qed.

(** The decimal digits of a positive number are read back as that number. *)
Lemma parse_digits_pos (p : positive) (rest : string) :
  no_digit rest ->
  parse_digits 0 false (NilEmpty.string_of_uint (Pos.to_uint p) +:+ rest) =
    Some (Zpos p, rest).
Proof.
  intros Hrest. rewrite parse_digits_uint; auto using to_uint_nonnil.
  now rewrite Unsigned.of_to.
Qed.

(** A number is read by [parse_digits]. *)
Lemma parse_value_digits (fuel : nat) (d : Decimal.uint) (rest : string) :
  d <> Decimal.Nil ->
  parse_value (S fuel) (NilEmpty.string_of_uint d +:+ rest) =
    match parse_digits 0 false (NilEmpty.string_of_uint d +:+ rest) with
    | Some (z, rest') => Some (JNum z, rest')
    | None => None
    end.
Proof.
  destruct d; [contradiction| | | | | | | | | |]; intros _;
    cbn [NilEmpty.string_of_uint]; app_step; reflexivity.
Qed.

Lemma json_size_pos (v : json) : (1 <= json_size v)%nat.
Proof. destruct v; simpl; lia. Qed.

(** *** Documents without members *)

Lemma parse_leaf_null (fuel : nat) (rest : string) :
  parse_value (S fuel) ("null" +:+ rest) = Some (JNull, rest).
Proof. reflexivity. Qed.

Lemma parse_leaf_bool (fuel : nat) (b : bool) (rest : string) :
  parse_value (S fuel) ((if b then "true" else "false") +:+ rest) = Some (JBool b, rest).
Proof. destruct b; reflexivity. Qed.

Lemma parse_value_minus (fuel : nat) (s : string) :
  parse_value (S fuel) (String "-" s) =
    match parse_digits 0 false s with
    | Some (z, rest') => Some (JNum (- z), rest')
    | None => None
    end.
Proof. reflexivity. Qed.

Lemma parse_leaf_num (fuel : nat) (z : Z) (rest : string) :
  no_digit rest -> parse_value (S fuel) (dumps_int z +:+ rest) = Some (JNum z, rest).
Proof.
  intros Hrest. destruct z as [|p|p]; unfold dumps_int.
  - app_step. change (parse_value (S fuel) (String "0" rest))
      with (match parse_digits 0 true rest with
            | Some (z, rest') => Some (JNum z, rest') | None => None end).
    now rewrite parse_digits_end.
  - rewrite parse_value_digits by apply to_uint_nonnil.
    now rewrite parse_digits_pos.
  - rewrite StrFacts.append_assoc. app_step.
    now rewrite parse_value_minus, parse_digits_pos.
Qed.

Lemma parse_value_quote (fuel : nat) (s : string) :
  parse_value (S fuel) (quote +:+ s) =
    match parse_chars [] s with
    | Some (t, rest') => Some (JStr t, rest')
    | None => None
    end.
Proof. reflexivity. Qed.

Lemma parse_leaf_str (fuel : nat) (t rest : string) :
  parse_value (S fuel) (dumps_string t +:+ rest) = Some (JStr t, rest).
Proof.
  unfold dumps_string. rewrite !StrFacts.append_assoc, parse_value_quote.
  now rewrite parse_chars_escape.
Qed.

(** *** Sizes, and induction on documents *)

Lemma sum_sizes_elem {A : Type} (size : A -> nat) (l : list A) (x : A) :
  x ∈ l -> (size x <= foldr (fun y acc => size y + acc) 0 l)%nat.
Proof.
  induction l as [|y l IH]; intros Hx.
  - exfalso. exact (not_elem_of_nil x Hx).
  - apply elem_of_cons in Hx as [-> | Hx]; simpl; [lia|].
    specialize (IH Hx). lia.
Qed.

Lemma sum_sizes_length {A : Type} (size : A -> nat) (l : list A) :
  (forall x, x ∈ l -> 1 <= size x)%nat ->
  (length l <= foldr (fun y acc => size y + acc) 0 l)%nat.
Proof.
  induction l as [|y l IH]; intros Hpos; simpl; [lia|].
  pose proof (Hpos y (list_elem_of_here _ _)).
  assert (length l <= foldr (fun y acc => size y + acc) 0 l)%nat.
  { apply IH. intros x Hx. apply Hpos. now apply list_elem_of_further. }
  lia.
Qed.

Lemma json_size_dict (d : gmap string json) :
  json_size (JDict d) =
    S (foldr (fun (p : string * json) acc => json_size p.2 + acc)%nat 0%nat
         (map_to_list d)).
Proof.
  cbn [json_size]. rewrite map_fold_foldr. f_equal.
  induction (map_to_list d) as [|[k x] l IH]; [reflexivity|].
  simpl. now rewrite IH.
Qed.

(** Induction on documents: a property that holds of a document whenever it
    holds of its items, or of the values of its members, holds of all. *)
Lemma json_ind' (Q : json -> Prop) :
  Q JNull ->
  (forall b, Q (JBool b)) ->
  (forall n, Q (JNum n)) ->
  (forall s, Q (JStr s)) ->
  (forall l, Forall Q l -> Q (JList l)) ->
  (forall d, (forall k x, d !! k = Some x -> Q x) -> Q (JDict d)) ->
  forall v, Q v.
Proof.
  intros Hnull Hbool Hnum Hstr Hlist Hdict v.
  remember (json_size v) as n eqn:Hn.
  assert (Hle : (json_size v <= n)%nat) by lia. clear Hn.
  revert v Hle. induction n as [|n IH]; intros v Hle.
  { pose proof (json_size_pos v). lia. }
  destruct v as [|b|z|s|l|d]; auto.
  - apply Hlist. apply Forall_forall. intros x Hx. apply IH.
    cbn [json_size] in Hle.
    pose proof (sum_sizes_elem json_size l x Hx). lia.
  - apply Hdict. intros k x Hx. apply IH.
    rewrite json_size_dict in Hle.
    apply elem_of_map_to_list in Hx.
    pose proof (sum_sizes_elem (fun p : string * json => json_size p.2)
                  (map_to_list d) (k, x) Hx) as Hsum.
    simpl in Hsum. lia.
Qed.

(** *** Containers *)

Lemma ws_no_digit (c : ascii) : is_ws c = true -> digit_of c = None.
Proof. destruct c as [[] [] [] [] [] [] [] []]; try discriminate; reflexivity. Qed.

Lemma no_digit_blank (g : string) (c : ascii) (s : string) :
  blank g = true -> digit_of c = None -> no_digit (g +:+ String c s).
Proof.
  destruct g as [|a g]; intros Hg Hc; [exact Hc|].
  app_step. simpl in *. apply andb_true_iff in Hg as [Ha _].
  now apply ws_no_digit.
Qed.

Lemma foldr_cons_map {A B : Type} (f : A -> B) (l : list A) :
  foldr (fun x acc => f x :: acc) [] l = map f l.
Proof. induction l as [|x l IH]; [reflexivity|]. simpl. now rewrite IH. Qed.

Lemma parse_items_step (fuel : nat) (elem : string -> option (json * string))
    (acc : list json) (s r1 : string) (v : json) :
  elem s = Some (v, r1) ->
  parse_items (S fuel) elem acc s =
    match skip_ws r1 with
    | String "," r' => parse_items fuel elem (v :: acc) r'
    | String "]" r' => Some (rev (v :: acc), r')
    | _ => None
    end.
Proof. intros Helem. cbn [parse_items]. now rewrite Helem. Qed.

(** The items of a list, written with a comma and white space between
    them, are read back in order. *)
Lemma parse_items_join (elem : string -> option (json * string))
    (txt : json -> string) (g tail rest : string) (l : list json) :
  blank g = true -> blank tail = true ->
  Forall (fun x => forall g0 r, blank g0 = true -> no_digit r ->
                     elem (g0 +:+ txt x +:+ r) = Some (x, r)) l ->
  l <> [] ->
  forall (fuel : nat) (acc : list json) (g0 : string),
    (length l <= fuel)%nat -> blank g0 = true ->
    parse_items fuel elem acc
      (g0 +:+ join (String "," g) (map txt l) +:+ tail +:+ "]" +:+ rest) =
      Some (rev acc ++ l, rest).
Proof.
  intros Hg Htail Helems. induction Helems as [|x l Hx Hl IH]; [contradiction|].
  intros _ fuel acc g0 Hfuel Hg0.
  destruct fuel as [|fuel]; [simpl in Hfuel; lia|].
  destruct l as [|x2 l].
  - cbn [map join].
    rewrite (parse_items_step _ _ _ _ (tail +:+ "]" +:+ rest) x).
    2:{ apply Hx; [exact Hg0|]. now apply no_digit_blank. }
    rewrite skip_ws_blank by exact Htail. app_step. reflexivity.
  - cbn [map join]. fold (join (String "," g) (txt x2 :: map txt l)).
    rewrite !StrFacts.append_assoc. app_step.
    rewrite (parse_items_step _ _ _ _
               (String "," (g +:+ join (String "," g) (map txt (x2 :: l))
                              +:+ tail +:+ "]" +:+ rest)) x).
    2:{ apply Hx; [exact Hg0 | reflexivity]. }
    cbn [skip_ws]. change (is_ws ",") with false. cbv beta iota.
    rewrite IH; [| discriminate | simpl in *; lia | exact Hg].
    cbn [rev]. now rewrite <- app_assoc.
Qed.

Lemma parse_members_step (fuel : nat) (elem : string -> option (json * string))
    (acc : gmap string json) (s body r1 r2 r3 k : string) (v : json) :
  skip_ws s = quote +:+ body ->
  parse_chars [] body = Some (k, r1) ->
  skip_ws r1 = String ":" r2 ->
  elem r2 = Some (v, r3) ->
  parse_members (S fuel) elem acc s =
    match skip_ws r3 with
    | String "," r4 => parse_members fuel elem (<[k := v]> acc) r4
    | String "}" r4 => Some (<[k := v]> acc, r4)
    | _ => None
    end.
Proof.
  intros Hs Hk Hcolon Helem. cbn [parse_members]. rewrite Hs.
  unfold quote. app_step. cbv beta iota.
  change (nat_of_ascii (ascii_of_nat 34) =? 34)%nat with true. cbv beta iota.
  rewrite Hk, Hcolon. cbv beta iota. now rewrite Helem.
Qed.

(** The members of an object, written with a comma and white space between
    them, are read back into the map of the members. *)
Lemma parse_members_join (elem : string -> option (json * string))
    (txt : json -> string) (g tail rest : string) (l : list (string * json)) :
  blank g = true -> blank tail = true ->
  Forall (fun p => forall g0 r, blank g0 = true -> no_digit r ->
                     elem (g0 +:+ txt p.2 +:+ r) = Some (p.2, r)) l ->
  l <> [] ->
  forall (fuel : nat) (acc : gmap string json) (g0 : string),
    (length l <= fuel)%nat -> blank g0 = true ->
    parse_members fuel elem acc
      (g0 +:+ join (String "," g) (map (member_text txt) l)
          +:+ tail +:+ "}" +:+ rest) =
      Some (fold_left (fun m p => <[p.1 := p.2]> m) l acc, rest).
Proof.
  intros Hg Htail Helems. induction Helems as [|[k x] l Hx Hl IH]; [contradiction|].
  intros _ fuel acc g0 Hfuel Hg0.
  destruct fuel as [|fuel]; [simpl in Hfuel; lia|].
  assert (Hstep : forall r3 : string, no_digit r3 ->
    parse_members (S fuel) elem acc
      (g0 +:+ member_text txt (k, x) +:+ r3) =
    match skip_ws r3 with
    | String "," r4 => parse_members fuel elem (<[k := x]> acc) r4
    | String "}" r4 => Some (<[k := x]> acc, r4)
    | _ => None
    end).
  { intros r3 Hr3.
    apply (parse_members_step _ _ _ _
             (escape k +:+ quote +:+ ": " +:+ txt x +:+ r3)
             (": " +:+ txt x +:+ r3) (" " +:+ txt x +:+ r3) r3 k x).
    - rewrite skip_ws_blank by exact Hg0.
      unfold member_text, dumps_string. cbn [fst snd].
      rewrite !StrFacts.append_assoc. unfold quote. app_step. reflexivity.
    - rewrite parse_chars_escape. reflexivity.
    - app_step. reflexivity.
    - apply (Hx " " r3); [reflexivity | exact Hr3]. }
  destruct l as [|p2 l].
  - cbn [map join fold_left].
    rewrite Hstep by now apply no_digit_blank.
    rewrite skip_ws_blank by exact Htail. app_step. reflexivity.
  - change (join (String "," g) (map (member_text txt) ((k, x) :: p2 :: l)))
      with (member_text txt (k, x) +:+ String "," g +:+
            join (String "," g) (map (member_text txt) (p2 :: l))).
    rewrite !StrFacts.append_assoc. app_step.
    rewrite Hstep by reflexivity.
    cbn [skip_ws]. change (is_ws ",") with false. cbv beta iota.
    rewrite IH; [reflexivity | discriminate | simpl in *; lia | exact Hg].
Qed.

Lemma fold_left_insert (l : list (string * json)) :
  fold_left (fun (m : gmap string json) p => <[p.1 := p.2]> m) l ∅ =
    list_to_map (rev l).
Proof.
  unfold list_to_map. symmetry.
  apply (fold_left_rev_right
           (fun (p : string * json) (m : gmap string json) => <[p.1 := p.2]> m)).
Qed.

(** Inserting the members of a map, in the order in which they are written,
    gives the map back. *)
Lemma fold_left_map_to_list (d : gmap string json) :
  fold_left (fun (m : gmap string json) p => <[p.1 := p.2]> m) (map_to_list d) ∅ = d.
Proof.
  rewrite fold_left_insert. symmetry. apply list_to_map_flip.
  apply Permutation_rev.
Qed.

(** *** The first character of a dump *)

(** A dump starts with a character that is not white space, and that tells
    the kind of document. *)
Lemma dumps_head (v : json) (indent : option nat) (level : nat) (rest : string) :
  exists (c : ascii) (s : string),
    dumps_at indent level v +:+ rest = String c s /\
    is_ws c = false /\ c <> "]"%char.
Proof.
  destruct v as [|[|]|z|t|l|d]; cbn [dumps_at].
  - eexists _, _. app_step. repeat split. discriminate.
  - eexists _, _. app_step. repeat split. discriminate.
  - eexists _, _. app_step. repeat split. discriminate.
  - destruct z as [|p|p]; unfold dumps_int.
    + eexists _, _. app_step. repeat split. discriminate.
    + pose proof (to_uint_nonnil p) as Hnil.
      destruct (Pos.to_uint p); [contradiction| | | | | | | | | |];
        cbn [NilEmpty.string_of_uint]; eexists _, _; app_step;
        repeat split; discriminate.
    + eexists _, _. app_step. repeat split. discriminate.
  - unfold dumps_string, quote. eexists _, _. app_step. repeat split. discriminate.
  - unfold bracket. destruct (foldr _ _ l); eexists _, _; app_step;
      repeat split; discriminate.
  - unfold bracket. destruct (map_fold _ _ d); eexists _, _; app_step;
      repeat split; discriminate.
Qed.

Lemma skip_ws_head (c : ascii) (s : string) :
  is_ws c = false -> skip_ws (String c s) = String c s.
Proof. intros Hc. simpl. now rewrite Hc. Qed.

Lemma parse_value_list (fuel : nat) (r : string) (c : ascii) (s : string) :
  skip_ws r = String c s -> c <> "]"%char ->
  parse_value (S fuel) (String "[" r) =
    match parse_items fuel (parse_value fuel) [] r with
    | Some (l, rest') => Some (JList l, rest')
    | None => None
    end.
Proof.
  intros Hr Hc.
  transitivity
    (match skip_ws r with
     | String "]" rest' => Some (JList [], rest')
     | _ =>
         match parse_items fuel (parse_value fuel) [] r with
         | Some (l, rest') => Some (JList l, rest')
         | None => None
         end
     end); [reflexivity|].
  rewrite Hr.
  destruct c as [[] [] [] [] [] [] [] []]; try reflexivity.
  now contradiction Hc.
Qed.

Lemma parse_value_dict (fuel : nat) (r body : string) :
  skip_ws r = quote +:+ body ->
  parse_value (S fuel) (String "{" r) =
    match parse_members fuel (parse_value fuel) ∅ r with
    | Some (d, rest') => Some (JDict d, rest')
    | None => None
    end.
Proof.
  intros Hr.
  transitivity
    (match skip_ws r with
     | String "}" rest' => Some (JDict ∅, rest')
     | _ =>
         match parse_members fuel (parse_value fuel) ∅ r with
         | Some (d, rest') => Some (JDict d, rest')
         | None => None
         end
     end); [reflexivity|].
  now rewrite Hr.
Qed.

(** *** Reading back a dump *)

Lemma sep_break (indent : option nat) (level : nat) :
  exists g : string,
    match indent with Some _ => "," | None => ", " end +:+ break indent level =
      String "," g /\
    blank g = true.
Proof.
  destruct indent as [n|].
  - exists (break (Some n) level). split; [now app_step | apply blank_break].
  - exists " ". split; reflexivity.
Qed.

Lemma join_head (sep t : string) (ts : list string) (rest : string) :
  exists u : string, join sep (t :: ts) +:+ rest = t +:+ u.
Proof.
  destruct ts as [|t2 ts]; cbn [join]; [now exists rest|].
  rewrite StrFacts.append_assoc. eauto.
Qed.

Lemma members_map (txt : json -> string) (l : list (string * json)) :
  foldr (uncurry (fun k x acc => (dumps_string k +:+ ": " +:+ txt x) :: acc)) [] l =
    map (member_text txt) l.
Proof. induction l as [|[k x] l IH]; [reflexivity|]. simpl. now rewrite IH. Qed.

(** Every document is read back from its dump, whatever follows it, with
    more fuel than the document has nodes. *)
Lemma parse_dumps (v : json) :
  forall (indent : option nat) (level fuel : nat) (rest : string),
    (json_size v < fuel)%nat -> no_digit rest ->
    parse_value fuel (dumps_at indent level v +:+ rest) = Some (v, rest).
Proof.
  induction v as [|b|z|t|l IH|d IH] using json_ind';
    intros indent level fuel rest Hfuel Hrest;
    (destruct fuel as [|fuel]; [lia|]).
  - reflexivity.
  - destruct b; reflexivity.
  - now apply parse_leaf_num.
  - apply parse_leaf_str.
  - cbn [dumps_at json_size] in *. rewrite foldr_cons_map.
    destruct l as [|x l]; [reflexivity|].
    unfold bracket. cbn [map]. cbv zeta.
    destruct (sep_break indent (S level)) as (g & -> & Hg).
    rewrite !StrFacts.append_assoc. app_step.
    change (String "]" rest) with ("]" +:+ rest).
    destruct (join_head (String "," g) (dumps_at indent (S level) x)
                (map (dumps_at indent (S level)) l)
                (break indent level +:+ "]" +:+ rest)) as (u & Hu).
    destruct (dumps_head x indent (S level) u) as (c & s & Hhead & Hc & Hne).
    rewrite (parse_value_list fuel _ c s); [| | exact Hne].
    2:{ rewrite skip_ws_blank by apply blank_break.
        rewrite Hu, Hhead. now apply skip_ws_head. }
    change (dumps_at indent (S level) x :: map (dumps_at indent (S level)) l)
      with (map (dumps_at indent (S level)) (x :: l)).
    rewrite (parse_items_join (parse_value fuel) (dumps_at indent (S level)) g
               (break indent level) rest (x :: l));
      auto using blank_break; try discriminate.
    + apply Forall_forall. intros y Hin g0 r Hg0 Hr.
      rewrite (parse_value_ws fuel _ (dumps_at indent (S level) y +:+ r))
        by now apply skip_ws_blank.
      apply (proj1 (Forall_forall _ _) IH y Hin); [|exact Hr].
      pose proof (sum_sizes_elem json_size (x :: l) y Hin). lia.
    + pose proof (sum_sizes_length json_size (x :: l)
                    (fun y _ => json_size_pos y)). lia.
  - rewrite json_size_dict in Hfuel. cbn [dumps_at].
    rewrite map_fold_foldr, members_map.
    destruct (map_to_list d) as [|[k x] L] eqn:HL.
    { apply map_to_list_empty_iff in HL. subst d. reflexivity. }
    unfold bracket. cbn [map]. cbv zeta.
    destruct (sep_break indent (S level)) as (g & -> & Hg).
    rewrite !StrFacts.append_assoc. app_step.
    change (String "}" rest) with ("}" +:+ rest).
    destruct (join_head (String "," g)
                (member_text (dumps_at indent (S level)) (k, x))
                (map (member_text (dumps_at indent (S level))) L)
                (break indent level +:+ "}" +:+ rest)) as (u & Hu).
    rewrite (parse_value_dict fuel _
               (escape k +:+ quote +:+ ": " +:+ dumps_at indent (S level) x +:+ u)).
    2:{ rewrite skip_ws_blank by apply blank_break. rewrite Hu.
        unfold member_text, dumps_string. cbn [fst snd].
        rewrite !StrFacts.append_assoc. unfold quote. app_step. reflexivity. }
    change (member_text (dumps_at indent (S level)) (k, x)
              :: map (member_text (dumps_at indent (S level))) L)
      with (map (member_text (dumps_at indent (S level))) ((k, x) :: L)).
    rewrite (parse_members_join (parse_value fuel) (dumps_at indent (S level)) g
               (break indent level) rest ((k, x) :: L));
      auto using blank_break; try discriminate.
    + now rewrite <- HL, fold_left_map_to_list.
    + apply Forall_forall. intros [k' y] Hin g0 r Hg0 Hr. cbn [snd].
      rewrite (parse_value_ws fuel _ (dumps_at indent (S level) y +:+ r))
        by now apply skip_ws_blank.
      apply (IH k' y); [| |exact Hr].
      * apply elem_of_map_to_list. now rewrite HL.
      * pose proof (sum_sizes_elem (fun p : string * json => json_size p.2)
                      ((k, x) :: L) (k', y) Hin) as Hsum.
        cbn [snd] in Hsum. lia.
    + pose proof (sum_sizes_length (fun p : string * json => json_size p.2)
                    ((k, x) :: L) (fun p _ => json_size_pos p.2)). lia.
Qed.

(** *** A dump is at least as long as the document has nodes *)

Lemma join_length (sep : string) (ts : list string) :
  (foldr (fun t acc => String.length t + acc) 0 ts <= String.length (join sep ts))%nat.
Proof.
  induction ts as [|t ts IH]; [simpl; lia|].
  destruct ts as [|t2 ts]; [simpl; lia|].
  change (join sep (t :: t2 :: ts)) with (t +:+ sep +:+ join sep (t2 :: ts)).
  rewrite !StrFacts.append_length.
  change (foldr (fun t0 acc => String.length t0 + acc) 0 (t :: t2 :: ts))%nat
    with (String.length t +
          foldr (fun t0 acc => String.length t0 + acc) 0 (t2 :: ts))%nat.
  lia.
Qed.

Lemma bracket_length (indent : option nat) (level : nat) (open close : string)
    (items : list string) :
  (String.length open + foldr (fun t acc => String.length t + acc) 0 items
   <= String.length (bracket indent level open close items))%nat.
Proof.
  unfold bracket. destruct items as [|t ts].
  - rewrite StrFacts.append_length. simpl. lia.
  - cbv zeta. rewrite !StrFacts.append_length.
    pose proof (join_length
                  (match indent with Some _ => "," | None => ", " end
                   +:+ break indent (S level)) (t :: ts)).
    lia.
Qed.

Lemma sum_le_map {A : Type} (size : A -> nat) (txt : A -> string) (l : list A) :
  Forall (fun x => size x <= String.length (txt x))%nat l ->
  (foldr (fun x acc => size x + acc) 0 l
   <= foldr (fun t acc => String.length t + acc) 0 (map txt l))%nat.
Proof. induction 1 as [|x l Hx Hl IH]; simpl; lia. Qed.

(** The fuel of [loads], the length of the text, is enough. *)
Lemma dumps_length (v : json) :
  forall (indent : option nat) (level : nat),
    (json_size v <= String.length (dumps_at indent level v))%nat.
Proof.
  induction v as [|b|z|t|l IH|d IH] using json_ind'; intros indent level.
  - simpl. lia.
  - destruct b; simpl; lia.
  - destruct z as [|p|p]; cbn [dumps_at json_size dumps_int].
    + simpl. lia.
    + pose proof (to_uint_nonnil p). destruct (Pos.to_uint p); simpl; try lia.
      contradiction.
    + rewrite StrFacts.append_length. simpl. lia.
  - cbn [dumps_at json_size]. unfold dumps_string.
    rewrite StrFacts.append_length. simpl. lia.
  - cbn [dumps_at json_size]. rewrite foldr_cons_map.
    pose proof (bracket_length indent level "[" "]"
                  (map (dumps_at indent (S level)) l)) as Hlen.
    pose proof (sum_le_map json_size (dumps_at indent (S level)) l) as Hsum.
    simpl in Hlen. apply Nat.le_trans with (2 := Hlen). apply le_n_S, Hsum.
    eapply Forall_impl; [exact IH|]. intros x Hx. apply Hx.
  - rewrite json_size_dict. cbn [dumps_at].
    rewrite map_fold_foldr, members_map.
    pose proof (bracket_length indent level "{" "}"
                  (map (member_text (dumps_at indent (S level))) (map_to_list d)))
      as Hlen.
    pose proof (sum_le_map (fun p : string * json => json_size p.2)
                  (member_text (dumps_at indent (S level))) (map_to_list d))
      as Hsum.
    simpl in Hlen. apply Nat.le_trans with (2 := Hlen). apply le_n_S, Hsum.
    apply Forall_forall. intros [k x] Hin. cbn [snd].
    unfold member_text. cbn [fst snd]. rewrite !StrFacts.append_length.
    apply elem_of_map_to_list in Hin. pose proof (IH k x Hin indent (S level)).
    lia.
Qed.

(** Round trip of the codec: every document is read back from its dump, for
    every indentation. *)
Lemma loads_dumps (indent : option nat) (v : json) :
  loads (dumps indent v) = Some v.
Proof.
  unfold loads, dumps.
  pose proof (parse_dumps v indent 0 (S (String.length (dumps_at indent 0 v))) ""
                (le_n_S _ _ (dumps_length v indent 0)) I) as Hparse.
  rewrite StrFacts.append_empty_r in Hparse. now rewrite Hparse.
Qed.

End JsonFacts.

(** * The ledger on disk, with the codec *)

Section Ledger.

Variable P : platform.
Variable cfg : config.

(** C9. Round trip.  After a [save_history] that returns, [load_history]
    gives what the codec reads back from its own dump of the ledger, and
    leaves the world alone.  With the codec of [json], that is the ledger
    itself: for every ledger mapping, saving it and then loading it, in any
    later world whose history file is still what was written, gives the same
    mapping, with the same keys and the same values. *)
Theorem save_load_history (h : gmap string json) (w w' : world) :
  save_history P cfg (JDict h) w = (Ok tt, w') ->
  load_history P cfg w' =
    (Ok (default (JDict ∅)
           (json_loads P (json_dumps P (Some 2%nat) (JDict h)))), w') /\
  (Demo.has_codec P ->
   forall w'' : world,
     fs w'' !! HISTORY_FILE cfg = fs w' !! HISTORY_FILE cfg ->
     load_history P cfg w'' = (Ok (JDict h), w'') /\
     forall (k : string) (d : gmap string json),
       load_history P cfg w'' = (Ok (JDict d), w'') -> d !! k = h !! k).
Proof.
  intros Hsave.
  pose proof (save_history_file P cfg _ w w' Hsave) as Hfile.
  split; [exact (load_history_text P cfg w' _ Hfile)|].
  intros [Hdumps Hloads] w'' Hsame. rewrite Hfile in Hsame.
  pose proof (load_history_text P cfg w'' _ Hsame) as Hload.
  rewrite Hdumps, Hloads, JsonFacts.loads_dumps in Hload. simpl in Hload.
  split; [exact Hload|].
  intros k d. rewrite Hload. now intros [= <-].
Qed.

End Ledger.

(** The ledger comes back from the disk as it was saved. *)
Lemma save_load_history_demo :
  load_history Demo.P_ok Demo.cfg0
    (snd (save_history Demo.P_ok Demo.cfg0 (JDict Demo.ledger0) Demo.w0)) =
    (Ok (JDict Demo.ledger0),
     snd (save_history Demo.P_ok Demo.cfg0 (JDict Demo.ledger0) Demo.w0)).
Proof.
  apply (save_load_history Demo.P_ok Demo.cfg0 Demo.ledger0 Demo.w0
           (snd (save_history Demo.P_ok Demo.cfg0 (JDict Demo.ledger0) Demo.w0))).
  - vm_compute. reflexivity.
  - split; reflexivity.
  - reflexivity.
Defined.
